(** * Crowd Density Predictor (script.js): a shallow embedding of its core

    The dataset generator, the quartile engine, the density classifier and
    the per-location hour aggregation of [script.js], with the properties
    its specification states about them.

    Conventions of the embedding.
    - JavaScript numbers are modelled by the rationals they denote:
      integers by [Z], other finite numbers by [Q] (every finite double is
      a rational).  Where the script rounds a computed number,
      in [computeFootfallSample], [gaussianRandom] and the hour averages
      of [animateHeatPreview], the model rounds every product and sum to
      binary64 as the engine does ([double], [mul64], [add64]), and a
      decimal literal that enters such a product stands for the double
      nearest to it.  The index computations of the script ([n*0.25],
      [n*0.50], [n*0.75] and [Math.random()*16], [Math.random()*7],
      [Math.random()*5]) are exact or stay on the same side of the next
      integer in binary64 for array lengths, so [Math.floor] of them is
      the floor of the exact product; the quotient of a footfall sum below
      2^52 by a count is rounded by [Math.round] as the exact quotient is.
      Comparisons, the temperature and the coordinates on the canvas are
      kept exact: what is shown of them are bounds, which rounding to
      binary64 keeps.
    - A function returns [None] where the JavaScript run would read
      [undefined] out of an array or object and go on computing with it,
      or where the number it computes is [NaN]; the theorems show where
      this does not occur.  In the generator [None] is also the answer
      when the tape of uniform draws is used up, which is how a redraw
      loop that never ends shows.
    - The objects used as tables of numbers are read with [member]: a
      name yields the table's own property, or the function or object
      that every object inherits under that name from [Object.prototype],
      or [undefined].  An inherited member is truthy and not a number, so
      a product that it enters is [NaN].  The objects whose names are
      hours or the labels of the script are finite maps of their own
      properties.
    - [Array.prototype.sort] is the stable sort of ECMAScript 2019.
    - Global variables of the script are fields of the record [Globals],
      passed explicitly; the page and its event handlers are left out. *)

From Stdlib Require Import ZArith QArith Qround Qabs Lia List.
From Stdlib Require Import Sorting.Permutation Sorting.Sorted.
From Stdlib Require Import Qminmax Lqa Ascii.
From Stdlib Require Floats.
From stdpp Require Import gmap strings list.

Local Open Scope string_scope.
Local Open Scope list_scope.
Local Open Scope Z_scope.

(** ** JavaScript primitives used by the script *)

(** [Math.round]: the nearest integer, halves towards plus infinity. *)
Definition Math_round (x : Q) : Z := Qfloor (x + (1 # 2))%Q.

(** [Math.floor(n * p)] for an array length [n] and a constant [p]. *)
Definition floor_mul (n : nat) (p : Q) : nat :=
  Z.to_nat (Qfloor (inject_Z (Z.of_nat n) * p)%Q).

(** [a || d] on a number read from an object: the default replaces
    [undefined] and the falsy number [0]. *)
Definition or_num (o : option Q) (d : Q) : Q :=
  match o with
  | Some v => if Qeq_bool v 0 then d else v
  | None => d
  end.

Definition or_int (o : option Z) (d : Z) : Z :=
  match o with
  | Some v => if v =? 0 then d else v
  | None => d
  end.

(** [a ?? d]: the default replaces [undefined] only. *)
Definition nullish (o : option Q) (d : Q) : Q :=
  match o with Some v => v | None => d end.

(** Truthiness of the numeric flags [0] / [1]. *)
Definition truthy (z : Z) : bool := negb (z =? 0).

(** ** Binary64

    A finite number is the rational it denotes.  [double x] is the
    double nearest to [x], a tie going to the even significand: a
    significand of 53 bits from 2^-1022 on, a multiple of 2^-1074 below.
    From 2^1024 on the nearest double is [Infinity], which the model
    leaves out: the factors of the script are below 2^11 and the variate
    of two draws of the engine is below 39 in magnitude, so that no
    product or sum of the script comes near it. *)

(** The integer nearest to [x], a tie going to the even one. *)
Definition round_even (x : Q) : Z :=
  let f := Qfloor x in
  match (x - inject_Z f ?= 1 # 2)%Q with
  | Lt => f
  | Gt => f + 1
  | Eq => if Z.even f then f else f + 1
  end.

(** The [e] with [2^e <= a < 2^(e+1)], for [0 < a]. *)
Definition binade (a : Q) : Z :=
  let e := Z.log2 (Qnum a) - Z.log2 (Z.pos (Qden a)) in
  if Qle_bool (Qpower 2 e) a then e else e - 1.

Definition double (x : Q) : Q :=
  if Qeq_bool x 0 then 0%Q
  else
    let a := Qabs x in
    let ulp := Qpower 2 (Z.max (binade a) (-1022) - 52) in
    let m := inject_Z (round_even (a / ulp)) in
    Qred (if Qle_bool 0 x then m * ulp else - (m * ulp)).

(** [a * b] and [a + b] on numbers. *)
Definition mul64 (a b : Q) : Q := double (a * b).

Definition add64 (a b : Q) : Q := double (a + b).

Notation "a *! b" := (mul64 a b) (at level 40, left associativity).
Notation "a +! b" := (add64 a b) (at level 50, left associativity).

(** ** Tables of numbers

    [o[k]] for an object literal [o] whose own properties are numbers and
    any string [k].  A name that [o] does not have is looked up in
    [Object.prototype]: its members are functions, and [__proto__] yields
    the prototype itself. *)
Definition Object_prototype : list string :=
  [ "constructor"; "__defineGetter__"; "__defineSetter__"; "hasOwnProperty";
    "__lookupGetter__"; "__lookupSetter__"; "isPrototypeOf";
    "propertyIsEnumerable"; "toString"; "valueOf"; "__proto__";
    "toLocaleString" ].

Inductive Member :=
| Number (q : Q)
| Inherited
| Undefined.

Definition inherited (k : string) : bool :=
  bool_decide (k ∈ Object_prototype).

Definition member (o : gmap string Q) (k : string) : Member :=
  match o !! k with
  | Some q => Number q
  | None => if inherited k then Inherited else Undefined
  end.

(** [m || d] as a factor of a product, for a member [m] and a literal
    [d]: an own property is the double of its literal, and [d] replaces
    [undefined] and [0]; an inherited member is truthy and stays, and the
    product is [NaN]. *)
Definition or_factor (m : Member) (d : Q) : option Q :=
  match m with
  | Number q => Some (or_num (Some (double q)) (double d))
  | Inherited => None
  | Undefined => Some (or_num None (double d))
  end.

(** [m ?? d] as a factor of a product. *)
Definition nullish_factor (m : Member) (d : Q) : option Q :=
  match m with
  | Number q => Some (nullish (Some (double q)) (double d))
  | Inherited => None
  | Undefined => Some (nullish None (double d))
  end.

(** [Array.prototype.sort(cmp)]: the sort is stable, so the result is the
    one of a stable insertion sort: an element goes in front of the first
    element it does not compare greater than. *)
Section JsSort.
Context {A : Type} (cmp : A -> A -> Z).

Fixpoint sort_insert (x : A) (l : list A) : list A :=
  match l with
  | [] => [x]
  | y :: l' => if cmp x y <=? 0 then x :: y :: l' else y :: sort_insert x l'
  end.

Definition js_sort (l : list A) : list A := foldr sort_insert [] l.
End JsSort.

(** ** Data model *)

Module Row.
Record t := mk {
  datetime : string;
  date : string;
  day_of_week : Z;
  month : Z;
  hour : Z;
  location : string;
  weather : string;
  temperature : Q;
  is_festival : Z;
  is_holiday : Z;
  footfall : Z;
  density_label : option string;
  density_int : option Z
}.
End Row.

Module Quartiles.
Record t := mk { q1 : Z; q2 : Z; q3 : Z }.
End Quartiles.

Module HourAvg.
Record t := mk { hour : Z; avg : Z }.
End HourAvg.

Module LocStats.
Record t := mk { q1 : Z; q2 : Z; q3 : Z; topHours : list HourAvg.t }.
End LocStats.

(** The mutable globals of the script. *)
Record Globals := mkGlobals {
  DATASET : list Row.t;
  SAMPLES_SORTED : list Z;
  QUARTILES : option Quartiles.t;
  PER_LOCATION_STATS : gmap string LocStats.t
}.

(** Their values when the script is loaded: [QUARTILES] is [null]. *)
Definition initial_globals : Globals :=
  mkGlobals [] [] None ∅.

(** ** Configuration tables *)

Definition LOCATIONS : list string :=
  [ "Chamundi_Temple"; "Nanjangud_Temple"; "Srirangapatna_Temple";
    "Mysore_Palace"; "Brindavan_Gardens"; "Mysore_Zoo"; "KRS_Dam" ].

Definition locPopularity : gmap string Q :=
  list_to_map
    [ ("Chamundi_Temple", 12 # 10); ("Nanjangud_Temple", 9 # 10);
      ("Srirangapatna_Temple", 6 # 10); ("Mysore_Palace", 15 # 10);
      ("Brindavan_Gardens", 11 # 10); ("Mysore_Zoo", 1 # 1);
      ("KRS_Dam", 7 # 10) ]%Q.

Definition baseScale : gmap string Q :=
  list_to_map
    [ ("Chamundi_Temple", 500 # 1); ("Nanjangud_Temple", 300 # 1);
      ("Srirangapatna_Temple", 150 # 1); ("Mysore_Palace", 800 # 1);
      ("Brindavan_Gardens", 450 # 1); ("Mysore_Zoo", 350 # 1);
      ("KRS_Dam", 200 # 1) ]%Q.

(** [weatherMultiplier], in the order of its keys ([Object.keys]). *)
Definition weatherMultiplier_entries : list (string * Q) :=
  [ ("Clear", 1 # 1); ("Cloudy", 95 # 100); ("Rain", 6 # 10);
    ("Hot", 8 # 10); ("Humid", 9 # 10) ]%Q.

Definition weatherMultiplier : gmap string Q :=
  list_to_map weatherMultiplier_entries.

Definition FESTIVAL_DATES : gset string :=
  list_to_set
    [ "2024-01-14"; "2024-01-26"; "2024-02-14"; "2024-03-08"; "2024-03-25";
      "2024-04-09"; "2024-04-22"; "2024-05-01"; "2024-08-15"; "2024-10-02";
      "2024-10-24"; "2024-11-01"; "2024-11-12"; "2024-12-25";
      "2025-01-14"; "2025-02-14"; "2025-03-17"; "2025-04-21"; "2025-11-04" ].

(** ** Time and temperature helpers *)

Definition timeFactor (hour : Z) : Q :=
  if (6 <=? hour) && (hour <? 9) then 9 # 10
  else if (9 <=? hour) && (hour <? 12) then 1 # 1
  else if (12 <=? hour) && (hour <? 15) then 8 # 10
  else if (15 <=? hour) && (hour <? 18) then 11 # 10
  else if (18 <=? hour) && (hour <? 21) then 14 # 10
  else 6 # 10.

(** [a < b] on numbers, as a boolean. *)
Definition Qlt_bool (a b : Q) : bool := negb (Qle_bool b a).

Definition tempFactor (temp : Q) : Q :=
  if Qlt_bool (32 # 1) temp then 8 # 10
  else if Qlt_bool temp (20 # 1) then 85 # 100
  else 1 # 1.

(** ** Density classifier *)

Definition mapToDensityLabel (g : Globals) (footfall : Z) : string :=
  match QUARTILES g with
  | None => "Unknown"
  | Some Q =>
      if footfall <=? Quartiles.q1 Q then "Low"
      else if footfall <=? Quartiles.q2 Q then "Medium"
      else if footfall <=? Quartiles.q3 Q then "High"
      else "Very_High"
  end.

(** The object literal [{Low:0, Medium:1, High:2, Very_High:3}] of the
    labelling loop, read at a label. *)
Definition density_int_of : gmap string Z :=
  list_to_map [ ("Low", 0); ("Medium", 1); ("High", 2); ("Very_High", 3) ].

(** ** Objects keyed by numbers

    [hourBuckets] and [counts] are plain objects whose property names are
    hours.  [Object.keys] lists the names that are array indices
    (integers from 0 to 2^32 - 2) first, in ascending numeric order, and
    the other names after them in the order of their creation.  An object
    is the list of its properties in that order. *)
Section JsObject.
Context {V : Type}.

Definition is_index (k : Z) : bool := (0 <=? k) && (k <? 2 ^ 32 - 1).

Fixpoint obj_get (k : Z) (o : list (Z * V)) : option V :=
  match o with
  | [] => None
  | (k', v) :: o' => if k =? k' then Some v else obj_get k o'
  end.

Fixpoint obj_set (k : Z) (v : V) (o : list (Z * V)) : list (Z * V) :=
  match o with
  | [] => [(k, v)]
  | (k', v') :: o' =>
      if k =? k' then (k, v) :: o'
      else if is_index k && (negb (is_index k') || (k <? k'))
      then (k, v) :: (k', v') :: o'
      else (k', v') :: obj_set k v o'
  end.

Definition obj_keys (o : list (Z * V)) : list Z := map fst o.
End JsObject.

(** [a[i]] for a number [i]: [None] stands for [undefined]. *)
Definition arr_get {A : Type} (a : list A) (i : Z) : option A :=
  if i <? 0 then None else a !! Z.to_nat i.

(** [Number(x.toFixed(1))]: one decimal, halves away from zero. *)
Definition toFixed1 (x : Q) : Q :=
  if Qlt_bool x 0
  then (- (Qfloor (- x * (10 # 1) + (1 # 2)) # 10))%Q
  else (Qfloor (x * (10 # 1) + (1 # 2)) # 10)%Q.

(** ** The uniform source

    [Math.random] reads the next draw of a tape; a computation that
    draws is a function of the tape that returns its result with the
    rest of the tape. *)
Definition Rand (A : Type) : Type := list Q -> option (A * list Q).

Definition ret {A : Type} (a : A) : Rand A := fun t => Some (a, t).

Definition bind {A B : Type} (m : Rand A) (k : A -> Rand B) : Rand B :=
  fun t => match m t with
           | Some (a, t') => k a t'
           | None => None
           end.

Notation "x <- m ;; k" := (bind m (fun x => k))
  (at level 60, m at next level, right associativity).

Definition lift {A : Type} (o : option A) : Rand A :=
  fun t => match o with Some a => Some (a, t) | None => None end.

Definition Math_random : Rand Q :=
  fun t => match t with
           | [] => None
           | u :: t' => Some (u, t')
           end.

(** [let u = 0; while (u === 0) u = Math.random();]: the first nonzero
    draw of the tape. *)
Fixpoint draw_nonzero (t : list Q) : option (Q * list Q) :=
  match t with
  | [] => None
  | u :: t' => if Qeq_bool u 0 then draw_nonzero t' else Some (u, t')
  end.

(** ** The host: [Math] and [Date]

    What the model leaves to the JavaScript engine.  Instants are
    milliseconds since the epoch. *)
Class Host := {
  (** the number [Math.sqrt(-2.0 * Math.log(u)) * Math.cos(2.0 * Math.PI * v)] *)
  boxMuller : Q -> Q -> Q;
  getFullYear : Z -> Z;
  getMonth : Z -> Z;
  getDate : Z -> Z;
  getDay : Z -> Z;
  toISOString : Z -> string;
  (** [d.setFullYear(y)] *)
  setFullYear : Z -> Z -> Z;
  (** [new Date(y, m, d).getTime()] *)
  Date_ymd : Z -> Z -> Z -> Z;
  getMonth_range : forall t, 0 <= getMonth t < 12
}.

(** The clock: [new Date()] reads the next instant of a stream. *)
Record World := mkWorld {
  randoms : list Q;
  clock : nat -> Z;
  ticks : nat
}.

Definition Date_now (w : World) : Z * World :=
  (clock w (ticks w), mkWorld (randoms w) (clock w) (S (ticks w))).

Section Generator.
Context `{Host}.

Definition gaussianRandom (mean std : Q) : Rand Q :=
  u <- draw_nonzero ;;
  v <- draw_nonzero ;;
  let z := boxMuller u v in
  ret (z *! std +! mean).

(** [None] also stands for the footfall [NaN], which the script computes
    for a location or a weather named like a member of
    [Object.prototype]. *)
Definition computeFootfallSample (location : string) (hour : Z)
    (weather : string) (temp : Q) (is_festival is_holiday : Z) : Rand Z :=
  pop <- lift (or_factor (member locPopularity location) (1 # 1)) ;;
  let tf := double (timeFactor hour) in
  let festivalFactor : Q :=
    if truthy is_festival then double (2 # 1) else double (1 # 1) in
  let holidayFactor : Q :=
    if truthy is_holiday then double (14 # 10) else double (1 # 1) in
  wmul <- lift (nullish_factor (member weatherMultiplier weather) (1 # 1)) ;;
  let tfac := double (tempFactor temp) in
  base <- lift (or_factor (member baseScale location) (200 # 1)) ;;
  let noiseStd := base *! double (15 # 100) in
  noise <- gaussianRandom 0 noiseStd ;;
  let footfall :=
    Z.max 0 (Math_round (base *! pop *! tf *! festivalFactor *! holidayFactor
                         *! wmul *! tfac +! noise)) in
  ret footfall.

Definition base_temp_by_month : list Q :=
  [22 # 1; 23 # 1; 25 # 1; 27 # 1; 28 # 1; 28 # 1;
   27 # 1; 27 # 1; 26 # 1; 25 # 1; 24 # 1; 23 # 1]%Q.

Definition weatherTypes : list string := map fst weatherMultiplier_entries.

(** The statements after the weather draw, the same in both loops. *)
Definition finish_row (dt month : Z) (dateStr : string) (dow hour : Z)
    (location weather : string) : Rand Row.t :=
  base_temp <- lift (arr_get base_temp_by_month (month - 1)) ;;
  r <- Math_random ;;
  let temp := (base_temp + (r * (4 # 1) - (2 # 1)))%Q in
  is_festival <-
    (if decide (dateStr ∈ FESTIVAL_DATES) then ret 1
     else r <- Math_random ;;
          ret (if Qlt_bool r (2 # 100) then 1 else 0)) ;;
  let is_holiday := if (dow =? 0) || (dow =? 6) then 1 else 0 in
  footfall <-
    computeFootfallSample location hour weather temp is_festival is_holiday ;;
  ret (Row.mk (toISOString dt) dateStr dow month hour location weather
              (toFixed1 temp) is_festival is_holiday footfall None None).

(** One turn of the loop of [generateDataset]. *)
Definition generateDataset_row (start msRange seedOffset : Z) : Rand Row.t :=
  r <- Math_random ;;
  let randMs := Qfloor (r * inject_Z msRange) in
  let dt := start + randMs + or_int (Some seedOffset) 0 in
  let month := getMonth dt + 1 in
  let dateStr := String.substring 0 10 (toISOString dt) in
  let dow := getDay dt in
  r <- Math_random ;;
  let hour := Qfloor (r * inject_Z (21 - 6 + 1)) + 6 in
  r <- Math_random ;;
  location <-
    lift (arr_get LOCATIONS
            (Qfloor (r * inject_Z (Z.of_nat (length LOCATIONS))))) ;;
  c <- Math_random ;;
  i <- (if Qlt_bool c (6 # 10)
        then r <- Math_random ;; ret (Qfloor (r * (1 # 1)))
        else r <- Math_random ;;
             ret (Qfloor (r * inject_Z (Z.of_nat (length weatherTypes))))) ;;
  let weather := default "Clear" (arr_get weatherTypes i) in
  finish_row dt month dateStr dow hour location weather.

(** One turn of the loop of [generateChunkAndAppend]. *)
Definition generateChunkAndAppend_row (start msRange : Z) : Rand Row.t :=
  r <- Math_random ;;
  let randMs := Qfloor (r * inject_Z msRange) in
  let dt := start + randMs in
  let month := getMonth dt + 1 in
  let dateStr := String.substring 0 10 (toISOString dt) in
  let dow := getDay dt in
  r <- Math_random ;;
  let hour := Qfloor (r * inject_Z (21 - 6 + 1)) + 6 in
  r <- Math_random ;;
  location <-
    lift (arr_get LOCATIONS
            (Qfloor (r * inject_Z (Z.of_nat (length LOCATIONS))))) ;;
  c <- Math_random ;;
  weather <-
    (if Qlt_bool c (65 # 100) then ret "Clear"
     else r <- Math_random ;;
          lift (arr_get weatherTypes
                  (Qfloor (r * inject_Z (Z.of_nat (length weatherTypes)))))) ;;
  finish_row dt month dateStr dow hour location weather.

(** [for (let i = 0; i < n; i++) { ...; DATASET.push(row) }] *)
Fixpoint push_rows (n : nat) (row : Rand Row.t) (dataset : list Row.t)
    : Rand (list Row.t) :=
  match n with
  | O => ret dataset
  | S n' => r <- row ;; push_rows n' row (dataset ++ [r])
  end.
End Generator.

(** ** Quartiles and labelling *)

Definition set_DATASET (d : list Row.t) (g : Globals) : Globals :=
  mkGlobals d (SAMPLES_SORTED g) (QUARTILES g) (PER_LOCATION_STATS g).

Definition set_SAMPLES_SORTED (s : list Z) (g : Globals) : Globals :=
  mkGlobals (DATASET g) s (QUARTILES g) (PER_LOCATION_STATS g).

Definition set_QUARTILES (q : option Quartiles.t) (g : Globals) : Globals :=
  mkGlobals (DATASET g) (SAMPLES_SORTED g) q (PER_LOCATION_STATS g).

Definition set_PER_LOCATION_STATS (s : gmap string LocStats.t) (g : Globals)
    : Globals :=
  mkGlobals (DATASET g) (SAMPLES_SORTED g) (QUARTILES g) s.

(** The comparator [(a,b) => a - b]. *)
Definition ascending (a b : Z) : Z := a - b.

(** The body of the labelling loop: the assignments to [r.density_label]
    and [r.density_int]. *)
Definition label_row (q1 q2 q3 : Z) (r : Row.t) : Row.t :=
  let density_label :=
    if Row.footfall r <=? q1 then "Low"
    else if Row.footfall r <=? q2 then "Medium"
    else if Row.footfall r <=? q3 then "High"
    else "Very_High" in
  Row.mk (Row.datetime r) (Row.date r) (Row.day_of_week r) (Row.month r)
         (Row.hour r) (Row.location r) (Row.weather r) (Row.temperature r)
         (Row.is_festival r) (Row.is_holiday r) (Row.footfall r)
         (Some density_label) (density_int_of !! density_label).

Definition computeGlobalQuartilesAndLabels (g : Globals) : option Globals :=
  let g := set_SAMPLES_SORTED
             (js_sort ascending (map Row.footfall (DATASET g))) g in
  let n := length (SAMPLES_SORTED g) in
  if (n =? 0)%nat then Some (set_QUARTILES (Some (Quartiles.mk 0 0 0)) g)
  else
    q1 ← SAMPLES_SORTED g !! floor_mul n (25 # 100);
    q2 ← SAMPLES_SORTED g !! floor_mul n (50 # 100);
    q3 ← SAMPLES_SORTED g !! floor_mul n (75 # 100);
    let g := set_QUARTILES (Some (Quartiles.mk q1 q2 q3)) g in
    Some (set_DATASET (map (label_row q1 q2 q3) (DATASET g)) g).

(** ** Per-location statistics *)

(** The loop that fills [hourBuckets] and [counts] for one location. *)
Definition bucket_step (loc : string)
    (acc : list (Z * Z) * list (Z * Z)) (row : Row.t)
    : list (Z * Z) * list (Z * Z) :=
  let '(hourBuckets, counts) := acc in
  if negb (String.eqb (Row.location row) loc) then acc
  else
    let hourBuckets :=
      obj_set (Row.hour row)
        (or_int (obj_get (Row.hour row) hourBuckets) 0 + Row.footfall row)
        hourBuckets in
    let counts :=
      obj_set (Row.hour row)
        (or_int (obj_get (Row.hour row) counts) 0 + 1) counts in
    (hourBuckets, counts).

(** The function mapped over [Object.keys(hourBuckets)]; a division by
    an absent or zero count is not a number of the model. *)
Definition hour_average (hourBuckets counts : list (Z * Z)) (h : Z)
    : option HourAvg.t :=
  s ← obj_get h hourBuckets;
  c ← obj_get h counts;
  if c =? 0 then None
  else Some (HourAvg.mk h (Math_round (inject_Z s / inject_Z c)%Q)).

(** The comparator [(a,b) => b.avg - a.avg]. *)
Definition by_avg_desc (a b : HourAvg.t) : Z := HourAvg.avg b - HourAvg.avg a.

(** The body of the loop over [LOCATIONS]: the value stored at
    [PER_LOCATION_STATS[loc]]. *)
Definition location_stats (dataset : list Row.t) (loc : string)
    : option LocStats.t :=
  let items :=
    js_sort ascending
      (map Row.footfall
         (filter (fun d => String.eqb (Row.location d) loc = true) dataset)) in
  if (length items =? 0)%nat then Some (LocStats.mk 0 0 0 [])
  else
    let n := length items in
    q1 ← items !! floor_mul n (25 # 100);
    q2 ← items !! floor_mul n (50 # 100);
    q3 ← items !! floor_mul n (75 # 100);
    let '(hourBuckets, counts) := foldl (bucket_step loc) ([], []) dataset in
    avgs ← mapM (hour_average hourBuckets counts) (obj_keys hourBuckets);
    let avgPerHour := take 5 (js_sort by_avg_desc avgs) in
    Some (LocStats.mk q1 q2 q3 avgPerHour).

Definition computePerLocationStats (g : Globals) : option Globals :=
  stats ← foldl (fun acc loc =>
                   m ← acc;
                   st ← location_stats (DATASET g) loc;
                   Some (<[loc := st]> m))
                (Some ∅) LOCATIONS;
  Some (set_PER_LOCATION_STATS stats g).

(** ** The two generators *)
Section Generators.
Context `{Host}.

Definition generateDataset (n : nat) (seedOffset : Z)
    (g : Globals) (w : World) : option (Globals * World) :=
  let g := set_DATASET [] g in
  let '(today, w) := Date_now w in
  let start := setFullYear today (getFullYear today - 2) in
  let '(now, w) := Date_now w in
  let msRange := now - start in
  '(dataset, tape) ←
     push_rows n (generateDataset_row start msRange seedOffset)
               (DATASET g) (randoms w);
  let g := set_DATASET dataset g in
  g ← computeGlobalQuartilesAndLabels g;
  g ← computePerLocationStats g;
  Some (g, mkWorld tape (clock w) (ticks w)).

Definition generateChunkAndAppend (n : nat)
    (g : Globals) (w : World) : option (Globals * World) :=
  let '(now, w) := Date_now w in
  let start := Date_ymd (getFullYear now - 2) (getMonth now) (getDate now) in
  let msRange := now - start in
  '(dataset, tape) ←
     push_rows n (generateChunkAndAppend_row start msRange)
               (DATASET g) (randoms w);
  Some (set_DATASET dataset g, mkWorld tape (clock w) (ticks w)).
End Generators.

(** ** A host to run the model on

    The proleptic Gregorian calendar with the local time zone at UTC, and
    a given function for the Box-Muller variate.  The theorems hold for
    every host; this one evaluates the model on concrete inputs. *)
Module UTC.
Definition msPerDay : Z := 86400000.

Definition days_from_civil (y m d : Z) : Z :=
  let y := if m <=? 2 then y - 1 else y in
  let era := y / 400 in
  let yoe := y - era * 400 in
  let doy := (153 * (if 2 <? m then m - 3 else m + 9) + 2) / 5 + d - 1 in
  let doe := yoe * 365 + yoe / 4 - yoe / 100 + doy in
  era * 146097 + doe - 719468.

(** Year, month (0 to 11) and day of the month of a day number. *)
Definition civil_from_days (z : Z) : Z * Z * Z :=
  let z := z + 719468 in
  let era := z / 146097 in
  let doe := z - era * 146097 in
  let yoe := (doe - doe / 1460 + doe / 36524 - doe / 146096) / 365 in
  let doy := doe - (365 * yoe + yoe / 4 - yoe / 100) in
  let mp := (5 * doy + 2) / 153 in
  let d := doy - (153 * mp + 2) / 5 + 1 in
  let m := (mp + 2) mod 12 in
  (yoe + era * 400 + (if m <? 2 then 1 else 0), m, d).

Definition year (t : Z) : Z := fst (fst (civil_from_days (t / msPerDay))).
Definition month (t : Z) : Z := snd (fst (civil_from_days (t / msPerDay))).
Definition day (t : Z) : Z := snd (civil_from_days (t / msPerDay)).
Definition weekday (t : Z) : Z := (t / msPerDay + 4) mod 7.

Definition ymd (y m d : Z) : Z :=
  (days_from_civil (y + m / 12) (m mod 12 + 1) 1 + d - 1) * msPerDay.

Definition with_year (t y : Z) : Z :=
  ymd y (month t) (day t) + t mod msPerDay.

Definition digit (n : Z) : string :=
  String (Ascii.ascii_of_nat (48 + Z.to_nat (n mod 10))) "".

Fixpoint pad (width : nat) (n : Z) : string :=
  match width with
  | O => ""
  | S w => pad w (n / 10) +:+ digit n
  end.

Definition iso (t : Z) : string :=
  let ms := t mod msPerDay in
  pad 4 (year t) +:+ "-" +:+ pad 2 (month t + 1) +:+ "-" +:+ pad 2 (day t)
  +:+ "T" +:+ pad 2 (ms / 3600000) +:+ ":" +:+ pad 2 (ms / 60000 mod 60)
  +:+ ":" +:+ pad 2 (ms / 1000 mod 60) +:+ "." +:+ pad 3 (ms mod 1000)
  +:+ "Z".

Definition month_range (t : Z) : 0 <= month t < 12 :=
  Z.mod_pos_bound _ 12 eq_refl.

Definition host (variate : Q -> Q -> Q) : Host :=
  {| boxMuller := variate;
     getFullYear := year;
     getMonth := month;
     getDate := day;
     getDay := weekday;
     toISOString := iso;
     setFullYear := with_year;
     Date_ymd := ymd;
     getMonth_range := month_range |}.
End UTC.

(** ** The page

    The form controls the script reads and the result widgets it writes.
    A control holds the value the script gets out of it: the integer
    [parseInt] reads from the hour select, the number [parseFloat] reads
    from the temperature input ([None] for [NaN]).  The texts of the
    sample counter and of the quartiles line, the table and the analytics
    boxes are left out: they format numbers by the locale. *)
Module Style.
Record t := mk { bg : string; color : string }.
End Style.

(** The sparkline: the canvas size, the vertices of the line (a dot is
    drawn at each of them) and the centre of the footfall marker, as the
    script hands them to the canvas.  A coordinate down the canvas is
    [None] when the script computes [NaN] for it. *)
Module Heat.
Record t := mk {
  width : Z;
  height : Z;
  points : list (Q * option Q);
  marker : Q * option Q
}.
End Heat.

Record Page := mkPage {
  location_value : string;
  date_value : string;
  hour_value : Z;
  weather_value : string;
  temp_value : option Q;
  is_festival_checked : bool;
  is_holiday_checked : bool;
  heatArea_clientWidth : Z;
  resultArea_display : string;
  densityBadge_text : string;
  densityText_text : string;
  densityBadge_style : Style.t;
  footfall_shown : option Z;
  suggestion_text : string;
  heatArea_canvas : option Heat.t
}.

Definition badgeStyleFor (label : string) : Style.t :=
  if String.eqb label "Low" then Style.mk "#b6c6d6" "#031021"
  else if String.eqb label "Medium" then Style.mk "#ffd479" "#031021"
  else if String.eqb label "High" then Style.mk "#ff8aa1" "#031021"
  else if String.eqb label "Very_High" then Style.mk "#ff4f6d" "#031021"
  else Style.mk "#b6c6d6" "#031021".

(** [s.replace(c, d)] for one-character strings: the first [c] only. *)
Fixpoint replace_first (c d : Ascii.ascii) (s : string) : string :=
  match s with
  | EmptyString => EmptyString
  | String a s' =>
      if Ascii.eqb a c then String d s' else String a (replace_first c d s')
  end.

Definition queue_suggestion : string :=
  "Suggestion: arrive 1 hour earlier or choose a weekday. Expect queues.".

Definition calm_suggestion : string :=
  "Nice — crowd should be manageable at this time.".

(** [Math.max(...values, footfall, 1)] *)
Definition max_of (values : list Z) (footfall : Z) : Z :=
  foldr Z.max (Z.max footfall 1) values.

(** [Math.max(0, Math.min(1, x))] *)
Definition clamp01 (x : Q) : Q := Qmax 0 (Qmin 1 x).

Definition heat_hours : list Z := map (fun i => 6 + Z.of_nat i) (seq 0 16).

(** An hour average and [maxVal] are [None] when they are [NaN]: for a
    location named like a member of [Object.prototype]. *)
Definition animateHeatPreview (footfall : Z) (p : Page) : Heat.t :=
  let width := or_int (Some (heatArea_clientWidth p)) 300 in
  let height := 120 in
  let loc := if String.eqb (location_value p) "" then hd "" LOCATIONS
             else location_value p in
  let hourAverages : list (option Z) :=
    map (fun h =>
           base ← or_factor (member baseScale loc) (200 # 1);
           pop ← or_factor (member locPopularity loc) (1 # 1);
           Some (Math_round (base *! pop *! double (timeFactor h))))
        heat_hours in
  let maxVal : option Z :=
    averages ← mapM id hourAverages; Some (max_of averages footfall) in
  let points :=
    imap (fun i avg =>
            let x :=
              ((inject_Z (Z.of_nat i)
                / inject_Z (Z.of_nat (length hourAverages) - 1))
               * inject_Z (width - 20) + (10 # 1))%Q in
            let y : option Q :=
              avg ← avg; maxVal ← maxVal;
              Some (inject_Z height
                    - (inject_Z avg / inject_Z maxVal) * inject_Z (height - 30)
                    - (10 # 1))%Q in
            (x, y))
         hourAverages in
  let pct : option Q :=
    maxVal ← maxVal; Some (clamp01 (inject_Z footfall / inject_Z maxVal)) in
  let markerY : option Q :=
    pct ← pct;
    Some (inject_Z height - pct * inject_Z (height - 30) - (10 # 1))%Q in
  Heat.mk width height points (inject_Z (width - 18), markerY).

Definition showResult (label : string) (footfall : Z) (p : Page) : Page :=
  let text := replace_first "_"%char " "%char label in
  let style := badgeStyleFor label in
  let suggestion :=
    if String.eqb label "High" || String.eqb label "Very_High"
    then queue_suggestion else calm_suggestion in
  mkPage (location_value p) (date_value p) (hour_value p) (weather_value p)
         (temp_value p) (is_festival_checked p) (is_holiday_checked p)
         (heatArea_clientWidth p)
         "block" text text style (Some footfall) suggestion
         (Some (animateHeatPreview footfall p)).

(** An assignment to the form controls. *)
Definition set_form (location date : string) (hour : Z) (weather : string)
    (temp : option Q) (festival holiday : bool) (p : Page) : Page :=
  mkPage location date hour weather temp festival holiday
         (heatArea_clientWidth p) (resultArea_display p)
         (densityBadge_text p) (densityText_text p) (densityBadge_style p)
         (footfall_shown p) (suggestion_text p) (heatArea_canvas p).

(** [d.setDate(n)] is left to the host as well. *)
Class PageHost `{Host} := {
  setDate : Z -> Z -> Z
}.

Section PageFunctions.
Context `{PageHost}.

Definition predictFromUI (g : Globals) (p : Page) (w : World)
    : option (Page * World) :=
  let location := location_value p in
  let '(dateStr, w) :=
    if String.eqb (date_value p) ""
    then let '(now, w) := Date_now w in
         (String.substring 0 10 (toISOString now), w)
    else (date_value p, w) in
  let hour := hour_value p in
  let weather := weather_value p in
  let temp := or_num (temp_value p) (26 # 1) in
  let festival := if is_festival_checked p then 1 else 0 in
  let holiday := if is_holiday_checked p then 1 else 0 in
  '(footfall, tape) ←
     computeFootfallSample location hour weather temp festival holiday
                           (randoms w);
  let label := mapToDensityLabel g footfall in
  Some (showResult label footfall p, mkWorld tape (clock w) (ticks w)).

(** The draws of [randomizeInputs], after the clock is read. *)
Definition randomize_form (today : Z) (p : Page) : Rand Page :=
  r <- Math_random ;;
  location <-
    lift (arr_get LOCATIONS
            (Qfloor (r * inject_Z (Z.of_nat (length LOCATIONS))))) ;;
  r <- Math_random ;;
  let hour := Qfloor (r * inject_Z (21 - 6 + 1)) + 6 in
  r <- Math_random ;;
  let d := setDate today (getDate today + Qfloor (r * (90 # 1))) in
  let date := String.substring 0 10 (toISOString d) in
  r <- Math_random ;;
  weather <-
    lift (arr_get weatherTypes
            (Qfloor (r * inject_Z (Z.of_nat (length weatherTypes))))) ;;
  let month := getMonth d + 1 in
  base_temp <- lift (arr_get base_temp_by_month (month - 1)) ;;
  r <- Math_random ;;
  let temp := toFixed1 (base_temp + (r * (4 # 1) - (2 # 1)))%Q in
  r <- Math_random ;;
  let festival := Qlt_bool r (5 # 100) in
  let dow := getDay d in
  let holiday := (dow =? 0) || (dow =? 6) in
  ret (set_form location date hour weather (Some temp) festival holiday p).

Definition randomizeInputs (p : Page) (w : World) : option (Page * World) :=
  let '(today, w) := Date_now w in
  '(p, tape) ← randomize_form today p (randoms w);
  Some (p, mkWorld tape (clock w) (ticks w)).

(** Of [populateUI], on a document that has the elements it queries (the
    large card and the side card): the hour select is filled with 6 to 21
    and shows its first option, and the date input gets today's date.  The
    buttons and containers it creates are not part of [Page]. *)
Definition populateUI (p : Page) (w : World) : Page * World :=
  let '(now, w) := Date_now w in
  (set_form (location_value p) (String.substring 0 10 (toISOString now)) 6
            (weather_value p) (temp_value p)
            (is_festival_checked p) (is_holiday_checked p) p,
   w).

(** The loop of [initEverything]; [fuel] bounds its turns. *)
Fixpoint generate_chunks (fuel chunk safeN generated : nat)
    (g : Globals) (w : World) : option (Globals * World) :=
  if (generated <? safeN)%nat then
    match fuel with
    | O => None
    | S fuel' =>
        let toGen := Nat.min chunk (safeN - generated) in
        '(g, w) ← generateChunkAndAppend toGen g w;
        generate_chunks fuel' chunk safeN (generated + toGen) g w
    end
  else Some (g, w).

(** [initEverything] for the constants [desiredN] and [chunk]. *)
Definition initEverything_with (desiredN chunk : nat)
    (g : Globals) (p : Page) (w : World) : option (Globals * Page * World) :=
  let '(p, w) := populateUI p w in
  let safeN := Nat.min desiredN (Z.to_nat 70000) in
  let g := set_DATASET [] g in
  '(g, w) ← generate_chunks safeN chunk safeN 0 g w;
  g ← computeGlobalQuartilesAndLabels g;
  g ← computePerLocationStats g;
  '(p, w) ← randomizeInputs p w;
  '(p, w) ← predictFromUI g p w;
  Some (g, p, w).

Definition initEverything :=
  initEverything_with (Z.to_nat 50000) (Z.to_nat 5000).
End PageFunctions.

(** ** The CSV export *)

(** What a property of a row holds: a string, a number, or nothing. *)
Inductive JsValue :=
| JString (s : string)
| JNumber (q : Q)
| JUndefined.

Definition option_value {A : Type} (f : A -> JsValue) (o : option A) : JsValue :=
  match o with Some a => f a | None => JUndefined end.

Definition JInt (z : Z) : JsValue := JNumber (inject_Z z).

(** [r[h]] for a property name [h]. *)
Definition row_property (r : Row.t) (h : string) : JsValue :=
  if String.eqb h "datetime" then JString (Row.datetime r)
  else if String.eqb h "date" then JString (Row.date r)
  else if String.eqb h "day_of_week" then JInt (Row.day_of_week r)
  else if String.eqb h "month" then JInt (Row.month r)
  else if String.eqb h "hour" then JInt (Row.hour r)
  else if String.eqb h "location" then JString (Row.location r)
  else if String.eqb h "weather" then JString (Row.weather r)
  else if String.eqb h "temperature" then JNumber (Row.temperature r)
  else if String.eqb h "is_festival" then JInt (Row.is_festival r)
  else if String.eqb h "is_holiday" then JInt (Row.is_holiday r)
  else if String.eqb h "footfall" then JInt (Row.footfall r)
  else if String.eqb h "density_label" then
    option_value JString (Row.density_label r)
  else if String.eqb h "density_int" then option_value JInt (Row.density_int r)
  else JUndefined.

Definition csv_header : list string :=
  [ "datetime"; "date"; "day_of_week"; "month"; "hour"; "location"; "weather";
    "temperature"; "is_festival"; "is_holiday"; "footfall"; "density_label";
    "density_int" ].

(** The double quote and the line feed. *)
Definition dquote : Ascii.ascii := Ascii.ascii_of_nat 34.

Definition line_feed : string := String (Ascii.ascii_of_nat 10) EmptyString.

(** The global [replace] of the cell: every double quote is doubled. *)
Fixpoint double_quotes (s : string) : string :=
  match s with
  | EmptyString => EmptyString
  | String a s' =>
      if Ascii.eqb a dquote then String dquote (String dquote (double_quotes s'))
      else String a (double_quotes s')
  end.

(** [s.replace(/[:T]/g, '-')] *)
Fixpoint dash_time (s : string) : string :=
  match s with
  | EmptyString => EmptyString
  | String a s' =>
      String (if Ascii.eqb a ":"%char || Ascii.eqb a "T"%char
              then "-"%char else a)
             (dash_time s')
  end.

(** What [downloadDatasetCSV] does: an alert, or the download of a file. *)
Inductive Export :=
| Alert (message : string)
| Download (name content : string).

Section CsvExport.
(** [String(x)] for a number [x], left to the host. *)
Context `{Host} (Number_toString : Q -> string).

(** [String(v)] *)
Definition String_of (v : JsValue) : string :=
  match v with
  | JString s => s
  | JNumber q => Number_toString q
  | JUndefined => "undefined"
  end.

(** The function mapped over the header: the cell of a property. *)
Definition csv_cell (r : Row.t) (h : string) : string :=
  let v := row_property r h in
  let v := match v with JUndefined => JString "" | _ => v end in
  String dquote (double_quotes (String_of v) +:+ String dquote EmptyString).

Definition csv_row (r : Row.t) : string :=
  String.concat "," (map (csv_cell r) csv_header).

Definition downloadDatasetCSV (g : Globals) (w : World) : Export * World :=
  if (length (DATASET g) =? 0)%nat then (Alert "Dataset not generated yet.", w)
  else
    let rows := map csv_row (take (length (DATASET g)) (DATASET g)) in
    let csv := String.concat line_feed (String.concat "," csv_header :: rows) in
    let '(now, w) := Date_now w in
    let time := dash_time (String.substring 0 19 (toISOString now)) in
    (Download ("temple_crowd_dataset_" +:+ time +:+ ".csv") csv, w).
End CsvExport.

(** ** The specification's vocabulary *)

(** The four tiers, and the rank of a tier label under
    Low < Medium < High < Very_High. *)
Definition tiers : list string := ["Low"; "Medium"; "High"; "Very_High"].

Definition tier_rank (label : string) : option Z :=
  if String.eqb label "Low" then Some 0
  else if String.eqb label "Medium" then Some 1
  else if String.eqb label "High" then Some 2
  else if String.eqb label "Very_High" then Some 3
  else None.

Definition tier_le (a b : string) : Prop :=
  exists ra rb, tier_rank a = Some ra /\ tier_rank b = Some rb /\ ra <= rb.

(** A quartile set as the data model has it: non-decreasing. *)
Definition non_decreasing (q1 q2 q3 : Z) : Prop := q1 <= q2 /\ q2 <= q3.

(** The quartiles of a sample by the nearest-rank rule: the sorted sample
    read at [floor (n * p)] for p = 0.25, 0.50, 0.75, and zeros for the
    empty sample. *)
Definition nearest_rank (sorted : list Z) (p : Q) (q : Z) : Prop :=
  sorted !! Z.to_nat (Qfloor (inject_Z (Z.of_nat (length sorted)) * p)%Q)
  = Some q.

Definition is_quartiles (samples : list Z) (q1 q2 q3 : Z) : Prop :=
  match samples with
  | [] => q1 = 0 /\ q2 = 0 /\ q3 = 0
  | _ :: _ =>
      exists sorted,
        Permutation samples sorted /\ StronglySorted Z.le sorted /\
        nearest_rank sorted (1 # 4) q1 /\
        nearest_rank sorted (1 # 2) q2 /\
        nearest_rank sorted (3 # 4) q3
  end.

(** The footfall column of a location's rows. *)
Definition footfalls_at (loc : string) (dataset : list Row.t) : list Z :=
  map Row.footfall (filter (fun d => Row.location d = loc) dataset).

(** The rows of a location at an hour. *)
Definition rows_at (loc : string) (h : Z) (dataset : list Row.t) : list Row.t :=
  filter (fun d => Row.location d = loc /\ Row.hour d = h) dataset.

Definition sum_footfall (rows : list Row.t) : Z :=
  foldr (fun r acc => Row.footfall r + acc) 0 rows.

(** The order of the top-hours list: larger average first, and the
    smaller hour first among equal averages. *)
Definition busier (a b : HourAvg.t) : Prop :=
  HourAvg.avg b < HourAvg.avg a \/
  (HourAvg.avg a = HourAvg.avg b /\ HourAvg.hour a < HourAvg.hour b).

(** The invariant of a corpus. *)
Definition observation_ok (r : Row.t) : Prop :=
  6 <= Row.hour r <= 21 /\ 0 <= Row.footfall r /\ In (Row.location r) LOCATIONS.

(** Draws of [Math.random]: at least 0 and less than 1. *)
Definition unit_draw (u : Q) : Prop := (0 <= u)%Q /\ (u < 1)%Q.

(** The FootfallModel of the specification, written from its words: the
    stepwise time factor, the temperature factor, the festival and holiday
    factors, the weather table with its default, and the profile of a
    location (the constants of the script's tables) with its defaults.
    The mean is their product, a real number. *)
Definition time_factor (hour : Z) : Q :=
  if decide (6 <= hour < 9) then 9 # 10
  else if decide (9 <= hour < 12) then 1 # 1
  else if decide (12 <= hour < 15) then 8 # 10
  else if decide (15 <= hour < 18) then 11 # 10
  else if decide (18 <= hour < 21) then 14 # 10
  else 6 # 10.

Definition temperature_factor (t : Q) : Q :=
  if Qlt_le_dec (32 # 1) t then 8 # 10
  else if Qlt_le_dec t (20 # 1) then 85 # 100
  else 1 # 1.

Definition festival_factor (is_festival : bool) : Q :=
  if is_festival then 2 # 1 else 1 # 1.

Definition holiday_factor (is_holiday : bool) : Q :=
  if is_holiday then 14 # 10 else 1 # 1.

Definition weather_factor (weather : string) : Q :=
  if String.eqb weather "Clear" then 1 # 1
  else if String.eqb weather "Cloudy" then 95 # 100
  else if String.eqb weather "Rain" then 6 # 10
  else if String.eqb weather "Hot" then 8 # 10
  else if String.eqb weather "Humid" then 9 # 10
  else 1 # 1.

Definition base_scale (location : string) : Q :=
  default (200 # 1) (baseScale !! location).

Definition popularity (location : string) : Q :=
  default (1 # 1) (locPopularity !! location).

Definition expected_mean (location : string) (hour : Z) (weather : string)
    (temp : Q) (is_festival is_holiday : bool) : Q :=
  (base_scale location * popularity location * time_factor hour
   * festival_factor is_festival * holiday_factor is_holiday
   * weather_factor weather * temperature_factor temp)%Q.

(** The numeric flag of the script for a truth value. *)
Definition flag (b : bool) : Z := if b then 1 else 0.

(** The two means that lie half-way between two integers and whose
    binary64 product falls below the half. *)
Definition below_half (mean : Q) : Prop :=
  (mean == 833 # 2)%Q \/ (mean == 931 # 2)%Q.

(** The names are array indices, listed in ascending order. *)
Definition index_keys {V : Type} (o : list (Z * V)) : Prop :=
  StronglySorted Z.lt (obj_keys o) /\
  Forall (fun k => is_index k = true) (obj_keys o).

(** What [hourBuckets] and [counts] hold at an hour. *)
Definition total_at (loc : string) (h : Z) (rows : list Row.t) : option Z :=
  match rows_at loc h rows with
  | [] => None
  | _ :: _ => Some (sum_footfall (rows_at loc h rows))
  end.

Definition count_at (loc : string) (h : Z) (rows : list Row.t) : option Z :=
  match rows_at loc h rows with
  | [] => None
  | _ :: _ => Some (Z.of_nat (length (rows_at loc h rows)))
  end.

(** The entry of an hour in the aggregation: the arithmetic mean of the
    footfalls of the location's rows at that hour, rounded. *)
Definition hour_group (loc : string) (dataset : list Row.t) (h : Z)
    : HourAvg.t :=
  HourAvg.mk h
    (Math_round (inject_Z (sum_footfall (rows_at loc h dataset))
                 / inject_Z (Z.of_nat (length (rows_at loc h dataset))))%Q).

(** The end of [generateDataset]: quartiles, labels and statistics of the
    rows just generated. *)
Definition finish_dataset (dataset : list Row.t) (g : Globals) : option Globals :=
  g ← computeGlobalQuartilesAndLabels (set_DATASET dataset g);
  computePerLocationStats g.

(** ** Reasoning about computations that draw *)

(** [produces m P]: when [m] returns on a tape of uniform draws, its result
    satisfies [P] and the rest of the tape is one of uniform draws. *)
Definition produces {A : Type} (m : Rand A) (P : A -> Prop) : Prop :=
  forall t a t',
    Forall unit_draw t -> m t = Some (a, t') -> P a /\ Forall unit_draw t'.

(** The draws of a tape that end a redraw loop. *)
Definition nonzeros (t : list Q) : nat :=
  length (filter (fun u => Qeq_bool u 0 = false) t).

(** [runs k m]: [m] returns on every tape of uniform draws that has [k]
    nonzero draws, and uses up at most [k] of them. *)
Definition runs {A : Type} (k : nat) (m : Rand A) : Prop :=
  forall t,
    Forall unit_draw t -> (k <= nonzeros t)%nat ->
    exists a t', m t = Some (a, t') /\ (nonzeros t <= nonzeros t' + k)%nat.

Section GeneratorVocabulary.
Context `{Host}.

(** The fields of a generated row that the loop has fixed before the
    temperature is drawn. *)
Definition row_of (dt hour : Z) (location : string) (r : Row.t) : Prop :=
  Row.datetime r = toISOString dt /\ Row.hour r = hour /\
  Row.location r = location /\ 0 <= Row.footfall r /\
  Row.density_label r = None /\ Row.density_int r = None.

(** What a turn of either loop appends: an observation of the corpus
    whose instant is [start], a draw's share of [msRange] and [offset]. *)
Definition generated (start msRange offset : Z) (r : Row.t) : Prop :=
  observation_ok r /\
  Row.density_label r = None /\ Row.density_int r = None /\
  exists u, unit_draw u /\
            Row.datetime r
            = toISOString (start + Qfloor (u * inject_Z msRange) + offset).

(** The window of instants [generateDataset] draws from. *)
Definition dataset_start (w : World) : Z :=
  setFullYear (clock w (ticks w)) (getFullYear (clock w (ticks w)) - 2).

Definition dataset_msRange (w : World) : Z :=
  clock w (S (ticks w)) - dataset_start w.

(** The window of [generateChunkAndAppend]. *)
Definition chunk_start (w : World) : Z :=
  Date_ymd (getFullYear (clock w (ticks w)) - 2)
           (getMonth (clock w (ticks w))) (getDate (clock w (ticks w))).

Definition chunk_msRange (w : World) : Z := clock w (ticks w) - chunk_start w.

End GeneratorVocabulary.

(** ** Test data *)

(** Two hosts with a stub for the variate, the second one without noise,
    and a world of twenty-one draws. *)
Definition demo_host : Host := UTC.host (fun u v => (u - v) * (3 # 1))%Q.

Definition quiet_host : Host := UTC.host (fun _ _ => 0%Q).

Definition demo_world : World :=
  mkWorld [1 # 2; 1 # 3; 4 # 7; 1 # 10; 0 # 1; 1 # 2; 1 # 2; 1 # 5; 9 # 10;
           3 # 4; 15 # 16; 6 # 7; 7 # 10; 99 # 100; 1 # 2; 1 # 2; 0 # 1;
           0 # 1; 1 # 5; 9 # 10; 1 # 2]%Q
          (fun i => 1793596560000 + Z.of_nat i) 0.

(** A second world: the draws and the next two instants of [demo_world],
    behind three earlier readings of another clock. *)
Definition later_world : World :=
  mkWorld (randoms demo_world)
          (fun i => if (i <? 3)%nat then 0 else clock demo_world (i - 3))
          3.

(** Two calls of [generateDataset] in a row, with the same count and the
    same offset: the datasets they build. *)
Definition two_calls (H : Host) (n : nat) (seedOffset : Z) (w : World)
    : option (list Row.t * list Row.t) :=
  '(g1, w1) ← generateDataset n seedOffset initial_globals w;
  '(g2, w2) ← generateDataset n seedOffset g1 w1;
  Some (DATASET g1, DATASET g2).

(** A row with the given location, hour and footfall. *)
Definition observation (location : string) (hour footfall : Z) : Row.t :=
  Row.mk "2025-06-02T10:00:00.000Z" "2025-06-02" 1 6 hour location "Clear"
         (28 # 1) 0 0 footfall None None.

(** Nine rows: Mysore_Palace at seven hours, with two ties, and KRS_Dam. *)
Definition sample_globals : Globals :=
  set_DATASET
    [ observation "Mysore_Palace" 20 1651; observation "Mysore_Palace" 18 1700;
      observation "Mysore_Palace" 10 1200; observation "Mysore_Palace" 9 1200;
      observation "KRS_Dam" 9 140; observation "Mysore_Palace" 6 1000;
      observation "Mysore_Palace" 18 1601; observation "Mysore_Palace" 12 900;
      observation "Mysore_Palace" 15 1300 ]
    initial_globals.

(** ** Vocabulary of the further properties *)

(** The rows that carry a given label. *)
Definition count_label (label : string) (dataset : list Row.t) : nat :=
  length (filter (fun r => Row.density_label r = Some label) dataset).

(** The fields of a row that the statistics of a location read. *)
Definition stat_fields (r : Row.t) : string * Z * Z :=
  (Row.location r, Row.hour r, Row.footfall r).

(** The product of [computeFootfallSample] for the literals of its
    factors. *)
Definition product64 (base pop tf : Q) (festival holiday : bool)
    (wmul tfac : Q) : Q :=
  double base *! double pop *! double tf
  *! (if festival then double (2 # 1) else double (1 # 1))
  *! (if holiday then double (14 # 10) else double (1 # 1))
  *! double wmul *! double tfac.

(** The estimate of a context for a given noise, at a location and a
    weather that are own names of the tables or names unknown to every
    object. *)
Definition estimate (location : string) (hour : Z) (weather : string)
    (temp : Q) (is_festival is_holiday : Z) (noise : Q) : Z :=
  Z.max 0 (Math_round
             (product64 (default (200 # 1) (baseScale !! location))
                        (default (1 # 1) (locPopularity !! location))
                        (timeFactor hour)
                        (truthy is_festival) (truthy is_holiday)
                        (default (1 # 1) (weatherMultiplier !! weather))
                        (tempFactor temp)
              +! noise)).

(** The literals that the factors of a context range over: the profiles
    of the seven locations and the default one, and the values of the
    time, weather and temperature factors. *)
Definition profiles : list (Q * Q) :=
  [ (500 # 1, 12 # 10); (300 # 1, 9 # 10); (150 # 1, 6 # 10);
    (800 # 1, 15 # 10); (450 # 1, 11 # 10); (350 # 1, 1 # 1);
    (200 # 1, 7 # 10); (200 # 1, 1 # 1) ]%Q.

Definition time_factors : list Q :=
  [9 # 10; 1 # 1; 8 # 10; 11 # 10; 14 # 10; 6 # 10]%Q.

Definition weather_factors : list Q :=
  [1 # 1; 95 # 100; 6 # 10; 8 # 10; 9 # 10]%Q.

Definition temperature_factors : list Q := [8 # 10; 85 # 100; 1 # 1]%Q.

Definition Factors : Type := Q * Q * Q * bool * bool * Q * Q.

(** The footfall of a context at noise 0, and its mean in exact
    arithmetic. *)
Definition noise_free (c : Factors) : Z :=
  let '(b, p, tf, f, h, w, tc) := c in
  Z.max 0 (Math_round (product64 b p tf f h w tc +! 0)).

Definition exact_mean (c : Factors) : Q :=
  let '(b, p, tf, f, h, w, tc) := c in
  (b * p * tf * festival_factor f * holiday_factor h * w * tc)%Q.

Definition context_checked (c : Factors) : bool :=
  let m := exact_mean c in
  (noise_free c
   =? (if Qeq_bool m (833 # 2) || Qeq_bool m (931 # 2)
       then Math_round m - 1 else Math_round m))
  && (26 <=? noise_free c) && (noise_free c <=? 4704).

(** [context_checked] on every context of factors, the 2880 of them
    visited along the products they share. *)
Definition contexts_checked : bool :=
  forallb (fun bp : Q * Q =>
    let x := double bp.1 *! double bp.2 in
    forallb (fun tf : Q =>
      let x := x *! double tf in
      forallb (fun f : bool =>
        let x := x *! (if f then double (2 # 1) else double (1 # 1)) in
        forallb (fun h : bool =>
          let x := x *! (if h then double (14 # 10) else double (1 # 1)) in
          forallb (fun w : Q =>
            let x := x *! double w in
            forallb (fun tc : Q =>
              let footfall := Z.max 0 (Math_round (x *! double tc +! 0)) in
              let m := exact_mean (bp.1, bp.2, tf, f, h, w, tc) in
              (footfall
               =? (if Qeq_bool m (833 # 2) || Qeq_bool m (931 # 2)
                   then Math_round m - 1 else Math_round m))
              && (26 <=? footfall) && (footfall <=? 4704))
            temperature_factors)
          weather_factors)
        [false; true])
      [false; true])
    time_factors)
  profiles.

(** What the two loops put into the other fields of a row. *)
Definition row_fields_ok (r : Row.t) : Prop :=
  1 <= Row.month r <= 12 /\
  In (Row.weather r) weatherTypes /\
  (20 <= Row.temperature r)%Q /\ (Row.temperature r <= 30)%Q /\
  tempFactor (Row.temperature r) = (1 # 1)%Q /\
  (Row.is_festival r = 0 \/ Row.is_festival r = 1) /\
  Row.is_holiday r
  = (if (Row.day_of_week r =? 0) || (Row.day_of_week r =? 6) then 1 else 0) /\
  Row.date r = String.substring 0 10 (Row.datetime r) /\
  exists noise,
    Row.footfall r
    = estimate (Row.location r) (Row.hour r) (Row.weather r) (26 # 1)
               (Row.is_festival r) (Row.is_holiday r) noise.

(** [setDate] on the UTC calendar, and a page to try the model on. *)
Definition UTC_setDate (t n : Z) : Z :=
  UTC.ymd (UTC.year t) (UTC.month t) n + t mod UTC.msPerDay.

Definition demo_page_host : @PageHost demo_host := {| setDate := UTC_setDate |}.

Definition demo_page : Page :=
  mkPage "Mysore_Palace" "2025-10-02" 18 "Clear" (Some (0 # 1)%Q) false true 0
         "none" "" "" (Style.mk "" "") None "" None.

(** A reader of CSV lines of quoted cells, against which the export is
    checked: a cell starts and ends with a double quote, a doubled quote
    inside stands for one, and a comma follows a cell that is not the
    last. *)
Inductive CsvState :=
| AtCell
| InCell (acc : list Ascii.ascii)
| AfterQuote (acc : list Ascii.ascii).

Fixpoint read_row (st : CsvState) (s : string) : option (list string) :=
  match s with
  | EmptyString =>
      match st with
      | AfterQuote acc => Some [String.string_of_list_ascii (rev acc)]
      | _ => None
      end
  | String a s' =>
      match st with
      | AtCell => if Ascii.eqb a dquote then read_row (InCell []) s' else None
      | InCell acc =>
          if Ascii.eqb a dquote then read_row (AfterQuote acc) s'
          else read_row (InCell (a :: acc)) s'
      | AfterQuote acc =>
          if Ascii.eqb a dquote then read_row (InCell (dquote :: acc)) s'
          else if Ascii.eqb a ","%char
               then cons (String.string_of_list_ascii (rev acc)) <$> read_row AtCell s'
               else None
      end
  end.

(** The text a cell stands for: the value as a string, nothing for a
    missing property. *)
Definition cell_text (Number_toString : Q -> string) (r : Row.t) (h : string)
    : string :=
  match row_property r h with
  | JString s => s
  | JNumber q => Number_toString q
  | JUndefined => ""
  end.

(** A number as a string, for integers and tenths from 0 on. *)
Fixpoint show_nat (fuel : nat) (n : Z) : string :=
  match fuel with
  | O => UTC.digit n
  | S fuel' => if n <? 10 then UTC.digit n else show_nat fuel' (n / 10) +:+ UTC.digit n
  end.

Definition show_number (q : Q) : string :=
  let tenths := Qfloor (q * (10 # 1)) in
  if tenths mod 10 =? 0 then show_nat 20 (tenths / 10)
  else show_nat 20 (tenths / 10) +:+ "." +:+ UTC.digit tenths.

(** A form filled within the domain of the generator. *)
Definition form_in_domain (p : Page) : Prop :=
  In (location_value p) LOCATIONS /\
  6 <= hour_value p <= 21 /\
  In (weather_value p) weatherTypes /\
  exists t, temp_value p = Some t /\ (20 <= t)%Q /\ (t <= 30)%Q.

(** The result widgets of a page. *)
Definition widgets (p : Page)
    : string * string * string * Style.t * option Z * string * option Heat.t :=
  (resultArea_display p, densityBadge_text p, densityText_text p,
   densityBadge_style p, footfall_shown p, suggestion_text p,
   heatArea_canvas p).

(** The turns of the loop of [initEverything]. *)
Definition chunk_turns (chunk safeN : nat) : nat :=
  ((safeN + chunk - 1) / chunk)%nat.

(** A world with enough draws to start the page on a small corpus. *)
Definition start_world : World :=
  mkWorld (flat_map (fun _ => randoms demo_world) (seq 0 5))
          (clock demo_world) 0.

(** The same by the floating-point unit: the double nearest to a
    quotient of two integers below 2^63, and the rational of a finite
    double. *)
Definition float_of (q : Q) : PrimFloat.float :=
  PrimFloat.div (PrimFloat.of_uint63 (Uint63.of_Z (Qnum q)))
                (PrimFloat.of_uint63 (Uint63.of_Z (Z.pos (Qden q)))).

Definition of_float (x : PrimFloat.float) : option Q :=
  match FloatOps.Prim2SF x with
  | SpecFloat.S754_zero _ => Some 0%Q
  | SpecFloat.S754_finite s m e =>
      Some (Qred ((if s then -1 else 1) * inject_Z (Z.pos m) * Qpower 2 e))
  | _ => None
  end.

(** Every product of a context, and its sum with the noise 0, is the
    number that the floating-point unit computes. *)
Definition same_number (x : Q) (y : PrimFloat.float) : bool :=
  match of_float y with
  | Some q => Qeq_bool q x
  | None => false
  end.

Definition binary64_checked : bool :=
  forallb (fun bp : Q * Q =>
    let x := double bp.1 *! double bp.2 in
    let y := PrimFloat.mul (float_of bp.1) (float_of bp.2) in
    same_number x y &&
    forallb (fun tf : Q =>
      let x := x *! double tf in
      let y := PrimFloat.mul y (float_of tf) in
      same_number x y &&
      forallb (fun f : bool =>
        let x := x *! (if f then double (2 # 1) else double (1 # 1)) in
        let y :=
          PrimFloat.mul y (if f then float_of (2 # 1) else float_of (1 # 1)) in
        same_number x y &&
        forallb (fun h : bool =>
          let x := x *! (if h then double (14 # 10) else double (1 # 1)) in
          let y :=
            PrimFloat.mul y
              (if h then float_of (14 # 10) else float_of (1 # 1)) in
          same_number x y &&
          forallb (fun w : Q =>
            let x := x *! double w in
            let y := PrimFloat.mul y (float_of w) in
            same_number x y &&
            forallb (fun tc : Q =>
              same_number (x *! double tc +! 0)
                (PrimFloat.add (PrimFloat.mul y (float_of tc))
                               (float_of (0 # 1))))
            temperature_factors)
          weather_factors)
        [false; true])
      [false; true])
    time_factors)
  profiles.

(** * Properties *)

(** ** The sort *)
Section JsSortFacts.
Context {A : Type} (cmp : A -> A -> Z).

Lemma sort_insert_perm x l : Permutation (sort_insert cmp x l) (x :: l).
Proof.
  induction l as [|y l IH]; simpl; [reflexivity|].
  destruct (cmp x y <=? 0); [reflexivity|].
  rewrite IH. apply perm_swap.
Qed.

Lemma js_sort_perm l : Permutation (js_sort cmp l) l.
Proof.
  induction l as [|x l IH]; simpl; [reflexivity|].
  rewrite sort_insert_perm. now constructor.
Qed.

Lemma js_sort_length l : length (js_sort cmp l) = length l.
Proof. apply Permutation_length, js_sort_perm. Qed.

(** [before x y]: [x] stood in front of [y] in the array that is sorted;
    [R] is the order the result is to have. *)
Variables (before R : A -> A -> Prop).
Hypothesis R_trans : forall x y z, R x y -> R y z -> R x z.
Hypothesis cmp_le : forall x y, before x y -> cmp x y <= 0 -> R x y.
Hypothesis cmp_gt : forall x y, before x y -> 0 < cmp x y -> R y x.

Lemma sort_insert_sorted x l :
  Forall (before x) l -> StronglySorted R l ->
  StronglySorted R (sort_insert cmp x l).
Proof.
  induction l as [|y l IH]; intros Hb Hs; simpl.
  - repeat constructor.
  - inversion Hb as [|? ? Hxy Hb']; subst.
    inversion Hs as [|? ? Hs' Hy]; subst.
    destruct (Z.leb_spec (cmp x y) 0) as [Hle|Hgt].
    + constructor; [assumption|].
      constructor; [now apply cmp_le|].
      eapply Forall_impl; [exact Hy|].
      intros z Hz. eapply R_trans; [|exact Hz]. now apply cmp_le.
    + constructor; [now apply IH|].
      rewrite sort_insert_perm. constructor; [now apply cmp_gt|assumption].
Qed.

Lemma js_sort_sorted l :
  StronglySorted before l -> StronglySorted R (js_sort cmp l).
Proof.
  induction l as [|x l IH]; intros Hs; simpl; [constructor|].
  inversion Hs as [|? ? Hs' Hx]; subst.
  apply sort_insert_sorted; [|now apply IH].
  now rewrite js_sort_perm.
Qed.
End JsSortFacts.

Lemma StronglySorted_True {A : Type} (l : list A) :
  StronglySorted (fun _ _ => True) l.
Proof.
  induction l; constructor; [assumption|].
  apply Forall_forall; intros; exact I.
Qed.

Lemma js_sort_ascending (l : list Z) :
  StronglySorted Z.le (js_sort ascending l).
Proof.
  apply (js_sort_sorted ascending (fun _ _ => True) Z.le).
  - intros; lia.
  - unfold ascending; intros; lia.
  - unfold ascending; intros; lia.
  - apply StronglySorted_True.
Qed.

(** ** The classifier *)

Lemma mapToDensityLabel_cases (g : Globals) (Q : Quartiles.t) (f : Z) :
  QUARTILES g = Some Q ->
  (f <= Quartiles.q1 Q /\ mapToDensityLabel g f = "Low") \/
  (Quartiles.q1 Q < f <= Quartiles.q2 Q /\ mapToDensityLabel g f = "Medium") \/
  (Quartiles.q1 Q < f /\ Quartiles.q2 Q < f <= Quartiles.q3 Q /\
   mapToDensityLabel g f = "High") \/
  (Quartiles.q1 Q < f /\ Quartiles.q2 Q < f /\ Quartiles.q3 Q < f /\
   mapToDensityLabel g f = "Very_High").
Proof.
  intros HQ. unfold mapToDensityLabel. rewrite HQ.
  destruct (Z.leb_spec f (Quartiles.q1 Q)); [now left|].
  destruct (Z.leb_spec f (Quartiles.q2 Q)); [right; left; split; [lia|reflexivity]|].
  destruct (Z.leb_spec f (Quartiles.q3 Q)); [right; right; left; repeat split; trivial; lia|].
  right; right; right; repeat split; trivial.
Qed.

(** C1. With the quartiles q1 <= q2 <= q3 in place, a footfall up to q1 is
    Low, one above q1 and up to q2 is Medium, one above q2 and up to q3 is
    High, and one above q3 is Very_High: a boundary value belongs to the
    lower tier. *)
Theorem mapToDensityLabel_thresholds (g : Globals) (q1 q2 q3 f : Z) :
  QUARTILES g = Some (Quartiles.mk q1 q2 q3) ->
  non_decreasing q1 q2 q3 ->
  (f <= q1 -> mapToDensityLabel g f = "Low") /\
  (q1 < f <= q2 -> mapToDensityLabel g f = "Medium") /\
  (q2 < f <= q3 -> mapToDensityLabel g f = "High") /\
  (q3 < f -> mapToDensityLabel g f = "Very_High").
Proof.
  intros HQ [H12 H23].
  destruct (mapToDensityLabel_cases g _ f HQ)
    as [[? ->]|[[? ->]|[(? & ? & ->)|(? & ? & ? & ->)]]];
    simpl in *; repeat split; intros; first [reflexivity | lia].
Qed.

(** The boundary test of the specification: quartiles 100, 200, 300. *)
Lemma mapToDensityLabel_thresholds_witness :
  let g := set_QUARTILES (Some (Quartiles.mk 100 200 300)) initial_globals in
  mapToDensityLabel g 100 = "Low" /\ mapToDensityLabel g 101 = "Medium" /\
  mapToDensityLabel g 300 = "High" /\ mapToDensityLabel g 301 = "Very_High".
Proof.
  intros g.
  assert (Hq : QUARTILES g = Some (Quartiles.mk 100 200 300)) by reflexivity.
  assert (Hnd : non_decreasing 100 200 300) by (split; lia).
  split; [|split; [|split]].
  - apply (mapToDensityLabel_thresholds g 100 200 300 100 Hq Hnd). lia.
  - apply (mapToDensityLabel_thresholds g 100 200 300 101 Hq Hnd). lia.
  - apply (mapToDensityLabel_thresholds g 100 200 300 300 Hq Hnd). lia.
  - apply (mapToDensityLabel_thresholds g 100 200 300 301 Hq Hnd). lia.
Defined.

(** C5. For fixed quartiles the classifier is monotone: a larger footfall
    never gets a lower tier. *)
Theorem mapToDensityLabel_monotone (g : Globals) (Q : Quartiles.t) (a b : Z) :
  QUARTILES g = Some Q ->
  a <= b ->
  tier_le (mapToDensityLabel g a) (mapToDensityLabel g b).
Proof.
  intros HQ Hab. unfold tier_le.
  destruct (mapToDensityLabel_cases g _ a HQ)
    as [[? ->]|[[? ->]|[(? & ? & ->)|(? & ? & ? & ->)]]];
  destruct (mapToDensityLabel_cases g _ b HQ)
    as [[? ->]|[[? ->]|[(? & ? & ->)|(? & ? & ? & ->)]]];
  try lia; simpl; do 2 eexists; repeat split; lia.
Qed.

Lemma mapToDensityLabel_monotone_witness :
  let g := set_QUARTILES (Some (Quartiles.mk 100 200 300)) initial_globals in
  tier_le (mapToDensityLabel g 150) (mapToDensityLabel g 250).
Proof.
  intros g.
  apply (mapToDensityLabel_monotone g (Quartiles.mk 100 200 300) 150 250).
  - reflexivity.
  - lia.
Defined.

(** C8. While [QUARTILES] is still [null] the classifier answers
    "Unknown" for every footfall, and "Unknown" is none of the four
    tiers. *)
Theorem mapToDensityLabel_uninitialized (g : Globals) (f : Z) :
  QUARTILES g = None ->
  mapToDensityLabel g f = "Unknown" /\
  ~ In (mapToDensityLabel g f) tiers /\
  tier_rank (mapToDensityLabel g f) = None.
Proof.
  intros HQ. unfold mapToDensityLabel. rewrite HQ.
  repeat split. unfold tiers. simpl. intuition discriminate.
Qed.

Lemma mapToDensityLabel_uninitialized_witness :
  mapToDensityLabel initial_globals 1680 = "Unknown" /\
  ~ In (mapToDensityLabel initial_globals 1680) tiers /\
  tier_rank (mapToDensityLabel initial_globals 1680) = None.
Proof.
  apply (mapToDensityLabel_uninitialized initial_globals 1680). reflexivity.
Defined.

(** ** Nearest-rank indices *)

Lemma floor_mul_comp (n : nat) (p p' : Q) :
  (p == p')%Q -> floor_mul n p = floor_mul n p'.
Proof. intros E. unfold floor_mul. now rewrite E. Qed.

Lemma floor_mul_le (n : nat) (p p' : Q) :
  (p <= p')%Q -> (floor_mul n p <= floor_mul n p')%nat.
Proof.
  intros Hp. unfold floor_mul.
  assert (Qfloor (inject_Z (Z.of_nat n) * p) <=
          Qfloor (inject_Z (Z.of_nat n) * p')); [|lia].
  apply Qfloor_resp_le.
  rewrite (Qmult_comm _ p), (Qmult_comm _ p').
  apply Qmult_le_compat_r; [assumption|].
  change 0%Q with (inject_Z 0). rewrite <- Zle_Qle. lia.
Qed.

Lemma floor_mul_lt (n : nat) (p : Q) :
  (0 < n)%nat -> (p < 1)%Q -> (floor_mul n p < n)%nat.
Proof.
  intros Hn Hp. unfold floor_mul.
  assert (Qfloor (inject_Z (Z.of_nat n) * p) < Z.of_nat n); [|lia].
  rewrite Zlt_Qlt.
  eapply Qle_lt_trans; [apply Qfloor_le|].
  rewrite <- (Qmult_1_r (inject_Z (Z.of_nat n))) at 2.
  apply Qmult_lt_l; [|assumption].
  change 0%Q with (inject_Z 0). rewrite <- Zlt_Qlt. lia.
Qed.

Lemma lookup_floor_mul {A : Type} (l : list A) (p : Q) :
  l <> [] -> (p < 1)%Q -> is_Some (l !! floor_mul (length l) p).
Proof.
  intros Hl Hp. apply lookup_lt_is_Some, floor_mul_lt; [|assumption].
  destruct l; [congruence|simpl; lia].
Qed.

Lemma StronglySorted_lookup_le (l : list Z) (i j : nat) (a b : Z) :
  StronglySorted Z.le l -> (i <= j)%nat ->
  l !! i = Some a -> l !! j = Some b -> a <= b.
Proof.
  intros Hs. revert i j a b.
  induction Hs as [|x l Hs IH Hx]; intros i j a b Hij Hi Hj; [discriminate|].
  destruct i as [|i], j as [|j]; simpl in *; try lia.
  - injection Hi as <-. injection Hj as <-. lia.
  - injection Hi as <-.
    rewrite Forall_forall in Hx. apply Hx.
    eapply list_elem_of_lookup_2; eassumption.
  - apply (IH i j); [lia|assumption..].
Qed.

(** The quartiles the script reads out of a sorted, non-empty array. *)
Lemma sorted_quartiles (samples : list Z) :
  samples <> [] ->
  exists q1 q2 q3,
    let sorted := js_sort ascending samples in
    let n := length sorted in
    sorted !! floor_mul n (25 # 100) = Some q1 /\
    sorted !! floor_mul n (50 # 100) = Some q2 /\
    sorted !! floor_mul n (75 # 100) = Some q3 /\
    non_decreasing q1 q2 q3 /\
    is_quartiles samples q1 q2 q3.
Proof.
  intros Hne.
  assert (Hs : js_sort ascending samples <> []).
  { intros E. apply Hne. apply Permutation_nil.
    rewrite <- E. apply js_sort_perm. }
  destruct (lookup_floor_mul _ (25 # 100) Hs) as [q1 H1]; [reflexivity|].
  destruct (lookup_floor_mul _ (50 # 100) Hs) as [q2 H2]; [reflexivity|].
  destruct (lookup_floor_mul _ (75 # 100) Hs) as [q3 H3]; [reflexivity|].
  exists q1, q2, q3. cbv zeta. repeat split; try assumption.
  - eapply StronglySorted_lookup_le;
      [apply js_sort_ascending| |exact H1|exact H2].
    apply floor_mul_le. discriminate.
  - eapply StronglySorted_lookup_le;
      [apply js_sort_ascending| |exact H2|exact H3].
    apply floor_mul_le. discriminate.
  - destruct samples as [|s samples]; [congruence|].
    exists (js_sort ascending (s :: samples)).
    split; [symmetry; apply js_sort_perm|].
    split; [apply js_sort_ascending|].
    unfold nearest_rank.
    change (Z.to_nat (Qfloor (inject_Z (Z.of_nat ?n) * ?p)))
      with (floor_mul n p).
    rewrite <- (floor_mul_comp _ (25 # 100) (1 # 4)) by reflexivity.
    rewrite <- (floor_mul_comp _ (50 # 100) (1 # 2)) by reflexivity.
    rewrite <- (floor_mul_comp _ (75 # 100) (3 # 4)) by reflexivity.
    auto.
Qed.

(** ** Global quartiles and labels *)

Lemma computeGlobalQuartilesAndLabels_run (g : Globals) :
  exists q1 q2 q3,
    computeGlobalQuartilesAndLabels g =
      Some (mkGlobals (map (label_row q1 q2 q3) (DATASET g))
                      (js_sort ascending (map Row.footfall (DATASET g)))
                      (Some (Quartiles.mk q1 q2 q3))
                      (PER_LOCATION_STATS g)) /\
    non_decreasing q1 q2 q3 /\
    is_quartiles (map Row.footfall (DATASET g)) q1 q2 q3.
Proof.
  unfold computeGlobalQuartilesAndLabels, set_DATASET, set_QUARTILES,
    set_SAMPLES_SORTED. simpl.
  destruct (DATASET g) as [|r rows] eqn:Hd.
  - exists 0, 0, 0. simpl. split; [reflexivity|]. split; [split; lia|].
    auto.
  - destruct (sorted_quartiles (map Row.footfall (r :: rows)))
      as (q1 & q2 & q3 & H1 & H2 & H3 & Hnd & Hq); [discriminate|].
    exists q1, q2, q3. cbv zeta in H1, H2, H3.
    rewrite js_sort_length in *.
    destruct (Nat.eqb_spec (length (map Row.footfall (r :: rows))) 0)
      as [E|_]; [discriminate|].
    rewrite H1, H2, H3. simpl. auto.
Qed.

Lemma label_row_footfall (q1 q2 q3 : Z) (r : Row.t) :
  Row.footfall (label_row q1 q2 q3 r) = Row.footfall r.
Proof. reflexivity. Qed.

Lemma label_row_label (g : Globals) (q1 q2 q3 : Z) (r : Row.t) :
  QUARTILES g = Some (Quartiles.mk q1 q2 q3) ->
  Row.density_label (label_row q1 q2 q3 r)
    = Some (mapToDensityLabel g (Row.footfall r)) /\
  Row.density_int (label_row q1 q2 q3 r)
    = tier_rank (mapToDensityLabel g (Row.footfall r)) /\
  In (mapToDensityLabel g (Row.footfall r)) tiers.
Proof.
  intros HQ. unfold mapToDensityLabel, label_row. rewrite HQ. simpl.
  destruct (Row.footfall r <=? q1), (Row.footfall r <=? q2),
    (Row.footfall r <=? q3);
    (split; [reflexivity|]; split; [vm_compute; reflexivity|]);
    unfold tiers; simpl; auto 6.
Qed.

(** C10. The labelling pass ends, keeps the rows and their footfalls, and
    leaves on every row the label the classifier gives its footfall under
    the quartiles just stored, with the rank of that label. *)
Theorem labelling_agrees_with_classifier (g : Globals) :
  exists g',
    computeGlobalQuartilesAndLabels g = Some g' /\
    map Row.footfall (DATASET g') = map Row.footfall (DATASET g) /\
    Forall (fun r =>
              Row.density_label r = Some (mapToDensityLabel g' (Row.footfall r)) /\
              Row.density_int r = tier_rank (mapToDensityLabel g' (Row.footfall r)) /\
              In (mapToDensityLabel g' (Row.footfall r)) tiers)
           (DATASET g').
Proof.
  destruct (computeGlobalQuartilesAndLabels_run g)
    as (q1 & q2 & q3 & Hrun & _ & _).
  eexists. split; [exact Hrun|]. simpl. split.
  - rewrite map_map. apply map_ext. intros r. apply label_row_footfall.
  - apply Forall_forall. intros r' Hin.
    apply list_elem_of_In, in_map_iff in Hin as (r & <- & _).
    rewrite label_row_footfall.
    apply (label_row_label _ q1 q2 q3 r). reflexivity.
Qed.

(** ** Objects keyed by numbers *)
Section JsObjectFacts.
Context {V : Type}.
Implicit Types (o : list (Z * V)) (k : Z) (v : V).

Lemma obj_get_set_eq k v o : obj_get k (obj_set k v o) = Some v.
Proof.
  induction o as [|[k' v'] o IH]; simpl.
  - now rewrite Z.eqb_refl.
  - destruct (Z.eqb_spec k k') as [->|Hne]; simpl.
    + now rewrite Z.eqb_refl.
    + destruct (is_index k && (negb (is_index k') || (k <? k'))); simpl.
      * now rewrite Z.eqb_refl.
      * destruct (Z.eqb_spec k k'); [contradiction|exact IH].
Qed.

Lemma obj_get_set_ne k k' v o :
  k <> k' -> obj_get k' (obj_set k v o) = obj_get k' o.
Proof.
  intros Hne. induction o as [|[k0 v0] o IH]; simpl.
  - destruct (Z.eqb_spec k' k); [congruence|reflexivity].
  - destruct (Z.eqb_spec k k0) as [->|Hk]; simpl.
    + destruct (Z.eqb_spec k' k0); [congruence|reflexivity].
    + destruct (is_index k && (negb (is_index k0) || (k <? k0))); simpl.
      * destruct (Z.eqb_spec k' k); [congruence|reflexivity].
      * now rewrite IH.
Qed.

Lemma obj_keys_get k o : k ∈ obj_keys o <-> is_Some (obj_get k o).
Proof.
  unfold obj_keys. induction o as [|[k' v'] o IH]; simpl.
  - split; [intros Hin; inversion Hin|intros [? ?]; discriminate].
  - rewrite elem_of_cons, IH.
    destruct (Z.eqb_spec k k'); split; eauto; intros [?|?]; eauto; lia.
Qed.

Lemma obj_keys_set k v o k' :
  k' ∈ obj_keys (obj_set k v o) <-> k' = k \/ k' ∈ obj_keys o.
Proof.
  rewrite !obj_keys_get.
  destruct (Z.eq_dec k k') as [->|Hne].
  - rewrite obj_get_set_eq. split; eauto.
  - rewrite obj_get_set_ne by assumption.
    split; [auto|intros [?|?]; [congruence|assumption]].
Qed.

Lemma obj_set_index_keys k v o :
  is_index k = true -> index_keys o -> index_keys (obj_set k v o).
Proof.
  intros Hk. induction o as [|[k' v'] o IH]; intros [Hs Hi]; simpl.
  - split; repeat constructor; assumption.
  - simpl in Hs, Hi.
    inversion Hs as [|? ? Hs' Hlt]; subst.
    inversion Hi as [|? ? Hk' Hi']; subst.
    destruct (Z.eqb_spec k k') as [->|Hne].
    + split; simpl; constructor; assumption.
    + rewrite Hk, Hk'. simpl.
      destruct (Z.ltb_spec k k') as [Hkk|Hkk].
      * split; simpl; repeat constructor; try assumption.
        eapply Forall_impl; [exact Hlt|]. simpl. intros; lia.
      * destruct (IH (conj Hs' Hi')) as [IHs IHi].
        split; simpl; constructor; try assumption.
        apply Forall_forall. intros x Hx.
        apply obj_keys_set in Hx as [->|Hx]; [lia|].
        rewrite Forall_forall in Hlt. now apply Hlt.
Qed.
End JsObjectFacts.

(** ** The buckets of a location *)

Lemma or_int_0_Some (s : Z) : or_int (Some s) 0 = s.
Proof. unfold or_int. destruct (Z.eqb_spec s 0); congruence. Qed.

Lemma sum_footfall_snoc (rows : list Row.t) (r : Row.t) :
  sum_footfall (rows ++ [r]) = sum_footfall rows + Row.footfall r.
Proof.
  unfold sum_footfall. induction rows as [|x rows IH]; simpl; [lia|].
  rewrite IH. lia.
Qed.

Lemma rows_at_snoc (loc : string) (h : Z) (rows : list Row.t) (r : Row.t) :
  rows_at loc h (rows ++ [r]) =
  rows_at loc h rows ++
    (if decide (Row.location r = loc /\ Row.hour r = h) then [r] else []).
Proof. unfold rows_at. now rewrite filter_app, filter_cons, filter_nil. Qed.

Lemma total_at_snoc_other (loc : string) (h : Z) rows r :
  ~ (Row.location r = loc /\ Row.hour r = h) ->
  total_at loc h (rows ++ [r]) = total_at loc h rows /\
  count_at loc h (rows ++ [r]) = count_at loc h rows.
Proof.
  intros Hn. unfold total_at, count_at. rewrite rows_at_snoc.
  destruct (decide _); [contradiction|]. now rewrite app_nil_r.
Qed.

Lemma total_at_snoc_same (loc : string) rows r :
  Row.location r = loc ->
  total_at loc (Row.hour r) (rows ++ [r]) =
    Some (or_int (total_at loc (Row.hour r) rows) 0 + Row.footfall r) /\
  count_at loc (Row.hour r) (rows ++ [r]) =
    Some (or_int (count_at loc (Row.hour r) rows) 0 + 1).
Proof.
  intros Hl. unfold total_at, count_at. rewrite rows_at_snoc.
  destruct (decide _) as [_|Hn]; [|tauto].
  destruct (rows_at loc (Row.hour r) rows) as [|x xs] eqn:E.
  - simpl. split; f_equal. unfold sum_footfall; simpl. lia.
  - rewrite <- E. rewrite sum_footfall_snoc, length_app, !or_int_0_Some.
    rewrite E. simpl. split; f_equal; lia.
Qed.

Lemma buckets_spec (loc : string) (rows : list Row.t) (h : Z) :
  obj_get h (fst (foldl (bucket_step loc) ([], []) rows)) = total_at loc h rows /\
  obj_get h (snd (foldl (bucket_step loc) ([], []) rows)) = count_at loc h rows.
Proof.
  revert h. induction rows as [|r rows IH] using rev_ind; intros h.
  - split; reflexivity.
  - rewrite foldl_snoc.
    destruct (foldl (bucket_step loc) ([], []) rows) as [hb cnt].
    simpl in IH. unfold bucket_step.
    destruct (String.eqb_spec (Row.location r) loc) as [Hl|Hl]; simpl.
    + destruct (Z.eq_dec (Row.hour r) h) as [<-|Hh].
      * rewrite !obj_get_set_eq.
        destruct (total_at_snoc_same loc rows r Hl) as [-> ->].
        destruct (IH (Row.hour r)) as [-> ->]. split; reflexivity.
      * rewrite !obj_get_set_ne by assumption.
        destruct (total_at_snoc_other loc h rows r) as [-> ->]; [tauto|].
        apply IH.
    + destruct (total_at_snoc_other loc h rows r) as [-> ->]; [tauto|].
      apply IH.
Qed.

Lemma buckets_index_keys (loc : string) (rows : list Row.t) :
  Forall (fun r => is_index (Row.hour r) = true) rows ->
  index_keys (fst (foldl (bucket_step loc) ([], []) rows)).
Proof.
  induction rows as [|r rows IH] using rev_ind; intros Hall.
  - split; constructor.
  - apply Forall_app in Hall as [Hrows Hr].
    inversion Hr as [|? ? Hidx _]; subst.
    rewrite foldl_snoc.
    destruct (foldl (bucket_step loc) ([], []) rows) as [hb cnt].
    simpl in IH. unfold bucket_step.
    destruct (String.eqb (Row.location r) loc); simpl; [|now apply IH].
    apply obj_set_index_keys; [assumption|now apply IH].
Qed.

Lemma mapM_map_Some {A B : Type} (f : A -> option B) (g : A -> B) (l : list A) :
  (forall x, x ∈ l -> f x = Some (g x)) -> mapM f l = Some (map g l).
Proof.
  induction l as [|x l IH]; intros Hf; [reflexivity|].
  cbn. rewrite (Hf x) by left. cbn.
  rewrite IH; [reflexivity|]. intros y Hy. apply Hf. now right.
Qed.

Lemma filter_location (loc : string) (dataset : list Row.t) :
  filter (fun d => String.eqb (Row.location d) loc = true) dataset
  = filter (fun d => Row.location d = loc) dataset.
Proof. apply list_filter_iff. intros d. apply String.eqb_eq. Qed.

Lemma rows_at_sub (loc : string) (h : Z) (dataset : list Row.t) :
  footfalls_at loc dataset = [] -> rows_at loc h dataset = [].
Proof.
  unfold footfalls_at, rows_at. intros E. apply map_eq_nil in E.
  induction dataset as [|r rows IH]; [reflexivity|].
  rewrite filter_cons in E. rewrite filter_cons.
  destruct (decide (Row.location r = loc)) as [Hl|Hl]; [discriminate|].
  destruct (decide _) as [[? _]|_]; [contradiction|]. now apply IH.
Qed.

Lemma hour_average_bucket (loc : string) (dataset : list Row.t) (h : Z) :
  let b := foldl (bucket_step loc) ([], []) dataset in
  h ∈ obj_keys (fst b) ->
  rows_at loc h dataset <> [] /\
  hour_average (fst b) (snd b) h = Some (hour_group loc dataset h).
Proof.
  intros b Hin. apply obj_keys_get in Hin as [s Hs].
  destruct (buckets_spec loc dataset h) as [Ht Hc]. fold b in Ht, Hc.
  unfold hour_average, hour_group. rewrite Ht, Hc.
  rewrite Hs in Ht. unfold total_at, count_at in *.
  destruct (rows_at loc h dataset) as [|x xs] eqn:E; [discriminate|].
  split; [discriminate|]. cbn.
  destruct (Z.eqb_spec (Z.of_nat (length (x :: xs))) 0) as [E0|_];
    [simpl in E0; lia|reflexivity].
Qed.

Lemma bucket_keys (loc : string) (dataset : list Row.t) (h : Z) :
  h ∈ obj_keys (fst (foldl (bucket_step loc) ([], []) dataset))
  <-> rows_at loc h dataset <> [].
Proof.
  rewrite obj_keys_get.
  destruct (buckets_spec loc dataset h) as [-> _]. unfold total_at.
  destruct (rows_at loc h dataset); split; try congruence.
  - intros [? ?]; discriminate.
  - eauto.
Qed.

(** ** The top-hours order *)

Lemma busier_trans (a b c : HourAvg.t) : busier a b -> busier b c -> busier a c.
Proof. unfold busier. lia. Qed.

Lemma busier_irrefl (a : HourAvg.t) : ~ busier a a.
Proof. unfold busier. lia. Qed.

Lemma js_sort_by_avg_desc (l : list HourAvg.t) :
  StronglySorted Z.lt (map HourAvg.hour l) ->
  StronglySorted busier (js_sort by_avg_desc l).
Proof.
  intros Hs.
  apply (js_sort_sorted by_avg_desc
           (fun a b => HourAvg.hour a < HourAvg.hour b) busier).
  - apply busier_trans.
  - unfold by_avg_desc, busier. intros; lia.
  - unfold by_avg_desc, busier. intros; lia.
  - induction l as [|x l IH]; [constructor|].
    simpl in Hs. inversion Hs as [|? ? Hs' Hx]; subst.
    constructor; [now apply IH|].
    apply Forall_forall. intros y Hy.
    rewrite Forall_forall in Hx. apply Hx.
    apply list_elem_of_fmap. eauto.
Qed.

Lemma StronglySorted_take {A : Type} (R : A -> A -> Prop) (n : nat) (l : list A) :
  StronglySorted R l -> StronglySorted R (take n l).
Proof.
  intros Hs. revert n. induction Hs as [|x l Hs IH Hx]; intros [|n]; simpl;
    try constructor; [apply IH|].
  apply Forall_forall. intros y Hy.
  rewrite Forall_forall in Hx. apply Hx.
  eapply subseteq_take; eassumption.
Qed.

(** ** Per-location statistics *)

Lemma location_stats_run (dataset : list Row.t) (loc : string) :
  exists q1 q2 q3 groups,
    location_stats dataset loc = Some (LocStats.mk q1 q2 q3 (take 5 groups)) /\
    non_decreasing q1 q2 q3 /\
    is_quartiles (footfalls_at loc dataset) q1 q2 q3 /\
    (forall e, e ∈ groups <->
               exists h, rows_at loc h dataset <> [] /\
                         e = hour_group loc dataset h) /\
    (Forall (fun r => is_index (Row.hour r) = true) dataset ->
     StronglySorted busier groups).
Proof.
  unfold location_stats. rewrite filter_location.
  fold (footfalls_at loc dataset). rewrite js_sort_length.
  destruct (footfalls_at loc dataset) as [|s ss] eqn:E.
  - exists 0, 0, 0, []. simpl.
    split; [reflexivity|]. split; [split; lia|]. split; [auto|].
    split; [|constructor].
    intros e. split; [intros Hin; inversion Hin|].
    intros (h & Hne & _). now rewrite (rows_at_sub loc h dataset E) in Hne.
  - destruct (sorted_quartiles (s :: ss))
      as (q1 & q2 & q3 & H1 & H2 & H3 & Hnd & Hq); [discriminate|].
    cbv zeta in H1, H2, H3. rewrite js_sort_length in H1, H2, H3.
    change (length (s :: ss) =? 0)%nat with false. cbv iota.
    rewrite H1, H2, H3. cbn [mbind option_bind].
    pose proof (hour_average_bucket loc dataset) as Havg.
    pose proof (bucket_keys loc dataset) as Hkeys.
    pose proof (buckets_index_keys loc dataset) as Hidx.
    destruct (foldl (bucket_step loc) ([], []) dataset) as [hb cnt].
    cbv zeta in Havg. simpl in Havg, Hkeys, Hidx.
    rewrite (mapM_map_Some _ (hour_group loc dataset))
      by (intros h Hh; now apply Havg).
    cbn [mbind option_bind].
    exists q1, q2, q3,
      (js_sort by_avg_desc (map (hour_group loc dataset) (obj_keys hb))).
    split; [reflexivity|]. split; [assumption|]. split; [assumption|]. split.
    + intros e. rewrite js_sort_perm, list_elem_of_fmap.
      split; intros (h & He & Hh); exists h;
        (split; [now apply Hkeys|assumption]) || (split; [assumption|now apply Hkeys]).
    + intros Hall. apply js_sort_by_avg_desc.
      rewrite map_map. simpl. rewrite map_id. now apply Hidx.
Qed.

Lemma stats_fold (dataset : list Row.t) (locs : list string)
    (m : gmap string LocStats.t) :
  exists m',
    foldl (fun acc loc =>
             m ← acc;
             st ← location_stats dataset loc;
             Some (<[loc := st]> m))
          (Some m) locs = Some m' /\
    forall loc, loc ∈ locs -> m' !! loc = location_stats dataset loc.
Proof.
  revert m. induction locs as [|l locs IH] using rev_ind; intros m.
  - exists m. split; [reflexivity|]. intros loc Hin. inversion Hin.
  - destruct (IH m) as (m1 & Hm1 & Hl).
    destruct (location_stats_run dataset l) as (q1 & q2 & q3 & gs & Hst & _).
    exists (<[l := LocStats.mk q1 q2 q3 (take 5 gs)]> m1).
    rewrite foldl_snoc, Hm1. cbn [mbind option_bind]. rewrite Hst.
    split; [reflexivity|].
    intros loc Hin. destruct (decide (l = loc)) as [->|Hne].
    + now rewrite lookup_insert_eq.
    + rewrite lookup_insert_ne by assumption. apply Hl.
      apply elem_of_app in Hin as [Hin|Hin]; [assumption|].
      apply list_elem_of_singleton in Hin. congruence.
Qed.

Lemma computePerLocationStats_run (g : Globals) :
  exists stats,
    computePerLocationStats g = Some (set_PER_LOCATION_STATS stats g) /\
    forall loc, loc ∈ LOCATIONS ->
                stats !! loc = location_stats (DATASET g) loc.
Proof.
  unfold computePerLocationStats.
  destruct (stats_fold (DATASET g) LOCATIONS ∅) as (m' & -> & Hl).
  exists m'. split; [reflexivity|assumption].
Qed.

Lemma Math_round_nearest (x : Q) :
  (x - (1 # 2) < inject_Z (Math_round x))%Q /\
  (inject_Z (Math_round x) <= x + (1 # 2))%Q.
Proof.
  unfold Math_round. split; [|apply Qfloor_le].
  pose proof (Qlt_floor (x + (1 # 2))) as Hlt.
  rewrite inject_Z_plus in Hlt.
  apply Qplus_lt_l with (z := 1%Q).
  eapply Qle_lt_trans; [|exact Hlt].
  ring_simplify. apply Qle_refl.
Qed.

Lemma is_index_range (k : Z) : 0 <= k < 2 ^ 32 - 1 -> is_index k = true.
Proof.
  intros [H0 H1]. unfold is_index.
  apply andb_true_intro. split; [now apply Z.leb_le|now apply Z.ltb_lt].
Qed.

Lemma groups_NoDup (loc : string) (dataset : list Row.t)
    (groups : list HourAvg.t) :
  StronglySorted busier groups ->
  (forall e, e ∈ groups -> e = hour_group loc dataset (HourAvg.hour e)) ->
  NoDup (map HourAvg.hour groups).
Proof.
  induction 1 as [|x l Hs IH Hx]; intros Hg; simpl; constructor.
  - intros Hin. apply list_elem_of_fmap in Hin as (y & Hxy & Hy).
    rewrite Forall_forall in Hx. specialize (Hx y Hy).
    rewrite (Hg x) in Hx by left. rewrite (Hg y) in Hx by now right.
    rewrite Hxy in Hx. now apply busier_irrefl in Hx.
  - apply IH. intros e He. apply Hg. now right.
Qed.

(** C2. The global quartiles are the nearest-rank quartiles of the footfall
    column: the sorted column read at floor(n*0.25), floor(n*0.50) and
    floor(n*0.75), and 0, 0, 0 for the empty column; the quartiles of every
    location are the same function of the footfalls of its rows. *)
Theorem quartiles_nearest_rank (g : Globals) :
  (exists g' Q,
     computeGlobalQuartilesAndLabels g = Some g' /\
     QUARTILES g' = Some Q /\
     SAMPLES_SORTED g' = js_sort ascending (map Row.footfall (DATASET g)) /\
     Permutation (SAMPLES_SORTED g') (map Row.footfall (DATASET g)) /\
     StronglySorted Z.le (SAMPLES_SORTED g') /\
     is_quartiles (map Row.footfall (DATASET g))
       (Quartiles.q1 Q) (Quartiles.q2 Q) (Quartiles.q3 Q)) /\
  (exists g',
     computePerLocationStats g = Some g' /\
     Forall (fun loc =>
               exists st,
                 PER_LOCATION_STATS g' !! loc = Some st /\
                 is_quartiles (footfalls_at loc (DATASET g))
                   (LocStats.q1 st) (LocStats.q2 st) (LocStats.q3 st))
            LOCATIONS).
Proof.
  split.
  - destruct (computeGlobalQuartilesAndLabels_run g)
      as (q1 & q2 & q3 & Hrun & _ & Hq).
    eexists. exists (Quartiles.mk q1 q2 q3).
    split; [exact Hrun|]. simpl.
    split; [reflexivity|]. split; [reflexivity|].
    split; [apply js_sort_perm|]. split; [apply js_sort_ascending|exact Hq].
  - destruct (computePerLocationStats_run g) as (stats & Hrun & Hl).
    eexists. split; [exact Hrun|]. simpl.
    apply Forall_forall. intros loc Hin. rewrite (Hl loc Hin).
    destruct (location_stats_run (DATASET g) loc)
      as (q1 & q2 & q3 & gs & -> & _ & Hq & _).
    eexists. split; [reflexivity|exact Hq].
Qed.

(** C6. Every quartile set the script computes, the global one and the one
    of each location, on every dataset (the empty one too), is
    non-decreasing: q1 <= q2 <= q3. *)
Theorem quartiles_non_decreasing (g : Globals) :
  (exists g' Q,
     computeGlobalQuartilesAndLabels g = Some g' /\
     QUARTILES g' = Some Q /\
     non_decreasing (Quartiles.q1 Q) (Quartiles.q2 Q) (Quartiles.q3 Q)) /\
  (exists g',
     computePerLocationStats g = Some g' /\
     Forall (fun loc =>
               exists st,
                 PER_LOCATION_STATS g' !! loc = Some st /\
                 non_decreasing
                   (LocStats.q1 st) (LocStats.q2 st) (LocStats.q3 st))
            LOCATIONS).
Proof.
  split.
  - destruct (computeGlobalQuartilesAndLabels_run g)
      as (q1 & q2 & q3 & Hrun & Hnd & _).
    eexists. exists (Quartiles.mk q1 q2 q3).
    split; [exact Hrun|]. split; [reflexivity|exact Hnd].
  - destruct (computePerLocationStats_run g) as (stats & Hrun & Hl).
    eexists. split; [exact Hrun|]. simpl.
    apply Forall_forall. intros loc Hin. rewrite (Hl loc Hin).
    destruct (location_stats_run (DATASET g) loc)
      as (q1 & q2 & q3 & gs & -> & Hnd & _).
    eexists. split; [reflexivity|exact Hnd].
Qed.

(** C7. For a dataset whose hours are array indices (as the hours 6 to 21
    of a corpus are) and a known location, the top-hours list is the first
    five entries of the list that has one entry per hour at which the
    location has rows, carrying the mean footfall of those rows rounded to
    the nearest integer, in descending order of the average and ascending
    order of the hour among equal averages; it is empty when the location
    has no rows. *)
Theorem topHours_ranking (g : Globals) (loc : string) :
  Forall (fun r => 0 <= Row.hour r < 2 ^ 32 - 1) (DATASET g) ->
  In loc LOCATIONS ->
  exists g' st groups,
    computePerLocationStats g = Some g' /\
    PER_LOCATION_STATS g' !! loc = Some st /\
    LocStats.topHours st = take 5 groups /\
    (length (LocStats.topHours st) <= 5)%nat /\
    StronglySorted busier groups /\
    NoDup (map HourAvg.hour groups) /\
    (forall h, In h (map HourAvg.hour groups) <->
               rows_at loc h (DATASET g) <> []) /\
    Forall (fun e =>
              let rows := rows_at loc (HourAvg.hour e) (DATASET g) in
              let mean := (inject_Z (sum_footfall rows)
                           / inject_Z (Z.of_nat (length rows)))%Q in
              HourAvg.avg e = Math_round mean /\
              (mean - (1 # 2) < inject_Z (HourAvg.avg e))%Q /\
              (inject_Z (HourAvg.avg e) <= mean + (1 # 2))%Q)
           groups /\
    (footfalls_at loc (DATASET g) = [] -> LocStats.topHours st = []).
Proof.
  intros Hhours Hloc.
  destruct (computePerLocationStats_run g) as (stats & Hrun & Hl).
  destruct (location_stats_run (DATASET g) loc)
    as (q1 & q2 & q3 & groups & Hst & _ & _ & Hmem & Hsorted).
  assert (Hs : StronglySorted busier groups).
  { apply Hsorted. eapply Forall_impl; [exact Hhours|].
    intros r. apply is_index_range. }
  assert (Hg : forall e, e ∈ groups ->
                         e = hour_group loc (DATASET g) (HourAvg.hour e)).
  { intros e He. apply Hmem in He as (h & _ & ->). reflexivity. }
  eexists. exists (LocStats.mk q1 q2 q3 (take 5 groups)), groups.
  split; [exact Hrun|]. simpl.
  split; [rewrite Hl by (now apply list_elem_of_In); exact Hst|].
  split; [reflexivity|].
  split; [rewrite length_take; lia|].
  split; [exact Hs|].
  split; [now apply (groups_NoDup loc (DATASET g))|].
  split; [|split].
  - intros h. rewrite <- list_elem_of_In, list_elem_of_fmap. split.
    + intros (e & -> & He). apply Hmem in He as (h & Hne & ->). exact Hne.
    + intros Hne. exists (hour_group loc (DATASET g) h).
      split; [reflexivity|]. apply Hmem. eauto.
  - apply Forall_forall. intros e He. cbv zeta.
    assert (Havg : HourAvg.avg e =
                   HourAvg.avg (hour_group loc (DATASET g) (HourAvg.hour e)))
      by (now rewrite <- (Hg e He)).
    simpl in Havg. rewrite Havg.
    split; [reflexivity|]. apply Math_round_nearest.
  - intros Hempty. destruct groups as [|e groups']; [reflexivity|].
    destruct (Hmem e) as [Hh _].
    destruct Hh as (h & Hne & _); [left|].
    now rewrite (rows_at_sub loc h (DATASET g) Hempty) in Hne.
Qed.

Lemma topHours_ranking_witness :
  exists g' st groups,
    computePerLocationStats sample_globals = Some g' /\
    PER_LOCATION_STATS g' !! "Mysore_Palace" = Some st /\
    LocStats.topHours st = take 5 groups /\
    StronglySorted busier groups.
Proof.
  destruct (topHours_ranking sample_globals "Mysore_Palace")
    as (g' & st & groups & H1 & H2 & H3 & _ & H5 & _).
  - repeat (constructor; [simpl; lia|]). constructor.
  - simpl. auto.
  - exists g', st, groups. auto.
Defined.

(** The quartiles, the labels and the top hours of [sample_globals]. *)
Example quartiles_demo :
  QUARTILES <$> computeGlobalQuartilesAndLabels sample_globals
  = Some (Some (Quartiles.mk 1000 1200 1601)).
Proof. vm_compute. reflexivity. Qed.

Example labels_demo :
  (fun g => map (fun d => (Row.footfall d, Row.density_label d, Row.density_int d))
                (DATASET g))
    <$> computeGlobalQuartilesAndLabels sample_globals
  = Some [ (1651, Some "Very_High", Some 3); (1700, Some "Very_High", Some 3);
           (1200, Some "Medium", Some 1); (1200, Some "Medium", Some 1);
           (140, Some "Low", Some 0); (1000, Some "Low", Some 0);
           (1601, Some "High", Some 2); (900, Some "Low", Some 0);
           (1300, Some "High", Some 2) ].
Proof. vm_compute. reflexivity. Qed.

Example topHours_demo :
  (fun g => PER_LOCATION_STATS g !! "Mysore_Palace")
    <$> computePerLocationStats sample_globals
  = Some (Some (LocStats.mk 1200 1300 1651
                  [ HourAvg.mk 18 1651; HourAvg.mk 20 1651;
                    HourAvg.mk 15 1300; HourAvg.mk 9 1200;
                    HourAvg.mk 10 1200 ])).
Proof. vm_compute. reflexivity. Qed.

Example topHours_empty_demo :
  (fun g => PER_LOCATION_STATS g !! "Mysore_Zoo")
    <$> computePerLocationStats sample_globals
  = Some (Some (LocStats.mk 0 0 0 [])).
Proof. vm_compute. reflexivity. Qed.

(** ** Computations that draw *)

Section RandFacts.
Context {A B : Type}.

Lemma produces_ret (a : A) (P : A -> Prop) : P a -> produces (ret a) P.
Proof. intros Ha t a' t' Ht E. injection E as <- <-. auto. Qed.

Lemma produces_bind (m : Rand A) (k : A -> Rand B) P Q :
  produces m P -> (forall a, P a -> produces (k a) Q) -> produces (bind m k) Q.
Proof.
  intros Hm Hk t b t' Ht E. unfold bind in E.
  destruct (m t) as [[a t1]|] eqn:Em; [|discriminate].
  destruct (Hm t a t1 Ht Em) as [Ha Ht1].
  exact (Hk a Ha t1 b t' Ht1 E).
Qed.

Lemma produces_weaken (m : Rand A) (P Q : A -> Prop) :
  produces m P -> (forall a, P a -> Q a) -> produces m Q.
Proof.
  intros Hm HPQ t a t' Ht E. destruct (Hm t a t' Ht E). auto.
Qed.

Lemma produces_lift (o : option A) (P : A -> Prop) :
  (forall a, o = Some a -> P a) -> produces (lift o) P.
Proof.
  intros Ho t a t' Ht E. unfold lift in E.
  destruct o as [a0|]; [|discriminate]. injection E as <- <-. auto.
Qed.

Lemma produces_lift_eq (o : option A) : produces (lift o) (fun a => o = Some a).
Proof. apply produces_lift. auto. Qed.

Lemma runs_ret (a : A) : runs 0 (ret a).
Proof. intros t _ _. exists a, t. split; [reflexivity|lia]. Qed.

Lemma runs_bind (k1 k2 : nat) (m : Rand A) (k : A -> Rand B) P :
  runs k1 m -> produces m P -> (forall a, P a -> runs k2 (k a)) ->
  runs (k1 + k2) (bind m k).
Proof.
  intros Hr Hp Hk t Ht Hlen.
  destruct (Hr t Ht) as (a & t1 & Em & H1); [lia|].
  destruct (Hp t a t1 Ht Em) as [Ha Ht1].
  destruct (Hk a Ha t1 Ht1) as (b & t2 & Ek & H2); [lia|].
  exists b, t2. unfold bind. rewrite Em. split; [exact Ek|lia].
Qed.

Lemma runs_weaken (k k' : nat) (m : Rand A) :
  runs k m -> (k <= k')%nat -> runs k' m.
Proof.
  intros Hr Hk t Ht Hlen.
  destruct (Hr t Ht) as (a & t' & E & H1); [lia|].
  exists a, t'. split; [exact E|lia].
Qed.

Lemma runs_lift (a : A) : runs 0 (lift (Some a)).
Proof. intros t _ _. exists a, t. split; [reflexivity|lia]. Qed.
End RandFacts.

Lemma nonzeros_cons (u : Q) (t : list Q) :
  nonzeros (u :: t) = ((if Qeq_bool u 0 then 0 else 1) + nonzeros t)%nat.
Proof.
  unfold nonzeros. rewrite filter_cons.
  destruct (Qeq_bool u 0); destruct (decide _); simpl; congruence.
Qed.

Lemma nonzeros_nil : nonzeros [] = 0%nat.
Proof. reflexivity. Qed.

Lemma produces_Math_random : produces Math_random unit_draw.
Proof.
  intros t a t' Ht E. destruct t as [|u t]; [discriminate|].
  injection E as <- <-. inversion Ht; subst. auto.
Qed.

Lemma runs_Math_random : runs 1 Math_random.
Proof.
  intros t _ Hlen. destruct t as [|u t]; [rewrite nonzeros_nil in Hlen; lia|].
  exists u, t. split; [reflexivity|].
  rewrite nonzeros_cons. destruct (Qeq_bool u 0); lia.
Qed.

Lemma produces_draw_nonzero :
  produces draw_nonzero (fun u => unit_draw u /\ Qeq_bool u 0 = false).
Proof.
  intros t. induction t as [|u t IH]; intros a t' Ht E; [discriminate|].
  inversion Ht; subst. simpl in E.
  destruct (Qeq_bool u 0) eqn:Eu; [now apply IH|].
  injection E as <- <-. auto.
Qed.

Lemma runs_draw_nonzero : runs 1 draw_nonzero.
Proof.
  intros t _. induction t as [|u t IH]; intros Hlen;
    [rewrite nonzeros_nil in Hlen; lia|].
  rewrite nonzeros_cons in *. simpl.
  destruct (Qeq_bool u 0).
  - destruct IH as (a & t' & E & H1); [lia|]. exists a, t'. split; [exact E|lia].
  - exists u, t. split; [reflexivity|lia].
Qed.

(** [Math.floor(Math.random() * n)] is an index below [n]. *)
Lemma floor_draw_range (u : Q) (n : Z) :
  unit_draw u -> 0 < n -> 0 <= Qfloor (u * inject_Z n) < n.
Proof.
  intros [H0 H1] Hn.
  assert (Hn' : (0 < inject_Z n)%Q)
    by (change 0%Q with (inject_Z 0); now rewrite <- Zlt_Qlt).
  split.
  - change 0 with (Qfloor 0). apply Qfloor_resp_le.
    apply Qmult_le_0_compat; [assumption|now apply Qlt_le_weak].
  - rewrite Zlt_Qlt. eapply Qle_lt_trans; [apply Qfloor_le|].
    rewrite <- (Qmult_1_l (inject_Z n)) at 2.
    now apply Qmult_lt_r.
Qed.

Lemma arr_get_In {A : Type} (a : list A) (i : Z) (x : A) :
  arr_get a i = Some x -> In x a.
Proof.
  unfold arr_get. destruct (i <? 0); [discriminate|].
  intros E. apply list_elem_of_In. eapply list_elem_of_lookup_2; eassumption.
Qed.

Lemma arr_get_is_Some {A : Type} (a : list A) (i : Z) :
  0 <= i < Z.of_nat (length a) -> exists x, arr_get a i = Some x.
Proof.
  intros [H0 H1]. unfold arr_get.
  destruct (Z.ltb_spec i 0); [lia|].
  apply lookup_lt_is_Some. lia.
Qed.

(** ** The generator *)
Section GeneratorFacts.
Context `{Host}.

Lemma produces_gaussianRandom (mean std : Q) :
  produces (gaussianRandom mean std) (fun _ => True).
Proof.
  unfold gaussianRandom.
  eapply produces_bind; [apply produces_draw_nonzero|]. intros u _.
  eapply produces_bind; [apply produces_draw_nonzero|]. intros v _.
  now apply produces_ret.
Qed.

Lemma runs_gaussianRandom (mean std : Q) : runs 2 (gaussianRandom mean std).
Proof.
  unfold gaussianRandom.
  apply (runs_bind 1 1 _ _ _ runs_draw_nonzero produces_draw_nonzero).
  intros u _.
  apply (runs_bind 1 0 _ _ _ runs_draw_nonzero produces_draw_nonzero).
  intros v _. apply runs_ret.
Qed.

Lemma produces_computeFootfallSample location hour weather temp fest hol :
  produces (computeFootfallSample location hour weather temp fest hol)
           (fun footfall => 0 <= footfall).
Proof.
  unfold computeFootfallSample.
  eapply produces_bind; [apply (produces_lift _ (fun _ => True)); auto|].
  intros pop _.
  eapply produces_bind; [apply (produces_lift _ (fun _ => True)); auto|].
  intros wmul _.
  eapply produces_bind; [apply (produces_lift _ (fun _ => True)); auto|].
  intros base _.
  eapply produces_bind; [apply produces_gaussianRandom|]. intros noise _.
  apply produces_ret. apply Z.le_max_l.
Qed.

(** The names of the tables are none of [Object.prototype]. *)
Lemma LOCATIONS_own (location : string) :
  In location LOCATIONS -> inherited location = false.
Proof.
  unfold LOCATIONS. intros Hin.
  repeat (destruct Hin as [<-|Hin]; [reflexivity|]). destruct Hin.
Qed.

Lemma weatherTypes_own (weather : string) :
  In weather weatherTypes -> inherited weather = false.
Proof.
  unfold weatherTypes, weatherMultiplier_entries. cbn [map fst]. intros Hin.
  repeat (destruct Hin as [<-|Hin]; [reflexivity|]). destruct Hin.
Qed.

Lemma or_factor_own (o : gmap string Q) (k : string) (d : Q) :
  inherited k = false -> exists q, or_factor (member o k) d = Some q.
Proof.
  intros Hk. unfold member. rewrite Hk.
  destruct (o !! k); eexists; reflexivity.
Qed.

Lemma nullish_factor_own (o : gmap string Q) (k : string) (d : Q) :
  inherited k = false -> exists q, nullish_factor (member o k) d = Some q.
Proof.
  intros Hk. unfold member. rewrite Hk.
  destruct (o !! k); eexists; reflexivity.
Qed.

Lemma runs_computeFootfallSample location hour weather temp fest hol :
  inherited location = false -> inherited weather = false ->
  runs 2 (computeFootfallSample location hour weather temp fest hol).
Proof.
  intros Hl Hw. unfold computeFootfallSample.
  destruct (or_factor_own locPopularity location (1 # 1) Hl) as [pop ->].
  destruct (nullish_factor_own weatherMultiplier weather (1 # 1) Hw)
    as [wmul ->].
  destruct (or_factor_own baseScale location (200 # 1) Hl) as [base ->].
  apply (runs_bind 0 2 _ _ (fun _ => True) (runs_lift pop));
    [apply produces_lift; auto|]. intros ? _.
  apply (runs_bind 0 2 _ _ (fun _ => True) (runs_lift wmul));
    [apply produces_lift; auto|]. intros ? _.
  apply (runs_bind 0 2 _ _ (fun _ => True) (runs_lift base));
    [apply produces_lift; auto|]. intros ? _.
  apply (runs_bind 2 0 _ _ _ (runs_gaussianRandom _ _)
                   (produces_gaussianRandom _ _)).
  intros noise _. apply runs_ret.
Qed.

Lemma produces_festival (dateStr : string) :
  produces (if decide (dateStr ∈ FESTIVAL_DATES) then ret 1
            else r <- Math_random ;;
                 ret (if Qlt_bool r (2 # 100) then 1 else 0))
           (fun _ => True).
Proof.
  destruct (decide _); [now apply produces_ret|].
  eapply produces_bind; [apply produces_Math_random|]. intros r _.
  now apply produces_ret.
Qed.

Lemma runs_festival (dateStr : string) :
  runs 1 (if decide (dateStr ∈ FESTIVAL_DATES) then ret 1
          else r <- Math_random ;;
               ret (if Qlt_bool r (2 # 100) then 1 else 0)).
Proof.
  destruct (decide _); [apply (runs_weaken 0); [apply runs_ret|lia]|].
  apply (runs_bind 1 0 _ _ _ runs_Math_random produces_Math_random).
  intros r _. apply runs_ret.
Qed.

Lemma produces_finish_row dt month dateStr dow hour location weather :
  produces (finish_row dt month dateStr dow hour location weather)
           (row_of dt hour location).
Proof.
  unfold finish_row.
  eapply produces_bind; [apply (produces_lift _ (fun _ => True)); auto|].
  intros base_temp _.
  eapply produces_bind; [apply produces_Math_random|]. intros r _.
  eapply produces_bind; [apply produces_festival|]. intros is_festival _.
  eapply produces_bind; [apply produces_computeFootfallSample|].
  intros footfall Hf. apply produces_ret.
  unfold row_of. simpl. repeat split; first [reflexivity|assumption].
Qed.

Lemma runs_finish_row dt month dateStr dow hour location weather :
  1 <= month <= 12 ->
  In location LOCATIONS -> In weather weatherTypes ->
  runs 4 (finish_row dt month dateStr dow hour location weather).
Proof.
  intros Hm Hloc Hwt. unfold finish_row.
  destruct (arr_get_is_Some base_temp_by_month (month - 1)) as [bt ->];
    [simpl; lia|].
  apply (runs_bind 0 4 _ _ (fun _ => True) (runs_lift bt));
    [apply produces_lift; auto|]. intros base_temp _.
  apply (runs_bind 1 3 _ _ _ runs_Math_random produces_Math_random).
  intros r _.
  apply (runs_bind 1 2 _ _ _ (runs_festival _) (produces_festival _)).
  intros is_festival _.
  apply (runs_bind 2 0 _ _ _
           (runs_computeFootfallSample _ _ _ _ _ _ (LOCATIONS_own _ Hloc)
              (weatherTypes_own _ Hwt))
           (produces_computeFootfallSample _ _ _ _ _ _)).
  intros footfall _. apply runs_ret.
Qed.

Lemma generated_intro start msRange offset u v w l dt r :
  unit_draw u -> unit_draw v -> unit_draw w ->
  dt = start + Qfloor (u * inject_Z msRange) + offset ->
  arr_get LOCATIONS (Qfloor (w * inject_Z (Z.of_nat (length LOCATIONS))))
    = Some l ->
  row_of dt (Qfloor (v * inject_Z (21 - 6 + 1)) + 6) l r ->
  generated start msRange offset r.
Proof.
  intros Hu Hv Hw -> Hl (Hdt & Hh & Hloc & Hf & Hlab & Hint).
  split; [|split; [assumption|split; [assumption|eauto]]].
  unfold observation_ok. rewrite Hh, Hloc.
  pose proof (floor_draw_range v (21 - 6 + 1) Hv). apply arr_get_In in Hl.
  split; [lia|]. split; assumption.
Qed.

Lemma produces_generateDataset_row start msRange seedOffset :
  produces (generateDataset_row start msRange seedOffset)
           (generated start msRange seedOffset).
Proof.
  unfold generateDataset_row.
  eapply produces_bind; [apply produces_Math_random|]. intros u Hu.
  eapply produces_bind; [apply produces_Math_random|]. intros v Hv.
  eapply produces_bind; [apply produces_Math_random|]. intros w Hw.
  eapply produces_bind; [apply produces_lift_eq|].
  intros l Hl.
  eapply produces_bind; [apply produces_Math_random|]. intros c _.
  eapply produces_bind with (P := fun _ => True).
  { destruct (Qlt_bool c (6 # 10));
      (eapply produces_bind; [apply produces_Math_random|]);
      intros r _; now apply produces_ret. }
  intros i _.
  eapply produces_weaken; [apply produces_finish_row|].
  intros r Hr.
  rewrite or_int_0_Some in Hr.
  exact (generated_intro start msRange seedOffset u v w l _ r
           Hu Hv Hw eq_refl Hl Hr).
Qed.

Lemma produces_generateChunkAndAppend_row start msRange :
  produces (generateChunkAndAppend_row start msRange)
           (generated start msRange 0).
Proof.
  unfold generateChunkAndAppend_row.
  eapply produces_bind; [apply produces_Math_random|]. intros u Hu.
  eapply produces_bind; [apply produces_Math_random|]. intros v Hv.
  eapply produces_bind; [apply produces_Math_random|]. intros w Hw.
  eapply produces_bind; [apply produces_lift_eq|].
  intros l Hl.
  eapply produces_bind; [apply produces_Math_random|]. intros c _.
  eapply produces_bind with (P := fun _ => True).
  { destruct (Qlt_bool c (65 # 100)); [now apply produces_ret|].
    eapply produces_bind; [apply produces_Math_random|]. intros r _.
    apply produces_lift. auto. }
  intros weather _.
  eapply produces_weaken; [apply produces_finish_row|].
  intros r Hr.
  apply (generated_intro start msRange 0 u v w l
           (start + Qfloor (u * inject_Z msRange)) r Hu Hv Hw);
    [lia|exact Hl|exact Hr].
Qed.
End GeneratorFacts.

Section GeneratorRuns.
Context `{Host}.

Lemma runs_location (w : Q) (k : nat) {A : Type} (body : string -> Rand A) :
  unit_draw w ->
  (forall l, In l LOCATIONS -> runs k (body l)) ->
  runs k (l <- lift (arr_get LOCATIONS
                       (Qfloor (w * inject_Z (Z.of_nat (length LOCATIONS))))) ;;
          body l).
Proof.
  intros Hw Hbody.
  destruct (arr_get_is_Some LOCATIONS
              (Qfloor (w * inject_Z (Z.of_nat (length LOCATIONS))))) as [l El];
    [apply floor_draw_range; [assumption|simpl; lia]|].
  rewrite El.
  apply (runs_bind 0 k _ _ _ (runs_lift l) (produces_lift_eq _)).
  intros l' E. apply Hbody. injection E as <-.
  eapply arr_get_In. eassumption.
Qed.

Lemma weatherTypes_default (i : Z) :
  In (default "Clear" (arr_get weatherTypes i)) weatherTypes.
Proof.
  destruct (arr_get weatherTypes i) as [x|] eqn:E.
  - exact (arr_get_In _ _ _ E).
  - left. reflexivity.
Qed.

Lemma runs_generateDataset_row start msRange seedOffset :
  runs 9 (generateDataset_row start msRange seedOffset).
Proof.
  unfold generateDataset_row.
  apply (runs_bind 1 8 _ _ _ runs_Math_random produces_Math_random).
  intros u _.
  apply (runs_bind 1 7 _ _ _ runs_Math_random produces_Math_random).
  intros v _.
  apply (runs_bind 1 6 _ _ _ runs_Math_random produces_Math_random).
  intros w Hw. apply runs_location; [assumption|]. intros l Hl.
  apply (runs_bind 1 5 _ _ _ runs_Math_random produces_Math_random).
  intros c _.
  apply (runs_bind 1 4 _ _ (fun _ => True)).
  - destruct (Qlt_bool c (6 # 10));
      apply (runs_bind 1 0 _ _ _ runs_Math_random produces_Math_random);
      intros r _; apply runs_ret.
  - destruct (Qlt_bool c (6 # 10));
      (eapply produces_bind; [apply produces_Math_random|]);
      intros r _; now apply produces_ret.
  - intros i _. apply runs_finish_row;
      [|exact Hl|apply weatherTypes_default].
    pose proof (getMonth_range
                  (start + Qfloor (u * inject_Z msRange)
                   + or_int (Some seedOffset) 0)). lia.
Qed.

Lemma runs_generateChunkAndAppend_row start msRange :
  runs 9 (generateChunkAndAppend_row start msRange).
Proof.
  unfold generateChunkAndAppend_row.
  apply (runs_bind 1 8 _ _ _ runs_Math_random produces_Math_random).
  intros u _.
  apply (runs_bind 1 7 _ _ _ runs_Math_random produces_Math_random).
  intros v _.
  apply (runs_bind 1 6 _ _ _ runs_Math_random produces_Math_random).
  intros w Hw. apply runs_location; [assumption|]. intros l Hl.
  apply (runs_bind 1 5 _ _ _ runs_Math_random produces_Math_random).
  intros c _.
  apply (runs_bind 1 4 _ _ (fun weather => In weather weatherTypes)).
  - destruct (Qlt_bool c (65 # 100));
      [apply (runs_weaken 0); [apply runs_ret|lia]|].
    apply (runs_bind 1 0 _ _ _ runs_Math_random produces_Math_random).
    intros r Hr.
    destruct (arr_get_is_Some weatherTypes
                (Qfloor (r * inject_Z (Z.of_nat (length weatherTypes)))))
      as [x ->]; [apply floor_draw_range; [assumption|simpl; lia]|].
    apply runs_lift.
  - destruct (Qlt_bool c (65 # 100));
      [apply produces_ret; left; reflexivity|].
    eapply produces_bind; [apply produces_Math_random|]. intros r _.
    apply produces_lift. intros x E. eapply arr_get_In. eassumption.
  - intros weather Hwt. apply runs_finish_row; [|exact Hl|exact Hwt].
    pose proof (getMonth_range (start + Qfloor (u * inject_Z msRange))). lia.
Qed.

Lemma produces_push_rows (row : Rand Row.t) (P : Row.t -> Prop) (n : nat) :
  produces row P ->
  forall dataset,
    produces (push_rows n row dataset)
             (fun dataset' =>
                exists rows, dataset' = dataset ++ rows /\
                             length rows = n /\ Forall P rows).
Proof.
  intros Hrow. induction n as [|n IH]; intros dataset; simpl.
  - apply produces_ret. exists []. rewrite app_nil_r. auto.
  - eapply produces_bind; [exact Hrow|]. intros r Hr.
    eapply produces_weaken; [apply IH|].
    intros ds' (rows & -> & Hlen & Hall). exists (r :: rows).
    rewrite <- app_assoc. simpl. repeat split; auto.
Qed.

Lemma runs_push_rows (row : Rand Row.t) (P : Row.t -> Prop) (k n : nat) :
  runs k row -> produces row P ->
  forall dataset, runs (n * k) (push_rows n row dataset).
Proof.
  intros Hr Hp. induction n as [|n IH]; intros dataset; simpl.
  - apply runs_ret.
  - apply (runs_bind k (n * k) _ _ _ Hr Hp). intros r _. apply IH.
Qed.
End GeneratorRuns.

Lemma label_row_ok (q1 q2 q3 : Z) (r : Row.t) :
  observation_ok r -> observation_ok (label_row q1 q2 q3 r).
Proof. unfold observation_ok. simpl. auto. Qed.

(** ** The two generators *)

Lemma finish_dataset_globals (dataset : list Row.t) (g1 g2 : Globals) :
  finish_dataset dataset g1 = finish_dataset dataset g2.
Proof.
  unfold finish_dataset, computeGlobalQuartilesAndLabels,
    computePerLocationStats, set_DATASET, set_QUARTILES, set_SAMPLES_SORTED,
    set_PER_LOCATION_STATS.
  generalize LOCATIONS. intros locs. simpl.
  destruct (length (js_sort ascending (map Row.footfall dataset)) =? 0)%nat;
    simpl.
  - match goal with |- context [foldl ?f ?a ?l] => destruct (foldl f a l) end;
      reflexivity.
  - repeat match goal with
           | |- context [?l !! ?i] => destruct (l !! i); simpl; [|reflexivity]
           end.
    match goal with |- context [foldl ?f ?a ?l] => destruct (foldl f a l) end;
      reflexivity.
Qed.

Lemma finish_dataset_run (dataset : list Row.t) (g : Globals) :
  exists q1 q2 q3 stats,
    finish_dataset dataset g =
      Some (mkGlobals (map (label_row q1 q2 q3) dataset)
                      (js_sort ascending (map Row.footfall dataset))
                      (Some (Quartiles.mk q1 q2 q3)) stats).
Proof.
  unfold finish_dataset.
  destruct (computeGlobalQuartilesAndLabels_run (set_DATASET dataset g))
    as (q1 & q2 & q3 & -> & _). cbn [mbind option_bind].
  match goal with |- context [computePerLocationStats ?g1] =>
    destruct (computePerLocationStats_run g1) as (stats & -> & _) end.
  exists q1, q2, q3, stats. reflexivity.
Qed.

Section GeneratorsFacts.
Context `{Host}.

Lemma generateDataset_unfold (n : nat) (seedOffset : Z) (g : Globals) (w : World) :
  generateDataset n seedOffset g w =
  match push_rows n (generateDataset_row (dataset_start w) (dataset_msRange w)
                                         seedOffset) [] (randoms w) with
  | Some (dataset, tape) =>
      match finish_dataset dataset g with
      | Some g' => Some (g', mkWorld tape (clock w) (S (S (ticks w))))
      | None => None
      end
  | None => None
  end.
Proof.
  unfold generateDataset, dataset_msRange, dataset_start. simpl.
  destruct (push_rows _ _ _ _) as [[dataset tape]|]; [|reflexivity].
  cbn [mbind option_bind].
  rewrite (finish_dataset_globals dataset g (set_DATASET [] g)).
  unfold finish_dataset.
  destruct (computeGlobalQuartilesAndLabels _) as [g1|]; [|reflexivity].
  cbn [mbind option_bind].
  destruct (computePerLocationStats g1); reflexivity.
Qed.

Lemma generateChunkAndAppend_unfold (n : nat) (g : Globals) (w : World) :
  generateChunkAndAppend n g w =
  match push_rows n (generateChunkAndAppend_row (chunk_start w) (chunk_msRange w))
                  (DATASET g) (randoms w) with
  | Some (dataset, tape) =>
      Some (set_DATASET dataset g, mkWorld tape (clock w) (S (ticks w)))
  | None => None
  end.
Proof.
  unfold generateChunkAndAppend, chunk_msRange, chunk_start. simpl.
  destruct (push_rows _ _ _ _) as [[dataset tape]|]; reflexivity.
Qed.
End GeneratorsFacts.

Section GeneratorTheorems.
Context `{Host}.

(** C4. On uniform draws, every row that [generateChunkAndAppend] appends
    and every row of the dataset that [generateDataset] builds has its
    hour between 6 and 21, a footfall of at least 0 and a location of
    [LOCATIONS], for every count [n]; and both return when the tape holds
    nine nonzero draws for each row. *)
Theorem generated_observations_ok (n : nat) (seedOffset : Z)
    (g : Globals) (w : World) :
  Forall unit_draw (randoms w) ->
  (forall g' w',
     generateChunkAndAppend n g w = Some (g', w') ->
     exists rows,
       DATASET g' = DATASET g ++ rows /\ length rows = n /\
       Forall observation_ok rows) /\
  (forall g' w',
     generateDataset n seedOffset g w = Some (g', w') ->
     length (DATASET g') = n /\ Forall observation_ok (DATASET g')) /\
  ((n * 9 <= nonzeros (randoms w))%nat ->
   is_Some (generateChunkAndAppend n g w) /\
   is_Some (generateDataset n seedOffset g w)).
Proof.
  intros Hw. split; [|split].
  - intros g' w'. rewrite generateChunkAndAppend_unfold.
    destruct (push_rows _ _ _ _) as [[dataset tape]|] eqn:E; [|discriminate].
    intros E'. injection E' as <- <-.
    destruct (produces_push_rows _ _ n
                (produces_generateChunkAndAppend_row (chunk_start w)
                   (chunk_msRange w)) (DATASET g) _ _ _ Hw E)
      as [(rows & -> & Hlen & Hall) _].
    exists rows. repeat split; try assumption.
    eapply Forall_impl; [exact Hall|]. now intros r [Hr _].
  - intros g' w'. rewrite generateDataset_unfold.
    destruct (push_rows _ _ _ _) as [[dataset tape]|] eqn:E; [|discriminate].
    destruct (finish_dataset_run dataset g) as (q1 & q2 & q3 & stats & ->).
    intros E'. injection E' as <- <-. simpl.
    destruct (produces_push_rows _ _ n
                (produces_generateDataset_row (dataset_start w)
                   (dataset_msRange w) seedOffset) [] _ _ _ Hw E)
      as [(rows & -> & Hlen & Hall) _].
    simpl. split; [now rewrite length_map|].
    apply Forall_map. eapply Forall_impl; [exact Hall|].
    intros r [Hr _]. now apply label_row_ok.
  - intros Hlen. split.
    + rewrite generateChunkAndAppend_unfold.
      destruct (runs_push_rows _ _ 9 n
                  (runs_generateChunkAndAppend_row (chunk_start w)
                     (chunk_msRange w))
                  (produces_generateChunkAndAppend_row _ _)
                  (DATASET g) (randoms w) Hw Hlen)
        as (dataset & tape & -> & _).
      eauto.
    + rewrite generateDataset_unfold.
      destruct (runs_push_rows _ _ 9 n
                  (runs_generateDataset_row (dataset_start w)
                     (dataset_msRange w) seedOffset)
                  (produces_generateDataset_row _ _ _)
                  [] (randoms w) Hw Hlen)
        as (dataset & tape & -> & _).
      destruct (finish_dataset_run dataset g) as (q1 & q2 & q3 & stats & ->).
      eauto.
Qed.
End GeneratorTheorems.

Lemma generated_observations_ok_witness :
  Forall unit_draw (randoms demo_world) /\
  exists g' w',
    @generateDataset demo_host 2 0 initial_globals demo_world = Some (g', w') /\
    length (DATASET g') = 2%nat /\ Forall observation_ok (DATASET g').
Proof.
  assert (Hd : Forall unit_draw (randoms demo_world)).
  { repeat (constructor; [split; [unfold Qle|unfold Qlt]; simpl; lia|]).
    constructor. }
  split; [exact Hd|].
  destruct (@generated_observations_ok demo_host 2 0 initial_globals
              demo_world Hd) as (_ & Hds & Htotal).
  destruct Htotal as [_ [[g' w'] E]]; [vm_compute; lia|].
  exists g', w'. split; [exact E|]. exact (Hds g' w' E).
Defined.

Example generateChunkAndAppend_demo :
  (fun r => map (fun d => (Row.hour d, Row.location d, Row.footfall d))
                (DATASET (fst r)))
    <$> @generateChunkAndAppend demo_host 2 initial_globals demo_world
  = Some [(11, "Brindavan_Gardens", 754); (18, "KRS_Dam", 184)].
Proof. vm_compute. reflexivity. Qed.

Example generateDataset_demo :
  (fun r => (map (fun d => (Row.date d, Row.hour d, Row.location d,
                            Row.footfall d, Row.density_label d))
                 (DATASET (fst r)),
             QUARTILES (fst r)))
    <$> @generateDataset demo_host 2 0 initial_globals demo_world
  = Some ([("2025-11-02", 11, "Brindavan_Gardens", 551, Some "Medium");
           ("2026-05-03", 21, "KRS_Dam", 43, Some "Low")],
          Some (Quartiles.mk 43 551 551)).
Proof. vm_compute. reflexivity. Qed.

(** ** Binary64 *)

(** [double] on literals of the script and on a tie: 0.1, 0.15, 1.4, a
    third, and 2^53 + 1, which goes to the even significand. *)
Example double_of_literals :
  map double [1 # 10; 15 # 100; 14 # 10; 1 # 3; - (1 # 3);
              9007199254740993 # 1]%Q
  = [3602879701896397 # 36028797018963968;
     5404319552844595 # 36028797018963968;
     3152519739159347 # 2251799813685248;
     6004799503160661 # 18014398509481984;
     - (6004799503160661 # 18014398509481984);
     9007199254740992 # 1]%Q.
Proof. vm_compute. reflexivity. Qed.

(** On every context of factors the products of the model are the
    numbers that the floating-point unit computes. *)
Example double_is_binary64 : binary64_checked = true.
Proof. vm_compute. reflexivity. Qed.

(** ** The footfall heuristic *)

(** *** The factors of a context *)

Lemma range_decide {A : Type} (a b h : Z) (x y : A) :
  (if (a <=? h) && (h <? b) then x else y)
  = (if decide (a <= h < b) then x else y).
Proof.
  destruct (decide (a <= h < b)), (Z.leb_spec a h), (Z.ltb_spec h b); simpl;
    first [reflexivity|lia].
Qed.

Lemma time_cases (hour : Z) :
  exists tf, In tf time_factors /\ timeFactor hour = tf /\ time_factor hour = tf.
Proof.
  unfold timeFactor, time_factor. rewrite !range_decide.
  repeat match goal with
         | |- context [decide ?P] => destruct (decide P)
         end;
    eexists; (split; [|split; reflexivity]); unfold time_factors; simpl; tauto.
Qed.

Lemma temperature_cases (temp : Q) :
  exists tc, In tc temperature_factors /\
             tempFactor temp = tc /\ temperature_factor temp = tc.
Proof.
  unfold tempFactor, temperature_factor, Qlt_bool.
  destruct (Qlt_le_dec (32 # 1) temp) as [Hhot|Hhot].
  - apply Qlt_not_le in Hhot.
    destruct (Qle_bool temp (32 # 1)) eqn:E;
      [apply Qle_bool_iff in E; contradiction|].
    eexists; (split; [|split; reflexivity]); simpl; tauto.
  - apply Qle_bool_iff in Hhot. rewrite Hhot. simpl.
    destruct (Qlt_le_dec temp (20 # 1)) as [Hcold|Hcold].
    + apply Qlt_not_le in Hcold.
      destruct (Qle_bool (20 # 1) temp) eqn:E;
        [apply Qle_bool_iff in E; contradiction|].
      eexists; (split; [|split; reflexivity]); simpl; tauto.
    + apply Qle_bool_iff in Hcold. rewrite Hcold.
      eexists; (split; [|split; reflexivity]); simpl; tauto.
Qed.

(** The profile of a location that is an own name of the tables or a
    name unknown to every object. *)
Lemma profile_cases (location : string) :
  inherited location = false ->
  exists b p,
    In (b, p) profiles /\
    or_factor (member baseScale location) (200 # 1) = Some (double b) /\
    or_factor (member locPopularity location) (1 # 1) = Some (double p) /\
    default (200 # 1) (baseScale !! location) = b /\
    default (1 # 1) (locPopularity !! location) = p.
Proof.
  intros Hown.
  destruct (in_dec String.string_dec location LOCATIONS) as [Hin|Hout].
  - unfold LOCATIONS in Hin.
    destruct Hin as [<-|[<-|[<-|[<-|[<-|[<-|[<-|[]]]]]]]];
      [exists (500 # 1)%Q, (12 # 10)%Q|exists (300 # 1)%Q, (9 # 10)%Q
      |exists (150 # 1)%Q, (6 # 10)%Q|exists (800 # 1)%Q, (15 # 10)%Q
      |exists (450 # 1)%Q, (11 # 10)%Q|exists (350 # 1)%Q, (1 # 1)%Q
      |exists (200 # 1)%Q, (7 # 10)%Q];
      (split; [unfold profiles; simpl; tauto|]);
      (split; [vm_compute; reflexivity|]);
      (split; [vm_compute; reflexivity|]);
      split; vm_compute; reflexivity.
  - assert (Hb : baseScale !! location = None)
      by (apply not_elem_of_list_to_map_1; intros Hin; apply Hout;
          apply list_elem_of_In; exact Hin).
    assert (Hp : locPopularity !! location = None)
      by (apply not_elem_of_list_to_map_1; intros Hin; apply Hout;
          apply list_elem_of_In; exact Hin).
    exists (200 # 1)%Q, (1 # 1)%Q. unfold member. rewrite Hb, Hp, Hown.
    split; [unfold profiles; simpl; tauto|].
    split; [reflexivity|]. split; [reflexivity|]. split; reflexivity.
Qed.

Lemma weather_cases (weather : string) :
  inherited weather = false ->
  exists w,
    In w weather_factors /\
    nullish_factor (member weatherMultiplier weather) (1 # 1)
    = Some (double w) /\
    default (1 # 1) (weatherMultiplier !! weather) = w /\
    weather_factor weather = w.
Proof.
  intros Hown.
  destruct (in_dec String.string_dec weather weatherTypes) as [Hin|Hout].
  - unfold weatherTypes, weatherMultiplier_entries in Hin. cbn [map fst] in Hin.
    destruct Hin as [<-|[<-|[<-|[<-|[<-|[]]]]]];
      [exists (1 # 1)%Q|exists (95 # 100)%Q|exists (6 # 10)%Q
      |exists (8 # 10)%Q|exists (9 # 10)%Q];
      (split; [unfold weather_factors; simpl; tauto|]);
      (split; [vm_compute; reflexivity|]);
      split; vm_compute; reflexivity.
  - assert (Hw : weatherMultiplier !! weather = None)
      by (apply not_elem_of_list_to_map_1; intros Hin; apply Hout;
          apply list_elem_of_In; exact Hin).
    exists (1 # 1)%Q. unfold member. rewrite Hw, Hown.
    split; [unfold weather_factors; simpl; tauto|].
    split; [reflexivity|]. split; [reflexivity|].
    unfold weather_factor.
    repeat match goal with
           | |- context [String.eqb weather ?k] =>
               destruct (String.eqb_spec weather k) as [->|_];
               [exfalso; apply Hout; vm_compute; tauto|]
           end.
    reflexivity.
Qed.

(** The own names of the tables are none of [Object.prototype]. *)
Lemma inherited_member (o : gmap string Q) (k : string) :
  inherited k = true -> o !! k = None -> member o k = Inherited.
Proof. intros Hk Ho. unfold member. now rewrite Ho, Hk. Qed.

Lemma inherited_location (location : string) :
  inherited location = true ->
  member baseScale location = Inherited /\
  member locPopularity location = Inherited.
Proof.
  intros Hk.
  assert (Hout : ~ In location LOCATIONS)
    by (intros Hin; apply LOCATIONS_own in Hin; congruence).
  split; apply inherited_member; try assumption;
    apply not_elem_of_list_to_map_1; intros Hin; apply Hout;
    apply list_elem_of_In; exact Hin.
Qed.

Lemma inherited_weather (weather : string) :
  inherited weather = true -> member weatherMultiplier weather = Inherited.
Proof.
  intros Hk.
  assert (Hout : ~ In weather weatherTypes)
    by (intros Hin; apply weatherTypes_own in Hin; congruence).
  apply inherited_member; [assumption|].
  apply not_elem_of_list_to_map_1; intros Hin; apply Hout;
    apply list_elem_of_In; exact Hin.
Qed.

(** Every one of the 2880 contexts of factors, evaluated. *)
Lemma contexts_checked_true : contexts_checked = true.
Proof. vm_compute. reflexivity. Qed.

Lemma context_checked_in (b p tf : Q) (f h : bool) (w tc : Q) :
  In (b, p) profiles -> In tf time_factors -> In w weather_factors ->
  In tc temperature_factors ->
  context_checked (b, p, tf, f, h, w, tc) = true.
Proof.
  intros Hbp Htf Hw Htc.
  assert (Hf : In f [false; true]) by (destruct f; simpl; tauto).
  assert (Hh : In h [false; true]) by (destruct h; simpl; tauto).
  pose proof contexts_checked_true as H. unfold contexts_checked in H.
  pose proof (proj1 (forallb_forall _ _) H _ Hbp) as H1. cbv zeta in H1.
  pose proof (proj1 (forallb_forall _ _) H1 _ Htf) as H2. cbv zeta in H2.
  pose proof (proj1 (forallb_forall _ _) H2 _ Hf) as H3. cbv zeta in H3.
  pose proof (proj1 (forallb_forall _ _) H3 _ Hh) as H4. cbv zeta in H4.
  pose proof (proj1 (forallb_forall _ _) H4 _ Hw) as H5. cbv zeta in H5.
  pose proof (proj1 (forallb_forall _ _) H5 _ Htc) as H6.
  exact H6.
Qed.

Lemma truthy_flag (b : bool) : truthy (flag b) = b.
Proof. destruct b; reflexivity. Qed.

Section FootfallFacts.
Context `{Host}.

(** The noise is 0 when the variate is. *)
Lemma gaussianRandom_zero (std : Q) (t t1 t' : list Q) (u v : Q) :
  draw_nonzero t = Some (u, t1) ->
  draw_nonzero t1 = Some (v, t') ->
  (boxMuller u v == 0)%Q ->
  gaussianRandom 0 std t = Some (0%Q, t').
Proof.
  intros Eu Ev Hz. unfold gaussianRandom, bind, ret. rewrite Eu, Ev.
  f_equal. f_equal.
  assert (E : boxMuller u v *! std = 0%Q).
  { unfold mul64, double.
    replace (Qeq_bool (boxMuller u v * std) 0) with true; [reflexivity|].
    symmetry. apply Qeq_bool_iff. rewrite Hz. ring. }
  rewrite E. reflexivity.
Qed.

(** The footfall is the estimate at the noise drawn. *)
Lemma computeFootfallSample_estimate location hour weather temp fest hol t :
  inherited location = false -> inherited weather = false ->
  computeFootfallSample location hour weather temp fest hol t
  = match gaussianRandom 0
            (double (default (200 # 1) (baseScale !! location))
             *! double (15 # 100)) t with
    | Some (noise, t') =>
        Some (estimate location hour weather temp fest hol noise, t')
    | None => None
    end.
Proof.
  intros Hl Hw.
  destruct (profile_cases location Hl) as (b & p & _ & Eb & Ep & Db & Dp).
  destruct (weather_cases weather Hw) as (w & _ & Ew & Dw & _).
  unfold computeFootfallSample, estimate, product64, bind, lift, ret.
  rewrite Eb, Ep, Ew, Db, Dp, Dw. reflexivity.
Qed.

(** For a name of [Object.prototype] the footfall is [NaN]. *)
Lemma computeFootfallSample_NaN location hour weather temp fest hol t :
  inherited location = true \/ inherited weather = true ->
  computeFootfallSample location hour weather temp fest hol t = None.
Proof.
  intros Hk. unfold computeFootfallSample, bind, lift.
  destruct (inherited location) eqn:El.
  - destruct (inherited_location location El) as [_ ->]. reflexivity.
  - destruct Hk as [Hk|Hk]; [discriminate|].
    destruct (or_factor_own locPopularity location (1 # 1) El) as [pop ->].
    rewrite (inherited_weather weather Hk). reflexivity.
Qed.

(** The footfall at noise 0, by the factors of the context. *)
Lemma noise_free_context location hour weather temp (festival holiday : bool) :
  inherited location = false -> inherited weather = false ->
  exists c,
    context_checked c = true /\
    estimate location hour weather temp (flag festival) (flag holiday) 0
    = noise_free c /\
    expected_mean location hour weather temp festival holiday = exact_mean c.
Proof.
  intros Hl Hw.
  destruct (profile_cases location Hl) as (b & p & Hbp & _ & _ & Db & Dp).
  destruct (weather_cases weather Hw) as (w & Hwf & _ & Dw & Sw).
  destruct (time_cases hour) as (tf & Htf & Ct & St).
  destruct (temperature_cases temp) as (tc & Htc & Cc & Sc).
  exists (b, p, tf, festival, holiday, w, tc).
  split; [now apply context_checked_in|].
  unfold estimate, noise_free, expected_mean, exact_mean, base_scale,
    popularity.
  rewrite !truthy_flag, Db, Dp, Dw, Ct, Cc, St, Sc, Sw. split; reflexivity.
Qed.

Lemma noise_free_footfall location hour weather temp (festival holiday : bool)
    (t t1 t' : list Q) (u v : Q) :
  draw_nonzero t = Some (u, t1) ->
  draw_nonzero t1 = Some (v, t') ->
  (boxMuller u v == 0)%Q ->
  inherited location = false -> inherited weather = false ->
  exists c,
    context_checked c = true /\
    computeFootfallSample location hour weather temp
      (flag festival) (flag holiday) t = Some (noise_free c, t') /\
    expected_mean location hour weather temp festival holiday = exact_mean c.
Proof.
  intros Eu Ev Hz Hl Hw.
  destruct (noise_free_context location hour weather temp festival holiday
              Hl Hw) as (c & Hc & Ec & Em).
  exists c. split; [exact Hc|]. split; [|exact Em].
  rewrite (computeFootfallSample_estimate _ _ _ _ _ _ _ Hl Hw).
  rewrite (gaussianRandom_zero _ t t1 t' u v Eu Ev Hz). now rewrite Ec.
Qed.
End FootfallFacts.

Lemma below_half_bool (m : Q) :
  Qeq_bool m (833 # 2) || Qeq_bool m (931 # 2) = true <-> below_half m.
Proof.
  unfold below_half. rewrite orb_true_iff, !Qeq_bool_iff. reflexivity.
Qed.

Section FootfallTheorems.
Context `{Host}.

(** C3, as the script has it.  When the two draws of the variate give
    the noise 0, the estimate for Mysore_Palace at 18 h, Clear, 26
    degrees, no festival, no holiday is
    round(800 * 1.5 * 1.4 * 1 * 1 * 1 * 1) = 1680.  For every context whose
    location and weather are no names of members of [Object.prototype],
    the estimate is the rounded mean of the specification, the product of
    the base scale, the popularity and the time, festival, holiday,
    weather and temperature factors, unless that mean is 416.5 or 465.5:
    there the product in binary64 falls below the half and the estimate
    is one less than the rounded mean. *)
Theorem noise_free_estimate (t t1 t' : list Q) (u v : Q) :
  draw_nonzero t = Some (u, t1) ->
  draw_nonzero t1 = Some (v, t') ->
  (boxMuller u v == 0)%Q ->
  computeFootfallSample "Mysore_Palace" 18 "Clear" (26 # 1) 0 0 t
    = Some (1680, t') /\
  Math_round ((800 # 1) * (15 # 10) * (14 # 10) * 1 * 1 * 1 * 1)%Q = 1680 /\
  forall location hour weather temp (is_festival is_holiday : bool),
    inherited location = false -> inherited weather = false ->
    let mean :=
      expected_mean location hour weather temp is_festival is_holiday in
    exists footfall,
      computeFootfallSample location hour weather temp
        (flag is_festival) (flag is_holiday) t = Some (footfall, t') /\
      (~ below_half mean -> footfall = Math_round mean) /\
      (below_half mean -> footfall = Math_round mean - 1).
Proof.
  intros Eu Ev Hz.
  assert (Hall : forall location hour weather temp
                        (is_festival is_holiday : bool),
    inherited location = false -> inherited weather = false ->
    let mean :=
      expected_mean location hour weather temp is_festival is_holiday in
    exists footfall,
      computeFootfallSample location hour weather temp
        (flag is_festival) (flag is_holiday) t = Some (footfall, t') /\
      (~ below_half mean -> footfall = Math_round mean) /\
      (below_half mean -> footfall = Math_round mean - 1)).
  { intros location hour weather temp is_festival is_holiday Hl Hw mean.
    destruct (noise_free_footfall location hour weather temp is_festival
                is_holiday t t1 t' u v Eu Ev Hz Hl Hw) as (c & Hc & Ec & Em).
    exists (noise_free c). split; [exact Ec|].
    pose proof Hc as Hchk.
    unfold context_checked in Hchk.
    apply andb_true_iff in Hchk as [Hchk _].
    apply andb_true_iff in Hchk as [Hchk _].
    apply Z.eqb_eq in Hchk. unfold mean. rewrite Em.
    destruct (Qeq_bool (exact_mean c) (833 # 2)
              || Qeq_bool (exact_mean c) (931 # 2)) eqn:Eh.
    - apply below_half_bool in Eh. split; [contradiction|auto].
    - split; [auto|]. intros Hb. apply below_half_bool in Hb. congruence. }
  split; [|split; [reflexivity|exact Hall]].
  destruct (Hall "Mysore_Palace" 18 "Clear" (26 # 1) false false
              eq_refl eq_refl) as (f & Ef & Hf & _).
  change (flag false) with 0 in Ef. rewrite Ef. f_equal. f_equal.
  rewrite Hf; [reflexivity|].
  intros [Hb|Hb]; vm_compute in Hb; discriminate.
Qed.
End FootfallTheorems.

Lemma noise_free_estimate_witness :
  @computeFootfallSample quiet_host "Mysore_Palace" 18 "Clear" (26 # 1) 0 0
    [0 # 1; 1 # 2; 1 # 4]%Q = Some (1680, []).
Proof.
  apply (@noise_free_estimate quiet_host
           [0 # 1; 1 # 2; 1 # 4]%Q [1 # 4]%Q [] (1 # 2) (1 # 4)).
  - reflexivity.
  - reflexivity.
  - reflexivity.
Defined.

(** C3, as the specification has it, fails in two ways.  At Mysore_Zoo
    at 18 h, Cloudy, 26 degrees the mean is 350 * 1.0 * 1.4 * 0.95 = 465.5,
    which rounds to 466, and the script returns 465: its product is the
    double just below 465.5.  At a location named constructor the
    specification takes the default profile and gives 280, and the script
    reads the inherited member of its tables and computes no number. *)
Lemma noise_free_estimate_not_the_rounded_mean :
  @computeFootfallSample quiet_host "Mysore_Zoo" 18 "Cloudy" (26 # 1) 0 0
    [0 # 1; 1 # 2; 1 # 4]%Q = Some (465, []) /\
  (expected_mean "Mysore_Zoo" 18 "Cloudy" (26 # 1) false false == 931 # 2)%Q /\
  Math_round (expected_mean "Mysore_Zoo" 18 "Cloudy" (26 # 1) false false)
  = 466 /\
  @computeFootfallSample quiet_host "constructor" 18 "Clear" (26 # 1) 0 0
    [0 # 1; 1 # 2; 1 # 4]%Q = None /\
  Math_round (expected_mean "constructor" 18 "Clear" (26 # 1) false false)
  = 280.
Proof.
  split; [vm_compute; reflexivity|]. split; [vm_compute; reflexivity|].
  split; [vm_compute; reflexivity|]. split; vm_compute; reflexivity.
Qed.

(** ** Reproducibility *)

Section ReproducibilityTheorems.
Context `{Host}.

Lemma label_row_datetime (q1 q2 q3 : Z) (r : Row.t) :
  Row.datetime (label_row q1 q2 q3 r) = Row.datetime r.
Proof. reflexivity. Qed.

(** C9, as the script has it. The second parameter of [generateDataset]
    is an offset in milliseconds added to the instant of every row; the
    uniform source takes no seed.  Two calls with the same count and the
    same offset build the same globals when they read the same two instants
    off the clock and the same uniform draws, whatever the globals and the
    rest of the clock were. *)
Theorem generateDataset_reproducible (n : nat) (seedOffset : Z)
    (g1 g2 : Globals) (w1 w2 : World) :
  randoms w1 = randoms w2 ->
  clock w1 (ticks w1) = clock w2 (ticks w2) ->
  clock w1 (S (ticks w1)) = clock w2 (S (ticks w2)) ->
  fst <$> generateDataset n seedOffset g1 w1
  = fst <$> generateDataset n seedOffset g2 w2 /\
  (Forall unit_draw (randoms w1) ->
   forall g' w',
     generateDataset n seedOffset g1 w1 = Some (g', w') ->
     Forall (fun r =>
               exists u,
                 unit_draw u /\
                 Row.datetime r
                 = toISOString (dataset_start w1
                                + Qfloor (u * inject_Z (dataset_msRange w1))
                                + seedOffset))
            (DATASET g')).
Proof.
  intros Hr Hc0 Hc1. split.
  - rewrite !generateDataset_unfold.
    unfold dataset_msRange, dataset_start. rewrite Hr, Hc0, Hc1.
    destruct (push_rows _ _ _ _) as [[dataset tape]|]; [|reflexivity].
    rewrite (finish_dataset_globals dataset g1 g2).
    destruct (finish_dataset dataset g2); reflexivity.
  - intros Hw g' w'. rewrite generateDataset_unfold.
    destruct (push_rows _ _ _ _) as [[dataset tape]|] eqn:E; [|discriminate].
    destruct (finish_dataset_run dataset g1) as (q1 & q2 & q3 & stats & ->).
    intros E'. injection E' as <- <-. simpl.
    destruct (produces_push_rows _ _ n
                (produces_generateDataset_row (dataset_start w1)
                   (dataset_msRange w1) seedOffset) [] _ _ _ Hw E)
      as [(rows & -> & _ & Hall) _].
    simpl. apply Forall_map. eapply Forall_impl; [exact Hall|].
    intros r (_ & _ & _ & Hu). rewrite label_row_datetime. exact Hu.
Qed.
End ReproducibilityTheorems.

Lemma generateDataset_reproducible_witness :
  fst <$> @generateDataset demo_host 2 0 initial_globals demo_world
  = fst <$> @generateDataset demo_host 2 0
              (set_QUARTILES (Some (Quartiles.mk 100 200 300)) initial_globals)
              later_world.
Proof.
  apply (@generateDataset_reproducible demo_host 2 0 initial_globals
           (set_QUARTILES (Some (Quartiles.mk 100 200 300)) initial_globals)
           demo_world later_world).
  - reflexivity.
  - reflexivity.
  - reflexivity.
Defined.

(** C9, as the specification has it, fails: two calls in a row with the
    same count and the same offset build different datasets, here a row at
    11 h and then a row at 21 h. *)
Lemma generateDataset_same_seed_differs :
  exists d1 d2,
    two_calls demo_host 1 0 demo_world = Some (d1, d2) /\
    map Row.hour d1 = [11] /\ map Row.hour d2 = [21] /\ d1 <> d2.
Proof.
  eexists; eexists; split; [vm_compute; reflexivity|].
  split; [vm_compute; reflexivity|]. split; [vm_compute; reflexivity|].
  intros E. apply (f_equal (map Row.hour)) in E.
  vm_compute in E. discriminate.
Qed.

(** * Further properties of the script *)

(** ** The redraw loops of [gaussianRandom] *)

Lemma draw_nonzero_zeros (zs : list Q) (u : Q) (t : list Q) :
  Forall (fun z => Qeq_bool z 0 = true) zs -> Qeq_bool u 0 = false ->
  draw_nonzero (zs ++ u :: t) = Some (u, t).
Proof.
  intros Hz Hu. induction Hz as [|z zs Hz _ IH]; simpl.
  - now rewrite Hu.
  - now rewrite Hz.
Qed.

Lemma draw_nonzero_inv (t : list Q) (u : Q) (t' : list Q) :
  draw_nonzero t = Some (u, t') ->
  exists zs, t = zs ++ u :: t' /\
             Forall (fun z => Qeq_bool z 0 = true) zs /\ Qeq_bool u 0 = false.
Proof.
  induction t as [|z t IH]; simpl; [discriminate|].
  destruct (Qeq_bool z 0) eqn:Ez.
  - intros E. destruct (IH E) as (zs & -> & Hzs & Hu).
    exists (z :: zs). repeat split; [constructor|]; assumption.
  - intros E. injection E as <- <-. exists []. repeat split; [constructor|assumption].
Qed.

Section GaussianTheorems.
Context `{Host}.

(** X1. [gaussianRandom] redraws zeros: it returns exactly on the tapes
    that hold two nonzero draws, some zero draws before each of them; the
    result is the variate of those two draws scaled by [std] and shifted by
    [mean], the product and the sum rounded to binary64, and the tape goes
    on after the second one.  The variate is never taken at a zero
    draw. *)
Theorem gaussianRandom_redraws (mean std : Q) (t : list Q) (x : Q) (t' : list Q) :
  gaussianRandom mean std t = Some (x, t') <->
  exists zs1 u zs2 v,
    t = zs1 ++ u :: zs2 ++ v :: t' /\
    Forall (fun z => Qeq_bool z 0 = true) zs1 /\ Qeq_bool u 0 = false /\
    Forall (fun z => Qeq_bool z 0 = true) zs2 /\ Qeq_bool v 0 = false /\
    x = boxMuller u v *! std +! mean.
Proof.
  unfold gaussianRandom, bind, ret. split.
  - destruct (draw_nonzero t) as [[u t1]|] eqn:E1; [|discriminate].
    destruct (draw_nonzero t1) as [[v t2]|] eqn:E2; [|discriminate].
    intros E. injection E as <- <-.
    apply draw_nonzero_inv in E1 as (zs1 & -> & Hz1 & Hu).
    apply draw_nonzero_inv in E2 as (zs2 & -> & Hz2 & Hv).
    exists zs1, u, zs2, v.
    split; [reflexivity|]. split; [assumption|]. split; [assumption|].
    split; [assumption|]. split; [assumption|reflexivity].
  - intros (zs1 & u & zs2 & v & -> & Hz1 & Hu & Hz2 & Hv & ->).
    rewrite (draw_nonzero_zeros zs1 u _ Hz1 Hu).
    now rewrite (draw_nonzero_zeros zs2 v _ Hz2 Hv).
Qed.
End GaussianTheorems.

Example gaussianRandom_redraws_demo :
  @gaussianRandom demo_host 0 (10 # 1) [0 # 1; 1 # 2; 0 # 3; 0 # 1; 1 # 4; 7 # 8]%Q
  = Some (15 # 2, [7 # 8])%Q.
Proof. vm_compute. reflexivity. Qed.

(** ** How many rows a tier receives *)

Lemma Qfloor_scale (z a : Z) (b : positive) :
  Qfloor (inject_Z z * (a # b)) = z * a / Z.pos b.
Proof. unfold Qfloor, Qmult, inject_Z. cbn [Qnum Qden]. now rewrite Pos.mul_1_l. Qed.

Lemma floor_mul_quarters (n : nat) :
  floor_mul n (25 # 100) = (n / 4)%nat /\
  floor_mul n (50 # 100) = (n / 2)%nat /\
  floor_mul n (75 # 100) = (3 * n / 4)%nat.
Proof.
  unfold floor_mul. rewrite !Qfloor_scale.
  repeat split; apply Nat2Z.inj; rewrite Nat2Z.inj_div;
    (rewrite Z2Nat.id by (apply Z.div_pos; lia)).
  - change 100 with (4 * 25). rewrite Z.div_mul_cancel_r by lia. reflexivity.
  - change 100 with (2 * 50). rewrite Z.div_mul_cancel_r by lia. reflexivity.
  - replace (Z.of_nat n * 75) with (Z.of_nat (3 * n) * 25) by lia.
    change 100 with (4 * 25). rewrite Z.div_mul_cancel_r by lia. reflexivity.
Qed.

Lemma filter_map_length {A B : Type} (f : A -> B) (P : B -> Prop)
    `{forall b, Decision (P b)} (l : list A) :
  length (filter P (map f l)) = length (filter (fun a => P (f a)) l).
Proof.
  induction l as [|a l IH]; [reflexivity|].
  simpl. rewrite !filter_cons. destruct (decide (P (f a))); simpl; now rewrite IH.
Qed.

(** In a sorted array the entries up to an index are at most the entry
    there, and no entry above it stands before it. *)
Lemma sorted_count_le (l : list Z) (i : nat) (q : Z) :
  StronglySorted Z.le l -> l !! i = Some q ->
  (i + 1 <= length (filter (fun x => (x <= q)%Z) l))%nat /\
  (length (filter (fun x => (q < x)%Z) l) + i + 1 <= length l)%nat.
Proof.
  intros Hs Hi.
  assert (Hlt : (i < length l)%nat) by (eapply lookup_lt_Some; eassumption).
  assert (Htake : Forall (fun x => x <= q) (take (S i) l)).
  { apply Forall_forall. intros x Hx.
    apply list_elem_of_lookup in Hx as [j Hj].
    pose proof (lookup_lt_Some _ _ _ Hj) as Hjl. rewrite length_take in Hjl.
    rewrite lookup_take_lt in Hj by lia.
    eapply (StronglySorted_lookup_le l j i); eauto. lia. }
  rewrite <- (take_drop (S i) l) at 1 2 3.
  rewrite !filter_app, !length_app.
  assert (E1 : filter (fun x => x <= q) (take (S i) l) = take (S i) l).
  { clear -Htake. induction Htake as [|x k Hx _ IH]; [reflexivity|].
    rewrite filter_cons. destruct (decide (x <= q)); [now rewrite IH|lia]. }
  assert (E2 : filter (fun x => q < x) (take (S i) l) = []).
  { clear -Htake. induction Htake as [|x k Hx _ IH]; [reflexivity|].
    rewrite filter_cons. destruct (decide (q < x)); [lia|exact IH]. }
  rewrite E1, E2, length_take. cbn [length].
  pose proof (length_filter (fun x => q < x) (drop (S i) l)) as Hd.
  rewrite length_drop in *. lia.
Qed.

Lemma label_row_Low (q1 q2 q3 : Z) (r : Row.t) :
  Row.density_label (label_row q1 q2 q3 r) = Some "Low" <-> Row.footfall r <= q1.
Proof.
  unfold label_row. simpl.
  destruct (Z.leb_spec (Row.footfall r) q1); [split; auto|].
  destruct (Row.footfall r <=? q2), (Row.footfall r <=? q3);
    split; intros; try discriminate; lia.
Qed.

Lemma label_row_Very_High (q1 q2 q3 : Z) (r : Row.t) :
  non_decreasing q1 q2 q3 ->
  Row.density_label (label_row q1 q2 q3 r) = Some "Very_High"
  <-> q3 < Row.footfall r.
Proof.
  intros [H12 H23]. unfold label_row. simpl.
  destruct (Z.leb_spec (Row.footfall r) q1);
    [split; intros; try discriminate; lia|].
  destruct (Z.leb_spec (Row.footfall r) q2);
    [split; intros; try discriminate; lia|].
  destruct (Z.leb_spec (Row.footfall r) q3);
    split; intros; try discriminate; auto; lia.
Qed.

Lemma filter_cons_length {A : Type} (P : A -> Prop) `{forall a, Decision (P a)}
    (x : A) (l : list A) :
  length (filter P (x :: l))
  = ((if decide (P x) then 1 else 0) + length (filter P l))%nat.
Proof. rewrite filter_cons. destruct (decide (P x)); reflexivity. Qed.

Lemma label_row_tier (q1 q2 q3 : Z) (r : Row.t) :
  In (Row.density_label (label_row q1 q2 q3 r))
     [Some "Low"; Some "Medium"; Some "High"; Some "Very_High"].
Proof.
  unfold label_row. simpl.
  destruct (Row.footfall r <=? q1), (Row.footfall r <=? q2),
    (Row.footfall r <=? q3); auto 6.
Qed.

Lemma count_labels_total (q1 q2 q3 : Z) (dataset : list Row.t) :
  (count_label "Low" (map (label_row q1 q2 q3) dataset)
   + count_label "Medium" (map (label_row q1 q2 q3) dataset)
   + count_label "High" (map (label_row q1 q2 q3) dataset)
   + count_label "Very_High" (map (label_row q1 q2 q3) dataset)
   = length dataset)%nat.
Proof.
  unfold count_label. induction dataset as [|r rows IH]; [reflexivity|].
  cbn [map]. rewrite !filter_cons_length. cbn [length].
  pose proof (label_row_tier q1 q2 q3 r) as Ht.
  destruct Ht as [<-|[<-|[<-|[<-|[]]]]];
    repeat match goal with
           | |- context [decide ?P] => destruct (decide P); try congruence
           end; lia.
Qed.

Lemma count_by_footfall (label : string) (P : Z -> Prop)
    `{forall z, Decision (P z)} (q1 q2 q3 : Z) (sorted : list Z) rows :
  (forall r, Row.density_label (label_row q1 q2 q3 r) = Some label
             <-> P (Row.footfall r)) ->
  Permutation (map Row.footfall rows) sorted ->
  count_label label (map (label_row q1 q2 q3) rows) = length (filter P sorted).
Proof.
  intros Hl Hp. unfold count_label.
  rewrite <- Hp, !filter_map_length. f_equal.
  apply list_filter_iff. intros r. apply Hl.
Qed.

(** X2. On a dataset of n > 0 rows the labelling pass gives every row one
    of the four labels; at least floor(n/4) + 1 rows are Low, at least
    floor(n/2) + 1 are Low or Medium, and at most n - floor(3n/4) - 1 are
    Very_High: ties at a quartile all fall into the lower tier. *)
Theorem tier_sizes (g g' : Globals) :
  DATASET g <> [] ->
  computeGlobalQuartilesAndLabels g = Some g' ->
  let n := length (DATASET g) in
  let count label := count_label label (DATASET g') in
  (count "Low" + count "Medium" + count "High" + count "Very_High" = n)%nat /\
  (n / 4 + 1 <= count "Low")%nat /\
  (n / 2 + 1 <= count "Low" + count "Medium")%nat /\
  (count "Very_High" + 3 * n / 4 + 1 <= n)%nat.
Proof.
  intros Hne Hrun n count.
  destruct (computeGlobalQuartilesAndLabels_run g)
    as (q1 & q2 & q3 & Hrun' & Hnd & Hq).
  rewrite Hrun in Hrun'. injection Hrun' as ->.
  unfold count. cbn [DATASET].
  pose proof (count_labels_total q1 q2 q3 (DATASET g)) as Htotal.
  split; [exact Htotal|].
  unfold is_quartiles in Hq.
  destruct (map Row.footfall (DATASET g)) as [|s ss] eqn:Es.
  { apply map_eq_nil in Es. contradiction. }
  destruct Hq as (sorted & Hperm & Hsorted & H1 & H2 & H3).
  rewrite <- Es in Hperm.
  assert (Hlen : length sorted = n).
  { rewrite <- Hperm. apply length_map. }
  unfold nearest_rank in H1, H2, H3. rewrite Hlen in H1, H2, H3.
  change (Z.to_nat (Qfloor (inject_Z (Z.of_nat n) * ?p))) with (floor_mul n p)
    in H1, H2, H3.
  rewrite (floor_mul_comp n (1 # 4) (25 # 100)) in H1 by reflexivity.
  rewrite (floor_mul_comp n (1 # 2) (50 # 100)) in H2 by reflexivity.
  rewrite (floor_mul_comp n (3 # 4) (75 # 100)) in H3 by reflexivity.
  destruct (floor_mul_quarters n) as (E1 & E2 & E3).
  rewrite E1 in H1. rewrite E2 in H2. rewrite E3 in H3.
  destruct (sorted_count_le sorted _ q1 Hsorted H1) as [Hlow _].
  destruct (sorted_count_le sorted _ q2 Hsorted H2) as [_ Hmid].
  destruct (sorted_count_le sorted _ q3 Hsorted H3) as [_ Hhigh].
  rewrite Hlen in Hmid, Hhigh.
  assert (CL : count_label "Low" (map (label_row q1 q2 q3) (DATASET g))
               = length (filter (fun x => x <= q1) sorted))
    by (apply count_by_footfall;
        [intros; apply label_row_Low|exact Hperm]).
  assert (CV : count_label "Very_High" (map (label_row q1 q2 q3) (DATASET g))
               = length (filter (fun x => q3 < x) sorted))
    by (apply count_by_footfall;
        [intros; now apply label_row_Very_High|exact Hperm]).
  rewrite <- CL in Hlow. rewrite <- CV in Hhigh.
  split; [exact Hlow|]. split; [|exact Hhigh].
  assert (Hupper : (count_label "High" (map (label_row q1 q2 q3) (DATASET g))
                    + count_label "Very_High"
                        (map (label_row q1 q2 q3) (DATASET g))
                    <= length (filter (fun x => (q2 < x)%Z) sorted))%nat).
  { rewrite <- Hperm, filter_map_length. unfold count_label.
    rewrite !filter_map_length. clear.
    induction (DATASET g) as [|r rows IH]; [simpl; lia|].
    rewrite !filter_cons_length.
    pose proof (label_row_Low q1 q2 q3 r) as HL.
    unfold label_row in *. cbn [Row.density_label Row.footfall] in *.
    destruct (Z.leb_spec (Row.footfall r) q1);
      [|destruct (Z.leb_spec (Row.footfall r) q2);
        [|destruct (Z.leb_spec (Row.footfall r) q3)]];
      repeat match goal with
             | |- context [decide ?P] => destruct (decide P); try congruence
             end; lia. }
  lia.
Qed.

Lemma tier_sizes_witness :
  exists g',
    computeGlobalQuartilesAndLabels sample_globals = Some g' /\
    (3 <= count_label "Low" (DATASET g'))%nat.
Proof.
  destruct (computeGlobalQuartilesAndLabels_run sample_globals)
    as (q1 & q2 & q3 & Hrun & _).
  eexists. split; [exact Hrun|].
  assert (Hne : DATASET sample_globals <> []) by discriminate.
  exact (proj1 (proj2 (tier_sizes sample_globals _ Hne Hrun))).
Defined.

Example tier_sizes_demo :
  (fun g => map (fun l => count_label l (DATASET g))
                ["Low"; "Medium"; "High"; "Very_High"])
    <$> computeGlobalQuartilesAndLabels sample_globals
  = Some [3; 2; 2; 2]%nat.
Proof. vm_compute. reflexivity. Qed.

(** ** Running the passes again *)

Lemma label_row_twice (q1 q2 q3 : Z) (r : Row.t) :
  label_row q1 q2 q3 (label_row q1 q2 q3 r) = label_row q1 q2 q3 r.
Proof. reflexivity. Qed.

(** X3. The labelling pass is idempotent: run on its own result it stores
    the same sorted samples and quartiles and leaves every label as it
    is. *)
Theorem relabelling_idempotent (g g' : Globals) :
  computeGlobalQuartilesAndLabels g = Some g' ->
  computeGlobalQuartilesAndLabels g' = Some g'.
Proof.
  intros Hrun.
  destruct (computeGlobalQuartilesAndLabels_run g)
    as (q1 & q2 & q3 & Hrun' & _).
  rewrite Hrun in Hrun'. injection Hrun' as Eg'.
  assert (Hf : map Row.footfall (DATASET g') = map Row.footfall (DATASET g)).
  { rewrite Eg'. cbn [DATASET]. rewrite map_map. apply map_ext.
    intros r. apply label_row_footfall. }
  revert Hrun. unfold computeGlobalQuartilesAndLabels, set_SAMPLES_SORTED,
    set_QUARTILES, set_DATASET.
  cbn [SAMPLES_SORTED DATASET QUARTILES PER_LOCATION_STATS].
  rewrite Hf.
  destruct (length (js_sort ascending (map Row.footfall (DATASET g))) =? 0)%nat
    eqn:En.
  - intros E. injection E as E. rewrite <- E at 1 2 3. cbn [DATASET PER_LOCATION_STATS].
    now rewrite E.
  - destruct (_ !! floor_mul _ (25 # 100)) as [a|]; [|discriminate].
    destruct (_ !! floor_mul _ (50 # 100)) as [b|]; [|discriminate].
    destruct (_ !! floor_mul _ (75 # 100)) as [c|]; [|discriminate].
    cbn [mbind option_bind]. intros E. injection E as E.
    rewrite <- E at 1 2. cbn [DATASET PER_LOCATION_STATS].
    rewrite map_map. rewrite (map_ext _ _ (label_row_twice a b c)).
    now rewrite E.
Qed.

Lemma relabelling_idempotent_witness :
  exists g',
    computeGlobalQuartilesAndLabels sample_globals = Some g' /\
    computeGlobalQuartilesAndLabels g' = Some g'.
Proof.
  destruct (computeGlobalQuartilesAndLabels_run sample_globals)
    as (q1 & q2 & q3 & Hrun & _).
  eexists. split; [exact Hrun|].
  exact (relabelling_idempotent sample_globals _ Hrun).
Defined.

(** ** What the statistics of a location read *)

Lemma location_stats_fields (loc : string) (rows1 rows2 : list Row.t) :
  map stat_fields rows1 = map stat_fields rows2 ->
  location_stats rows1 loc = location_stats rows2 loc.
Proof.
  intros E.
  assert (Hitems :
    map Row.footfall
      (filter (fun d => String.eqb (Row.location d) loc = true) rows1)
    = map Row.footfall
        (filter (fun d => String.eqb (Row.location d) loc = true) rows2)).
  { revert rows2 E. induction rows1 as [|r1 rows1 IH]; intros [|r2 rows2] E;
      try discriminate; [reflexivity|].
    cbn [map] in E. injection E as El _ Ef E.
    rewrite !filter_cons, El.
    destruct (decide _); cbn [map]; rewrite ?Ef; now rewrite (IH rows2). }
  assert (Hfold : forall acc,
    foldl (bucket_step loc) acc rows1 = foldl (bucket_step loc) acc rows2).
  { clear Hitems. revert rows2 E.
    induction rows1 as [|r1 rows1 IH]; intros [|r2 rows2] E acc;
      try discriminate; [reflexivity|].
    cbn [map] in E. injection E as El Eh Ef E.
    cbn [foldl]. unfold bucket_step at 2 4. rewrite El, Eh, Ef.
    now apply IH. }
  unfold location_stats. now rewrite Hitems, Hfold.
Qed.

Lemma stats_fold_lookup (dataset : list Row.t) (locs : list string)
    (m : gmap string LocStats.t) :
  exists m',
    foldl (fun acc loc =>
             m ← acc;
             st ← location_stats dataset loc;
             Some (<[loc := st]> m))
          (Some m) locs = Some m' /\
    forall loc, ~ loc ∈ locs -> m' !! loc = m !! loc.
Proof.
  revert m. induction locs as [|l locs IH] using rev_ind; intros m.
  - exists m. split; [reflexivity|]. auto.
  - destruct (IH m) as (m1 & Hm1 & Hl).
    destruct (location_stats_run dataset l) as (q1 & q2 & q3 & gs & Hst & _).
    exists (<[l := LocStats.mk q1 q2 q3 (take 5 gs)]> m1).
    rewrite foldl_snoc, Hm1. cbn [mbind option_bind]. rewrite Hst.
    split; [reflexivity|].
    intros loc Hin. rewrite elem_of_app, list_elem_of_singleton in Hin.
    rewrite lookup_insert_ne by (intros ->; tauto). apply Hl. tauto.
Qed.

Lemma stats_fold_fields (rows1 rows2 : list Row.t) (locs : list string)
    (acc : option (gmap string LocStats.t)) :
  map stat_fields rows1 = map stat_fields rows2 ->
  foldl (fun acc loc =>
           m ← acc;
           st ← location_stats rows1 loc;
           Some (<[loc := st]> m)) acc locs
  = foldl (fun acc loc =>
             m ← acc;
             st ← location_stats rows2 loc;
             Some (<[loc := st]> m)) acc locs.
Proof.
  intros E. revert acc. induction locs as [|l locs IH]; intros acc;
    [reflexivity|].
  cbn [foldl]. rewrite (location_stats_fields l rows1 rows2 E). apply IH.
Qed.

(** X4. The statistics of the locations read the location, the hour and
    the footfall of the rows and nothing else: two datasets that agree on
    these three fields, row by row, get the same [PER_LOCATION_STATS].  So
    the statistics do not depend on whether the labelling pass has run. *)
Theorem statistics_read_three_fields (g1 g2 : Globals) :
  map stat_fields (DATASET g1) = map stat_fields (DATASET g2) ->
  PER_LOCATION_STATS <$> computePerLocationStats g1
  = PER_LOCATION_STATS <$> computePerLocationStats g2.
Proof.
  intros E. unfold computePerLocationStats.
  rewrite (stats_fold_fields (DATASET g1) (DATASET g2) LOCATIONS (Some ∅) E).
  destruct (foldl _ _ _); reflexivity.
Qed.

Lemma statistics_read_three_fields_witness :
  PER_LOCATION_STATS <$> computePerLocationStats sample_globals
  = PER_LOCATION_STATS
      <$> computePerLocationStats
            (set_DATASET (map (label_row 1000 1200 1601) (DATASET sample_globals))
                         sample_globals).
Proof.
  apply (statistics_read_three_fields sample_globals
           (set_DATASET (map (label_row 1000 1200 1601) (DATASET sample_globals))
                        sample_globals)).
  reflexivity.
Defined.

(** X5. [computePerLocationStats] starts from an empty object and stores
    one entry for each of the seven [LOCATIONS], also for an empty dataset:
    afterwards a name has statistics exactly when it is a known location.
    Rows at another location enter no entry, and entries stored before are
    gone. *)
Theorem statistics_keys (g : Globals) :
  exists g',
    computePerLocationStats g = Some g' /\
    DATASET g' = DATASET g /\
    forall loc, is_Some (PER_LOCATION_STATS g' !! loc) <-> In loc LOCATIONS.
Proof.
  unfold computePerLocationStats.
  destruct (stats_fold (DATASET g) LOCATIONS ∅) as (m & Hm & Hin).
  destruct (stats_fold_lookup (DATASET g) LOCATIONS ∅) as (m' & Hm' & Hout).
  rewrite Hm in Hm'. injection Hm' as <-. rewrite Hm. cbn [mbind option_bind].
  eexists. split; [reflexivity|]. split; [reflexivity|].
  cbn [PER_LOCATION_STATS set_PER_LOCATION_STATS]. intros loc.
  rewrite <- list_elem_of_In. split.
  - intros Hs. destruct (decide (loc ∈ LOCATIONS)) as [|Hn]; [assumption|].
    rewrite (Hout loc Hn), lookup_empty in Hs. now destruct Hs.
  - intros Hl. rewrite (Hin loc Hl).
    destruct (location_stats_run (DATASET g) loc) as (? & ? & ? & ? & -> & _).
    eauto.
Qed.

Example statistics_keys_demo :
  (fun g => (PER_LOCATION_STATS g !! "KRS_Dam",
             PER_LOCATION_STATS g !! "Hampi", PER_LOCATION_STATS g !! "stale"))
    <$> computePerLocationStats
          (set_PER_LOCATION_STATS {[ "stale" := LocStats.mk 1 2 3 [] ]}
             (set_DATASET [observation "KRS_Dam" 9 140; observation "Hampi" 9 99]
                          initial_globals))
  = Some (Some (LocStats.mk 140 140 140 [HourAvg.mk 9 140]), None, None).
Proof. vm_compute. reflexivity. Qed.

(** ** The other fields of a generated row *)

Lemma base_temp_range (month : Z) (bt : Q) :
  arr_get base_temp_by_month (month - 1) = Some bt ->
  (22 <= bt)%Q /\ (bt <= 28)%Q.
Proof.
  intros E. apply arr_get_In in E. simpl in E.
  repeat (destruct E as [<-|E]; [split; discriminate|]). destruct E.
Qed.

Lemma tempFactor_mild (temp : Q) :
  (20 <= temp)%Q -> (temp <= 32)%Q -> tempFactor temp = (1 # 1)%Q.
Proof.
  intros Hlo Hhi. unfold tempFactor, Qlt_bool.
  apply Qle_bool_iff in Hlo, Hhi. now rewrite Hlo, Hhi.
Qed.

Lemma toFixed1_range (temp : Q) :
  (20 <= temp)%Q -> (temp < 30)%Q ->
  (20 <= toFixed1 temp)%Q /\ (toFixed1 temp <= 30)%Q.
Proof.
  intros Hlo Hhi. unfold toFixed1, Qlt_bool.
  assert (H0 : Qle_bool 0 temp = true) by (apply Qle_bool_iff; lra).
  rewrite H0. cbn [negb].
  assert (Hf : 200 <= Qfloor (temp * (10 # 1) + (1 # 2)) <= 300).
  { split.
    - change 200 with (Qfloor (200 # 1)). apply Qfloor_resp_le. lra.
    - assert (Qfloor (temp * (10 # 1) + (1 # 2)) < 301); [|lia].
      rewrite Zlt_Qlt. eapply Qle_lt_trans; [apply Qfloor_le|].
      change (inject_Z 301) with (301 # 1)%Q. lra. }
  unfold Qle. cbn [Qnum Qden]. lia.
Qed.

Section RowFieldsFacts.
Context `{Host}.

Lemma produces_estimate location hour weather temp fest hol :
  inherited location = false -> inherited weather = false ->
  produces (computeFootfallSample location hour weather temp fest hol)
           (fun footfall =>
              exists noise,
                footfall = estimate location hour weather temp fest hol noise).
Proof.
  intros Hl Hw t footfall t' Ht.
  rewrite (computeFootfallSample_estimate _ _ _ _ _ _ _ Hl Hw).
  destruct (gaussianRandom _ _ t) as [[noise t1]|] eqn:E; [|discriminate].
  intros E'. injection E' as <- <-.
  split; [exists noise; reflexivity|].
  exact (proj2 (produces_gaussianRandom _ _ _ _ _ Ht E)).
Qed.

Lemma produces_festival_flag (dateStr : string) :
  produces (if decide (dateStr ∈ FESTIVAL_DATES) then ret 1
            else r <- Math_random ;;
                 ret (if Qlt_bool r (2 # 100) then 1 else 0))
           (fun flag => flag = 0 \/ flag = 1).
Proof.
  destruct (decide _); [apply produces_ret; auto|].
  eapply produces_bind; [apply produces_Math_random|]. intros r _.
  apply produces_ret. destruct (Qlt_bool r (2 # 100)); auto.
Qed.

Lemma produces_finish_row_fields dt month dateStr dow hour location weather :
  1 <= month <= 12 -> In location LOCATIONS -> In weather weatherTypes ->
  dateStr = String.substring 0 10 (toISOString dt) ->
  produces (finish_row dt month dateStr dow hour location weather)
           row_fields_ok.
Proof.
  intros Hm Hl Hw Hd. unfold finish_row.
  eapply produces_bind; [apply produces_lift_eq|]. intros bt Hbt.
  apply base_temp_range in Hbt as [Hlo Hhi].
  eapply produces_bind; [apply produces_Math_random|]. intros r [Hr0 Hr1].
  eapply produces_bind; [apply produces_festival_flag|]. intros fest Hfest.
  eapply produces_bind;
    [apply produces_estimate;
     [apply LOCATIONS_own, Hl|apply weatherTypes_own, Hw]|].
  intros footfall [noise Hf]. apply produces_ret.
  assert (H20 : (20 <= bt + (r * (4 # 1) - (2 # 1)))%Q) by lra.
  assert (H30 : (bt + (r * (4 # 1) - (2 # 1)) < 30)%Q) by lra.
  destruct (toFixed1_range _ H20 H30) as [Ht20 Ht30].
  unfold row_fields_ok. cbn [Row.month Row.weather Row.temperature
    Row.is_festival Row.is_holiday Row.day_of_week Row.date Row.datetime
    Row.footfall Row.location Row.hour].
  split; [assumption|]. split; [assumption|].
  split; [assumption|]. split; [assumption|].
  split; [apply tempFactor_mild; [assumption|lra]|].
  split; [assumption|]. split; [reflexivity|]. split; [assumption|].
  exists noise. rewrite Hf. unfold estimate.
  rewrite (tempFactor_mild (bt + (r * (4 # 1) - (2 # 1)))) by lra.
  rewrite (tempFactor_mild (26 # 1)) by discriminate.
  reflexivity.
Qed.

Lemma produces_generateDataset_row_fields start msRange seedOffset :
  produces (generateDataset_row start msRange seedOffset) row_fields_ok.
Proof.
  unfold generateDataset_row.
  eapply produces_bind; [apply produces_Math_random|]. intros u _.
  eapply produces_bind; [apply produces_Math_random|]. intros v _.
  eapply produces_bind; [apply produces_Math_random|]. intros w _.
  eapply produces_bind; [apply produces_lift_eq|]. intros l Hl.
  eapply produces_bind; [apply produces_Math_random|]. intros c _.
  eapply produces_bind with (P := fun _ => True).
  { destruct (Qlt_bool c (6 # 10));
      (eapply produces_bind; [apply produces_Math_random|]);
      intros r _; now apply produces_ret. }
  intros i _. apply produces_finish_row_fields.
  - pose proof (getMonth_range
                  (start + Qfloor (u * inject_Z msRange)
                   + or_int (Some seedOffset) 0)). lia.
  - exact (arr_get_In _ _ _ Hl).
  - apply weatherTypes_default.
  - reflexivity.
Qed.

Lemma produces_generateChunkAndAppend_row_fields start msRange :
  produces (generateChunkAndAppend_row start msRange) row_fields_ok.
Proof.
  unfold generateChunkAndAppend_row.
  eapply produces_bind; [apply produces_Math_random|]. intros u _.
  eapply produces_bind; [apply produces_Math_random|]. intros v _.
  eapply produces_bind; [apply produces_Math_random|]. intros w _.
  eapply produces_bind; [apply produces_lift_eq|]. intros l Hl.
  eapply produces_bind; [apply produces_Math_random|]. intros c _.
  eapply produces_bind with (P := fun weather => In weather weatherTypes).
  { destruct (Qlt_bool c (65 # 100)); [apply produces_ret; simpl; auto|].
    eapply produces_bind; [apply produces_Math_random|]. intros r _.
    apply produces_lift. intros x. apply arr_get_In. }
  intros weather Hw. apply produces_finish_row_fields.
  - pose proof (getMonth_range (start + Qfloor (u * inject_Z msRange))). lia.
  - exact (arr_get_In _ _ _ Hl).
  - assumption.
  - reflexivity.
Qed.
End RowFieldsFacts.

Lemma label_row_fields (q1 q2 q3 : Z) (r : Row.t) :
  row_fields_ok r -> row_fields_ok (label_row q1 q2 q3 r).
Proof. unfold row_fields_ok. simpl. auto. Qed.

Section RowFieldsTheorems.
Context `{Host}.

(** X6. On uniform draws, every row that either generator builds has a
    month from 1 to 12, one of the five weather types, a temperature
    between 20 and 30 degrees, a festival flag 0 or 1, the holiday flag 1
    exactly on day 0 or 6 of the week, and as date the first ten
    characters of its timestamp.  Its temperature factor is 1: the
    footfall is the estimate of the row's location, hour, weather and two
    flags at 26 degrees for some noise. *)
Theorem generated_row_fields (n : nat) (seedOffset : Z)
    (g : Globals) (w : World) :
  Forall unit_draw (randoms w) ->
  (forall g' w',
     generateChunkAndAppend n g w = Some (g', w') ->
     exists rows,
       DATASET g' = DATASET g ++ rows /\ Forall row_fields_ok rows) /\
  (forall g' w',
     generateDataset n seedOffset g w = Some (g', w') ->
     Forall row_fields_ok (DATASET g')).
Proof.
  intros Hw. split.
  - intros g' w'. rewrite generateChunkAndAppend_unfold.
    destruct (push_rows _ _ _ _) as [[dataset tape]|] eqn:E; [|discriminate].
    intros E'. injection E' as <- <-.
    destruct (produces_push_rows _ _ n
                (produces_generateChunkAndAppend_row_fields (chunk_start w)
                   (chunk_msRange w)) (DATASET g) _ _ _ Hw E)
      as [(rows & -> & _ & Hall) _].
    exists rows. split; [reflexivity|assumption].
  - intros g' w'. rewrite generateDataset_unfold.
    destruct (push_rows _ _ _ _) as [[dataset tape]|] eqn:E; [|discriminate].
    destruct (finish_dataset_run dataset g) as (q1 & q2 & q3 & stats & ->).
    intros E'. injection E' as <- <-. simpl.
    destruct (produces_push_rows _ _ n
                (produces_generateDataset_row_fields (dataset_start w)
                   (dataset_msRange w) seedOffset) [] _ _ _ Hw E)
      as [(rows & -> & _ & Hall) _].
    simpl. apply Forall_map. eapply Forall_impl; [exact Hall|].
    intros r Hr. now apply label_row_fields.
Qed.
End RowFieldsTheorems.

Section GeneratorsReturn.
Context `{Host}.

Lemma generateChunkAndAppend_returns (n : nat) (g : Globals) (w : World) :
  Forall unit_draw (randoms w) -> (n * 9 <= nonzeros (randoms w))%nat ->
  exists dataset tape,
    generateChunkAndAppend n g w
    = Some (set_DATASET dataset g, mkWorld tape (clock w) (S (ticks w))) /\
    Forall unit_draw tape /\
    (nonzeros (randoms w) <= nonzeros tape + n * 9)%nat.
Proof.
  intros Hw Hlen. rewrite generateChunkAndAppend_unfold.
  destruct (runs_push_rows _ _ 9 n
              (runs_generateChunkAndAppend_row (chunk_start w) (chunk_msRange w))
              (produces_generateChunkAndAppend_row _ _)
              (DATASET g) (randoms w) Hw Hlen)
    as (dataset & tape & E & Hnz).
  rewrite E. exists dataset, tape. split; [reflexivity|]. split; [|exact Hnz].
  exact (proj2 (produces_push_rows _ _ n
                  (produces_generateChunkAndAppend_row (chunk_start w)
                     (chunk_msRange w)) (DATASET g) _ _ _ Hw E)).
Qed.

Lemma generateDataset_returns (n : nat) (seedOffset : Z) (g : Globals) (w : World) :
  Forall unit_draw (randoms w) -> (n * 9 <= nonzeros (randoms w))%nat ->
  exists g' w', generateDataset n seedOffset g w = Some (g', w').
Proof.
  intros Hw Hlen. rewrite generateDataset_unfold.
  destruct (runs_push_rows _ _ 9 n
              (runs_generateDataset_row (dataset_start w) (dataset_msRange w)
                 seedOffset)
              (produces_generateDataset_row _ _ _)
              [] (randoms w) Hw Hlen)
    as (dataset & tape & -> & _).
  destruct (finish_dataset_run dataset g) as (q1 & q2 & q3 & stats & ->).
  eauto.
Qed.
End GeneratorsReturn.

Lemma demo_world_draws : Forall unit_draw (randoms demo_world).
Proof.
  repeat (constructor; [split; [unfold Qle|unfold Qlt]; simpl; lia|]).
  constructor.
Defined.

Lemma generated_row_fields_witness :
  exists g' w',
    @generateDataset demo_host 2 0 initial_globals demo_world = Some (g', w') /\
    Forall row_fields_ok (DATASET g').
Proof.
  destruct (@generateDataset_returns demo_host 2 0 initial_globals demo_world
              demo_world_draws) as (g' & w' & E); [vm_compute; lia|].
  exists g', w'. split; [exact E|].
  exact (proj2 (@generated_row_fields demo_host 2 0 initial_globals demo_world
                  demo_world_draws) g' w' E).
Defined.

(** ** The prediction shown on the page *)

Section PredictionFacts.
Context `{PageHost}.


Lemma predictFromUI_inv (g : Globals) (p p' : Page) (w w' : World) :
  predictFromUI g p w = Some (p', w') ->
  exists f,
    computeFootfallSample (location_value p) (hour_value p) (weather_value p)
      (or_num (temp_value p) (26 # 1))
      (if is_festival_checked p then 1 else 0)
      (if is_holiday_checked p then 1 else 0) (randoms w)
    = Some (f, randoms w') /\
    p' = showResult (mapToDensityLabel g f) f p.
Proof.
  unfold predictFromUI.
  destruct (String.eqb (date_value p) ""); cbn [Date_now randoms];
    (destruct (computeFootfallSample _ _ _ _ _ _ _) as [[f tape]|];
     cbn [mbind option_bind]; [|discriminate]);
    intros E; injection E as <- <-; exists f; split; reflexivity.
Qed.

(** X7. A prediction made while [QUARTILES] is still [null] is shown as
    "Unknown" with the badge colours of Low and with the suggestion that
    the crowd is manageable, whatever the footfall. *)
Theorem unknown_prediction_looks_calm (g : Globals) (p p' : Page) (w w' : World) :
  QUARTILES g = None ->
  predictFromUI g p w = Some (p', w') ->
  densityBadge_text p' = "Unknown" /\ densityText_text p' = "Unknown" /\
  densityBadge_style p' = badgeStyleFor "Low" /\
  suggestion_text p' = calm_suggestion.
Proof.
  intros HQ Hp. apply predictFromUI_inv in Hp as (f & _ & ->).
  unfold mapToDensityLabel. rewrite HQ. repeat split.
Qed.


(** X9. A temperature field that reads as 0 or is not a number is
    predicted at 26 degrees: the footfall shown is the sample that
    [computeFootfallSample] takes at 26 degrees from the draws of the
    prediction, and the text is the label of that sample.  The temperature
    factor is the 1 of 26 degrees, not the 0.85 of 0 degrees. *)
Theorem missing_temperature_is_26 (g : Globals) (p p' : Page) (w w' : World) :
  temp_value p = None \/ (exists z, temp_value p = Some z /\ (z == 0)%Q) ->
  predictFromUI g p w = Some (p', w') ->
  exists f,
    computeFootfallSample (location_value p) (hour_value p) (weather_value p)
      (26 # 1) (if is_festival_checked p then 1 else 0)
      (if is_holiday_checked p then 1 else 0) (randoms w)
    = Some (f, randoms w') /\
    footfall_shown p' = Some f /\
    densityBadge_text p'
    = replace_first "_"%char " "%char (mapToDensityLabel g f) /\
    tempFactor (26 # 1) = (1 # 1)%Q /\ tempFactor (0 # 1) = (85 # 100)%Q.
Proof.
  intros Ht Hp. apply predictFromUI_inv in Hp as (f & Hf & ->).
  assert (E : or_num (temp_value p) (26 # 1) = (26 # 1)%Q).
  { destruct Ht as [->|(z & -> & Hz)]; [reflexivity|].
    unfold or_num. apply Qeq_bool_iff in Hz. now rewrite Hz. }
  rewrite E in Hf. exists f.
  split; [exact Hf|]. split; [reflexivity|]. split; [reflexivity|].
  split; reflexivity.
Qed.
End PredictionFacts.

Lemma demo_prediction (g : Globals) :
  exists p' w',
    @predictFromUI demo_host g demo_page demo_world
    = Some (p', w').
Proof.
  unfold predictFromUI. cbn [date_value demo_page String.eqb Ascii.eqb Bool.eqb].
  destruct (@computeFootfallSample demo_host _ _ _ _ _ _ _) as [[f tape]|] eqn:E.
  - cbn [mbind option_bind]. eauto.
  - vm_compute in E. discriminate.
Defined.

Lemma unknown_prediction_looks_calm_witness :
  exists p' w',
    @predictFromUI demo_host initial_globals demo_page demo_world
    = Some (p', w') /\
    densityBadge_text p' = "Unknown" /\ suggestion_text p' = calm_suggestion.
Proof.
  destruct (demo_prediction initial_globals) as (p' & w' & E).
  exists p', w'. split; [exact E|].
  destruct (@unknown_prediction_looks_calm demo_host
              initial_globals demo_page p' demo_world w' eq_refl E)
    as (H1 & _ & _ & H4).
  split; assumption.
Defined.


Lemma missing_temperature_is_26_witness :
  temp_value demo_page = Some (0 # 1)%Q /\
  exists p' w' f,
    @predictFromUI demo_host initial_globals demo_page demo_world
    = Some (p', w') /\
    @computeFootfallSample demo_host "Mysore_Palace" 18 "Clear" (26 # 1) 0 1
      (randoms demo_world) = Some (f, randoms w') /\
    footfall_shown p' = Some f.
Proof.
  split; [reflexivity|].
  destruct (demo_prediction initial_globals) as (p' & w' & E).
  destruct (@missing_temperature_is_26 demo_host
              initial_globals demo_page p' demo_world w')
    as (f & Hs & Hf & _).
  - right. exists (0 # 1)%Q. split; reflexivity.
  - exact E.
  - exists p', w', f. split; [exact E|]. split; [exact Hs|exact Hf].
Defined.

(** The page of the example holds 0 degrees: the sample at 26 degrees is
    shown, not the one at 0 degrees. *)
Example missing_temperature_demo :
  (footfall_shown ∘ fst
     <$> @predictFromUI demo_host initial_globals demo_page demo_world,
   fst <$> @computeFootfallSample demo_host "Mysore_Palace" 18 "Clear"
             (26 # 1) 0 1 (randoms demo_world),
   fst <$> @computeFootfallSample demo_host "Mysore_Palace" 18 "Clear"
             (0 # 1) 0 1 (randoms demo_world))
  = (Some (Some 2412), Some 2412, Some 2059).
Proof. vm_compute. reflexivity. Qed.

Example predictFromUI_demo :
  (fun r => (densityBadge_text (fst r), footfall_shown (fst r),
             densityBadge_style (fst r), ticks (snd r), randoms (snd r)))
    <$> @predictFromUI demo_host
          (set_QUARTILES (Some (Quartiles.mk 100 200 300)) initial_globals)
          demo_page demo_world
  = Some ("Very High", Some 2412, Style.mk "#ff4f6d" "#031021", 0%nat,
          skipn 2 (randoms demo_world)).
Proof. vm_compute. reflexivity. Qed.

(** ** The sparkline *)







Example animateHeatPreview_demo :
  let heat := animateHeatPreview 1680 demo_page in
  (Heat.width heat, nth 12 (map snd (Heat.points heat)) None,
   snd (Heat.marker heat))
  = (300, Some (120 - (1680 # 1) / (1680 # 1) * (90 # 1) - (10 # 1))%Q,
     Some (120 - Qmax 0 (Qmin 1 ((1680 # 1) / (1680 # 1))) * (90 # 1)
           - (10 # 1))%Q).
Proof. vm_compute. reflexivity. Qed.

Example animateHeatPreview_of_inherited_name :
  let heat :=
    animateHeatPreview 1680
      (set_form "constructor" "2025-10-02" 18 "Clear" None false false
                demo_page) in
  (Heat.width heat, nth 12 (map snd (Heat.points heat)) (Some 0%Q),
   snd (Heat.marker heat))
  = (300, None, None).
Proof. vm_compute. reflexivity. Qed.

(** ** The CSV export *)

Lemma append_cons (x : Ascii.ascii) (a b : string) :
  String x a +:+ b = String x (a +:+ b).
Proof. reflexivity. Qed.

Lemma append_nil (b : string) : EmptyString +:+ b = b.
Proof. reflexivity. Qed.

Lemma append_assoc (a b c : string) : (a +:+ b) +:+ c = a +:+ (b +:+ c).
Proof.
  induction a as [|x a IH]; [reflexivity|].
  now rewrite !append_cons, IH.
Qed.

Lemma read_row_content (t : string) (acc : list Ascii.ascii) (rest : string) :
  read_row (InCell acc) (double_quotes t +:+ String dquote rest)
  = read_row (AfterQuote (rev (String.list_ascii_of_string t) ++ acc)) rest.
Proof.
  revert acc. induction t as [|a t IH]; intros acc.
  - cbn [double_quotes]. rewrite append_nil. cbn [read_row].
    now rewrite Ascii.eqb_refl.
  - cbn [double_quotes String.list_ascii_of_string rev].
    destruct (Ascii.eqb a dquote) eqn:Ea.
    + apply Ascii.eqb_eq in Ea as ->. rewrite !append_cons. cbn [read_row].
      rewrite !Ascii.eqb_refl. rewrite IH. now rewrite <- app_assoc.
    + rewrite append_cons. cbn [read_row]. rewrite Ea, IH.
      now rewrite <- app_assoc.
Qed.

(** A line of cells, each a text between quotes with its quotes doubled,
    reads back as the texts. *)
Lemma read_row_cells (texts : list string) :
  texts <> [] ->
  read_row AtCell
    (String.concat ","
       (map (fun t => String dquote (double_quotes t +:+ String dquote EmptyString))
            texts))
  = Some texts.
Proof.
  induction texts as [|t texts IH]; [congruence|]. intros _.
  destruct texts as [|t' texts].
  - cbn [map String.concat read_row]. rewrite Ascii.eqb_refl.
    rewrite read_row_content. cbn [read_row].
    now rewrite app_nil_r, rev_involutive, String.string_of_list_ascii_of_string.
  - assert (IH' := IH ltac:(discriminate)). clear IH.
    cbn [map] in *.
    change (String.concat "," (?x :: ?y :: ?l))
      with (x +:+ "," +:+ String.concat "," (y :: l)).
    rewrite append_cons. cbn [read_row]. rewrite Ascii.eqb_refl.
    rewrite append_assoc, append_cons, append_nil.
    rewrite read_row_content. cbn [read_row].
    rewrite append_cons, append_nil. cbn [read_row].
    change (Ascii.eqb "," dquote) with false. cbn iota.
    rewrite Ascii.eqb_refl, IH'. cbn [fmap option_fmap option_map].
    now rewrite app_nil_r, rev_involutive, String.string_of_list_ascii_of_string.
Qed.

Section CsvFacts.
Context `{Host} (Number_toString : Q -> string).

Lemma csv_cell_text (r : Row.t) (h : string) :
  csv_cell Number_toString r h
  = String dquote (double_quotes (cell_text Number_toString r h)
                   +:+ String dquote EmptyString).
Proof.
  unfold csv_cell, cell_text. now destruct (row_property r h).
Qed.

Lemma read_csv_row (r : Row.t) :
  read_row AtCell (csv_row Number_toString r)
  = Some (map (cell_text Number_toString r) csv_header).
Proof.
  unfold csv_row.
  assert (E : map (csv_cell Number_toString r) csv_header
              = map (fun t => String dquote
                                (double_quotes t +:+ String dquote EmptyString))
                    (map (cell_text Number_toString r) csv_header))
    by (rewrite map_map; apply map_ext; apply csv_cell_text).
  rewrite E. apply read_row_cells. discriminate.
Qed.

(** X11. [downloadDatasetCSV] on an empty dataset only alerts.  Otherwise
    the file holds the header line and one line for each row, in the order
    of the dataset; a line is thirteen quoted cells, and it reads back as
    the thirteen values of its row, whatever commas and quotes these hold.
    The cells of the label and the rank of a row not yet labelled are
    empty. *)
Theorem csv_export (g : Globals) (w : World) :
  (DATASET g = [] ->
   downloadDatasetCSV Number_toString g w
   = (Alert "Dataset not generated yet.", w)) /\
  (DATASET g <> [] ->
   exists name lines,
     downloadDatasetCSV Number_toString g w
     = (Download name
          (String.concat line_feed (String.concat "," csv_header :: lines)),
        mkWorld (randoms w) (clock w) (S (ticks w))) /\
     length lines = length (DATASET g) /\
     Forall2 (fun line r =>
                read_row AtCell line
                = Some (map (cell_text Number_toString r) csv_header) /\
                (Row.density_label r = None ->
                 cell_text Number_toString r "density_label" = ""))
             lines (DATASET g)).
Proof.
  unfold downloadDatasetCSV. split.
  - intros ->. reflexivity.
  - intros Hne. destruct (DATASET g) as [|r rows] eqn:Ed; [congruence|].
    change (length (r :: rows) =? 0)%nat with false. cbn iota.
    rewrite firstn_all. cbn [Date_now].
    eexists. exists (map (csv_row Number_toString) (r :: rows)).
    split; [reflexivity|]. split; [apply length_map|].
    apply Forall2_fmap_l. apply Forall_Forall2_diag. apply Forall_forall.
    intros r' _. split; [apply read_csv_row|].
    intros Hl. unfold cell_text. cbn. now rewrite Hl.
Qed.
End CsvFacts.

Example csv_row_demo :
  read_row AtCell (csv_row show_number (observation "KRS_Dam" 9 140))
  = Some [ "2025-06-02T10:00:00.000Z"; "2025-06-02"; "1"; "6"; "9"; "KRS_Dam";
           "Clear"; "28"; "0"; "0"; "140"; ""; "" ].
Proof. vm_compute. reflexivity. Qed.

Example csv_name_demo :
  match fst (@downloadDatasetCSV demo_host show_number sample_globals demo_world)
  with
  | Download name _ => name
  | Alert message => message
  end = "temple_crowd_dataset_2026-11-02-05-16-00.csv".
Proof. vm_compute. reflexivity. Qed.

(** ** The Randomize button *)

Section RandomizeFacts.
Context `{PageHost}.

Lemma randomize_form_run (today : Z) (p : Page) (a b c d e f : Q) (rest : list Q) :
  Forall unit_draw [a; b; c; d; e; f] ->
  exists p',
    randomize_form today p (a :: b :: c :: d :: e :: f :: rest) = Some (p', rest) /\
    form_in_domain p' /\
    hour_value p' = Qfloor (b * inject_Z 16) + 6 /\
    is_festival_checked p' = Qlt_bool f (5 # 100) /\
    widgets p' = widgets p /\
    heatArea_clientWidth p' = heatArea_clientWidth p.
Proof.
  intros Hall.
  inversion Hall as [|? ? Ha H1]; subst. inversion H1 as [|? ? Hb H2]; subst.
  inversion H2 as [|? ? Hc H3]; subst. inversion H3 as [|? ? Hd H4]; subst.
  inversion H4 as [|? ? He H5]; subst. clear Hall H1 H2 H3 H4 H5.
  destruct (arr_get_is_Some LOCATIONS
              (Qfloor (a * inject_Z (Z.of_nat (length LOCATIONS))))) as [l El];
    [apply floor_draw_range; [assumption|simpl; lia]|].
  destruct (arr_get_is_Some weatherTypes
              (Qfloor (d * inject_Z (Z.of_nat (length weatherTypes))))) as [wt Ew];
    [apply floor_draw_range; [assumption|simpl; lia]|].
  set (day := setDate today (getDate today + Qfloor (c * (90 # 1)))).
  destruct (arr_get_is_Some base_temp_by_month (getMonth day + 1 - 1))
    as [bt Eb]; [pose proof (getMonth_range day); simpl; lia|].
  unfold randomize_form, bind, Math_random, lift, ret.
  rewrite El, Ew. fold day. rewrite Eb.
  eexists. split; [reflexivity|].
  apply base_temp_range in Eb as [Hlo Hhi]. destruct He as [He0 He1].
  assert (H20 : (20 <= bt + (e * (4 # 1) - (2 # 1)))%Q) by lra.
  assert (H30 : (bt + (e * (4 # 1) - (2 # 1)) < 30)%Q) by lra.
  destruct (toFixed1_range _ H20 H30) as [Ht20 Ht30].
  split; [|repeat split].
  unfold form_in_domain. cbn [set_form location_value hour_value weather_value
    temp_value].
  split; [eapply arr_get_In; eassumption|].
  split; [pose proof (floor_draw_range b (21 - 6 + 1) Hb); lia|].
  split; [eapply arr_get_In; eassumption|].
  eexists. split; [reflexivity|]. split; assumption.
Qed.

(** X12. On uniform draws [randomizeInputs] reads the clock once and takes
    six draws, and it returns whenever the tape holds six.  The form it
    fills is inside the generator's domain: a known location, an hour from
    6 to 21, one of the five weather types and a temperature between 20 and
    30 degrees; the result widgets stay as they are. *)
Theorem randomizeInputs_in_domain (p : Page) (w : World)
    (a b c d e f : Q) (rest : list Q) :
  randoms w = a :: b :: c :: d :: e :: f :: rest ->
  Forall unit_draw [a; b; c; d; e; f] ->
  exists p',
    randomizeInputs p w = Some (p', mkWorld rest (clock w) (S (ticks w))) /\
    form_in_domain p' /\ widgets p' = widgets p.
Proof.
  intros Hr Hall. unfold randomizeInputs. cbn [Date_now randoms]. rewrite Hr.
  destruct (randomize_form_run (clock w (ticks w)) p a b c d e f rest Hall)
    as (p' & -> & Hdom & _ & _ & Hwid & _).
  exists p'. cbn [mbind option_bind]. auto.
Qed.
End RandomizeFacts.

Lemma randomizeInputs_in_domain_witness :
  exists p',
    @randomizeInputs demo_host demo_page_host demo_page demo_world
    = Some (p', mkWorld (skipn 6 (randoms demo_world)) (clock demo_world) 1) /\
    form_in_domain p' /\ widgets p' = widgets demo_page.
Proof.
  apply (@randomizeInputs_in_domain demo_host demo_page_host demo_page
           demo_world (1 # 2) (1 # 3) (4 # 7) (1 # 10) (0 # 1) (1 # 2)
           (skipn 6 (randoms demo_world))).
  - reflexivity.
  - repeat (constructor; [split; [unfold Qle|unfold Qlt]; simpl; lia|]).
    constructor.
Defined.

Example randomizeInputs_demo :
  (fun r => (location_value (fst r), date_value (fst r), hour_value (fst r),
             weather_value (fst r), is_holiday_checked (fst r)))
    <$> @randomizeInputs demo_host demo_page_host demo_page demo_world
  = Some ("Mysore_Palace", "2026-12-23", 11, "Clear", false).
Proof. vm_compute. reflexivity. Qed.

(** ** Start-up *)

Lemma chunk_turns_0 (chunk : nat) : (0 < chunk)%nat -> chunk_turns chunk 0 = 0%nat.
Proof.
  intros Hc. unfold chunk_turns. apply Nat.div_small. lia.
Qed.

Lemma chunk_turns_step (chunk rest : nat) :
  (0 < chunk)%nat -> (0 < rest)%nat ->
  chunk_turns chunk rest
  = S (chunk_turns chunk (rest - Nat.min chunk rest)).
Proof.
  intros Hc Hr. unfold chunk_turns.
  destruct (Nat.le_gt_cases rest chunk) as [Hle|Hgt].
  - rewrite Nat.min_r by assumption.
    replace (rest - rest + chunk - 1)%nat with (chunk - 1)%nat by lia.
    rewrite (Nat.div_small (chunk - 1)) by lia.
    replace (rest + chunk - 1)%nat with ((rest - 1) + 1 * chunk)%nat by lia.
    rewrite Nat.div_add by lia. rewrite Nat.div_small by lia. reflexivity.
  - rewrite Nat.min_l by lia.
    replace (rest + chunk - 1)%nat
      with ((rest - chunk + chunk - 1) + 1 * chunk)%nat by lia.
    rewrite Nat.div_add by lia. lia.
Qed.

Lemma nonzeros_length (t : list Q) : (nonzeros t <= length t)%nat.
Proof.
  induction t as [|u t IH]; [rewrite nonzeros_nil; simpl; lia|].
  rewrite nonzeros_cons. cbn [length]. destruct (Qeq_bool u 0); lia.
Qed.

Section StartUp.
Context `{PageHost}.

Lemma generate_chunks_run (chunk safeN : nat) :
  (0 < chunk)%nat ->
  forall fuel generated g w,
    (generated <= safeN)%nat -> (safeN - generated <= fuel)%nat ->
    Forall unit_draw (randoms w) ->
    ((safeN - generated) * 9 <= nonzeros (randoms w))%nat ->
    exists rows tape,
      generate_chunks fuel chunk safeN generated g w
      = Some (set_DATASET (DATASET g ++ rows) g,
              mkWorld tape (clock w)
                      (ticks w + chunk_turns chunk (safeN - generated))) /\
      length rows = (safeN - generated)%nat /\
      Forall (fun r => observation_ok r /\ Row.density_label r = None) rows /\
      Forall unit_draw tape /\
      (nonzeros (randoms w) <= nonzeros tape + (safeN - generated) * 9)%nat.
Proof.
  intros Hc fuel.
  induction fuel as [|fuel IH]; intros generated g w Hle Hfuel Hw Hnz.
  - assert (E : (safeN - generated = 0)%nat) by lia.
    exists [], (randoms w). cbn [generate_chunks].
    replace (generated <? safeN)%nat with false
      by (symmetry; apply Nat.ltb_ge; lia).
    rewrite E, chunk_turns_0, Nat.add_0_r, app_nil_r by assumption.
    destruct g, w. repeat split; auto. simpl. lia.
  - cbn [generate_chunks].
    destruct (generated <? safeN)%nat eqn:Elt.
    + apply Nat.ltb_lt in Elt.
      set (toGen := Nat.min chunk (safeN - generated)).
      assert (HtoGen : (0 < toGen <= safeN - generated)%nat)
        by (unfold toGen; lia).
      rewrite generateChunkAndAppend_unfold.
      pose proof (produces_generateChunkAndAppend_row (chunk_start w)
                    (chunk_msRange w)) as Hrow.
      destruct (runs_push_rows _ _ 9 toGen
                  (runs_generateChunkAndAppend_row (chunk_start w)
                     (chunk_msRange w)) Hrow (DATASET g) (randoms w) Hw)
        as (dataset & tape & E & Hnz1); [nia|].
      destruct (produces_push_rows _ _ toGen Hrow (DATASET g) _ _ _ Hw E)
        as [(rows1 & -> & Hlen1 & Hrows1) Htape].
      rewrite E. cbn [mbind option_bind].
      destruct (IH (generated + toGen)%nat
                  (set_DATASET (DATASET g ++ rows1) g)
                  (mkWorld tape (clock w) (S (ticks w))))
        as (rows2 & tape2 & -> & Hlen2 & Hrows2 & Htape2 & Hnz2);
        [lia|lia|exact Htape|cbn [randoms]; nia|].
      exists (rows1 ++ rows2), tape2.
      cbn [DATASET set_DATASET clock ticks randoms] in *.
      rewrite (chunk_turns_step chunk (safeN - generated)) by lia.
      fold toGen.
      replace (safeN - (generated + toGen))%nat
        with (safeN - generated - toGen)%nat in * by lia.
      split.
      { rewrite <- app_assoc. unfold set_DATASET. cbn. f_equal. f_equal.
        f_equal. lia. }
      split; [rewrite length_app; lia|].
      split.
      { apply Forall_app. split; [|assumption].
        eapply Forall_impl; [exact Hrows1|].
        intros r (Hok & Hl & _). split; assumption. }
      split; [assumption|]. nia.
    + apply Nat.ltb_ge in Elt.
      assert (E : (safeN - generated = 0)%nat) by lia.
      exists [], (randoms w).
      rewrite E, chunk_turns_0, Nat.add_0_r, app_nil_r by assumption.
      destruct g, w. repeat split; auto. simpl. lia.
Qed.

Lemma predictFromUI_returns (g : Globals) (p : Page) (w : World) :
  inherited (location_value p) = false ->
  inherited (weather_value p) = false ->
  Forall unit_draw (randoms w) -> (2 <= nonzeros (randoms w))%nat ->
  exists f tape,
    predictFromUI g p w
    = Some (showResult (mapToDensityLabel g f) f p,
            mkWorld tape (clock w)
                    (ticks w + (if String.eqb (date_value p) "" then 1 else 0)))
    /\ 0 <= f.
Proof.
  intros Hloc Hwt Hw Hnz. unfold predictFromUI.
  destruct (runs_computeFootfallSample (location_value p) (hour_value p)
              (weather_value p) (or_num (temp_value p) (26 # 1))
              (if is_festival_checked p then 1 else 0)
              (if is_holiday_checked p then 1 else 0) Hloc Hwt
              (randoms w) Hw Hnz)
    as (f & tape & E & _).
  pose proof (proj1 (produces_computeFootfallSample _ _ _ _ _ _ _ _ _ Hw E))
    as Hf.
  exists f, tape.
  destruct (String.eqb (date_value p) ""); cbn [Date_now randoms clock ticks];
    rewrite E; cbn [mbind option_bind]; (split; [|exact Hf]);
    repeat f_equal; lia.
Qed.
End StartUp.

Section StartUpTheorem.
Context `{PageHost}.

(** X13. [initEverything], for any sample count and any chunk size above
    0, on uniform draws with nine nonzero draws for every row and eight
    more: it returns; the loop takes the count divided by the chunk size,
    rounded up, turns and leaves as many rows as the count capped at
    70000, whatever the corpus held before; every row is an observation
    that carries the label the classifier gives its footfall; the
    quartiles are stored and ordered and every location has its
    statistics; the form is the randomized one and the page shows a
    prediction with one of the four tier texts. *)
Theorem initEverything_with_run (desiredN chunk : nat) (g : Globals)
    (p : Page) (w : World) :
  (0 < chunk)%nat ->
  Forall unit_draw (randoms w) ->
  (Nat.min desiredN (Z.to_nat 70000) * 9 + 8 <= nonzeros (randoms w))%nat ->
  exists g' p' w',
    initEverything_with desiredN chunk g p w = Some (g', p', w') /\
    length (DATASET g') = Nat.min desiredN (Z.to_nat 70000) /\
    Forall (fun r =>
              observation_ok r /\
              Row.density_label r
              = Some (mapToDensityLabel g' (Row.footfall r)))
           (DATASET g') /\
    (exists Q, QUARTILES g' = Some Q /\
               non_decreasing (Quartiles.q1 Q) (Quartiles.q2 Q)
                              (Quartiles.q3 Q)) /\
    (forall loc, In loc LOCATIONS ->
                 PER_LOCATION_STATS g' !! loc
                 = location_stats (DATASET g') loc) /\
    form_in_domain p' /\
    resultArea_display p' = "block" /\
    In (densityBadge_text p') ["Low"; "Medium"; "High"; "Very High"] /\
    ticks w'
    = (ticks w + 2
       + chunk_turns chunk (Nat.min desiredN (Z.to_nat 70000))
       + (if String.eqb (date_value p') "" then 1 else 0))%nat.
Proof.
  intros Hc Hw Hnz. set (safeN := Nat.min desiredN (Z.to_nat 70000)) in *.
  unfold initEverything_with. fold safeN.
  unfold populateUI. cbn [Date_now].
  match goal with
  | |- context [generate_chunks safeN chunk safeN 0 ?g0 ?w0] =>
      destruct (generate_chunks_run chunk safeN Hc safeN 0%nat g0 w0)
        as (rows & tape & E & Hlen & Hrows & Htape & Hnz');
        [lia|lia|exact Hw|cbn [randoms]; lia|]
  end.
  rewrite E. clear E. cbn [mbind option_bind].
  cbn [DATASET set_DATASET app randoms clock ticks] in *.
  rewrite Nat.sub_0_r in *.
  match goal with
  | |- context [computeGlobalQuartilesAndLabels ?g1] =>
      destruct (computeGlobalQuartilesAndLabels_run g1)
        as (q1 & q2 & q3 & -> & Hord & _)
  end.
  cbn [mbind option_bind DATASET set_DATASET].
  match goal with
  | |- context [computePerLocationStats ?g2] =>
      destruct (computePerLocationStats_run g2) as (stats & -> & Hstats)
  end.
  unfold set_PER_LOCATION_STATS.
  cbn [mbind option_bind DATASET SAMPLES_SORTED QUARTILES PER_LOCATION_STATS] in *.
  pose proof (nonzeros_length tape) as Hlt.
  destruct tape as [|a [|b [|c [|d [|e [|f rest]]]]]];
    try (cbn [length] in Hlt; lia).
  assert (Hsix : Forall unit_draw [a; b; c; d; e; f] /\ Forall unit_draw rest).
  { repeat match goal with
           | Hx : Forall _ (_ :: _) |- _ =>
               apply Forall_cons in Hx as [? Hx]
           end.
    split; [repeat (constructor; [assumption|]); constructor|assumption]. }
  destruct Hsix as [Hsix Hrest].
  assert (Hnzr : (2 <= nonzeros rest)%nat).
  { repeat rewrite nonzeros_cons in Hnz'.
    destruct (Qeq_bool a 0), (Qeq_bool b 0), (Qeq_bool c 0), (Qeq_bool d 0),
      (Qeq_bool e 0), (Qeq_bool f 0); lia. }
  unfold randomizeInputs. cbn [Date_now randoms clock ticks].
  match goal with
  | |- context [randomize_form ?today ?p0 _] =>
      destruct (randomize_form_run today p0 a b c d e f rest Hsix)
        as (p1 & -> & Hdom & _ & _ & _ & _)
  end.
  cbn [mbind option_bind].
  match goal with
  | |- context [predictFromUI ?g3 p1 ?w3] =>
      destruct (predictFromUI_returns g3 p1 w3) as (fo & tape' & -> & Hfo);
        [apply LOCATIONS_own, Hdom|apply weatherTypes_own, Hdom
        |exact Hrest|exact Hnzr|];
        pose (g' := g3)
  end.
  cbn [mbind option_bind clock ticks].
  eexists _, _, _. split; [reflexivity|].
  fold g'.
  split; [unfold g'; cbn [DATASET]; rewrite length_map; exact Hlen|].
  split.
  { unfold g'. cbn [DATASET]. apply Forall_forall. intros r' Hin.
    apply list_elem_of_In, in_map_iff in Hin as (r & <- & Hin).
    apply list_elem_of_In in Hin.
    pose proof (proj1 (Forall_forall _ _) Hrows r Hin) as [Hok _].
    split; [apply label_row_ok; exact Hok|].
    rewrite label_row_footfall.
    apply (label_row_label _ q1 q2 q3 r). reflexivity. }
  split; [exists (Quartiles.mk q1 q2 q3); split; [reflexivity|exact Hord]|].
  split.
  { intros loc Hin. unfold g'. cbn [PER_LOCATION_STATS DATASET].
    apply Hstats, list_elem_of_In, Hin. }
  split.
  { destruct Hdom as (Hl & Hh & Hwt & Ht). unfold form_in_domain.
    cbn [showResult location_value hour_value weather_value temp_value].
    auto. }
  split; [reflexivity|].
  split.
  { cbn [showResult densityBadge_text].
    destruct (mapToDensityLabel_cases g' (Quartiles.mk q1 q2 q3) fo eq_refl)
      as [[? ->]|[[? ->]|[(? & ? & ->)|(? & ? & ? & ->)]]]; cbn; auto 6. }
  cbn [showResult date_value ticks]. lia.
Qed.
End StartUpTheorem.

Lemma start_world_draws :
  Forall unit_draw (randoms start_world) /\
  nonzeros (randoms start_world) = 90%nat.
Proof.
  split; [|vm_compute; reflexivity].
  unfold start_world. cbn [randoms seq flat_map].
  pose proof demo_world_draws as Hd.
  repeat (apply Forall_app; split; [exact Hd|]). constructor.
Qed.

Lemma initEverything_with_run_witness :
  exists g' p' w',
    @initEverything_with demo_host demo_page_host 7 3 initial_globals
       demo_page start_world = Some (g', p', w') /\
    length (DATASET g') = Nat.min 7 (Z.to_nat 70000) /\
    Forall (fun r =>
              observation_ok r /\
              Row.density_label r
              = Some (mapToDensityLabel g' (Row.footfall r)))
           (DATASET g') /\
    (exists Q, QUARTILES g' = Some Q /\
               non_decreasing (Quartiles.q1 Q) (Quartiles.q2 Q)
                              (Quartiles.q3 Q)) /\
    (forall loc, In loc LOCATIONS ->
                 PER_LOCATION_STATS g' !! loc
                 = location_stats (DATASET g') loc) /\
    form_in_domain p' /\
    resultArea_display p' = "block" /\
    In (densityBadge_text p') ["Low"; "Medium"; "High"; "Very High"] /\
    ticks w'
    = (ticks start_world + 2
       + chunk_turns 3 (Nat.min 7 (Z.to_nat 70000))
       + (if String.eqb (date_value p') "" then 1 else 0))%nat.
Proof.
  apply (@initEverything_with_run demo_host demo_page_host 7 3 initial_globals
           demo_page start_world).
  - lia.
  - exact (proj1 start_world_draws).
  - rewrite (proj2 start_world_draws). vm_compute. lia.
Defined.

Example initEverything_demo :
  (fun r => (length (DATASET (fst (fst r))), QUARTILES (fst (fst r)),
             densityBadge_text (snd (fst r)), footfall_shown (snd (fst r)),
             date_value (snd (fst r)), ticks (snd r)))
    <$> @initEverything_with demo_host demo_page_host 7 3 initial_globals
          demo_page start_world
  = Some (7%nat, Some (Quartiles.mk 268 754 1373), "High", Some 1152,
          "2026-12-02", 5%nat).
Proof. vm_compute. reflexivity. Qed.

(** The page's own constants make ten turns of 5000 rows. *)
Example initEverything_turns :
  chunk_turns (Z.to_nat 5000) (Nat.min (Z.to_nat 50000) (Z.to_nat 70000))
  = 10%nat.
Proof. vm_compute. reflexivity. Qed.

(** ** The range of the estimate *)

Lemma estimate_flags location hour weather temp (fest hol : Z) (noise : Q) :
  estimate location hour weather temp fest hol noise
  = estimate location hour weather temp (flag (truthy fest))
             (flag (truthy hol)) noise.
Proof. unfold estimate. now rewrite !truthy_flag. Qed.

Section EstimateRange.
Context `{Host}.

(** X14. When the two draws of the variate give the noise 0, the
    footfall of every context whose location and weather are no names of
    members of [Object.prototype] lies between 26 and 4704: for the seven
    locations and the five weather types, for a name that the tables and
    every object lack, for any hour, temperature and flags.  Both ends
    are met: 26 at Srirangapatna_Temple at 22 h in rain at 35 degrees,
    4704 at Mysore_Palace at 18 h in clear weather on a festival holiday.
    For a location or a weather named like a member of
    [Object.prototype] the footfall is [NaN], on every tape. *)
Theorem noise_free_footfall_range (t t1 t' : list Q) (u v : Q) :
  draw_nonzero t = Some (u, t1) ->
  draw_nonzero t1 = Some (v, t') ->
  (boxMuller u v == 0)%Q ->
  (forall location hour weather temp is_festival is_holiday,
     inherited location = false -> inherited weather = false ->
     exists f,
       computeFootfallSample location hour weather temp is_festival
         is_holiday t = Some (f, t') /\
       26 <= f <= 4704) /\
  (forall location hour weather temp is_festival is_holiday tape,
     inherited location = true \/ inherited weather = true ->
     computeFootfallSample location hour weather temp is_festival
       is_holiday tape = None) /\
  computeFootfallSample "Srirangapatna_Temple" 22 "Rain" (35 # 1) 0 0 t
  = Some (26, t') /\
  computeFootfallSample "Mysore_Palace" 18 "Clear" (26 # 1) 1 1 t
  = Some (4704, t').
Proof.
  intros Eu Ev Hz.
  assert (Hrun : forall location hour weather temp is_festival is_holiday,
    inherited location = false -> inherited weather = false ->
    computeFootfallSample location hour weather temp is_festival is_holiday t
    = Some (estimate location hour weather temp is_festival is_holiday 0,
            t')).
  { intros location hour weather temp is_festival is_holiday Hl Hw.
    rewrite (computeFootfallSample_estimate _ _ _ _ _ _ _ Hl Hw).
    now rewrite (gaussianRandom_zero _ t t1 t' u v Eu Ev Hz). }
  split; [|split; [|split]].
  - intros location hour weather temp is_festival is_holiday Hl Hw.
    rewrite (Hrun _ _ _ _ _ _ Hl Hw). eexists. split; [reflexivity|].
    rewrite estimate_flags.
    destruct (noise_free_context location hour weather temp
                (truthy is_festival) (truthy is_holiday) Hl Hw)
      as (c & Hc & -> & _).
    pose proof Hc as Hchk.
    unfold context_checked in Hchk.
    apply andb_true_iff in Hchk as [Hchk Hhi].
    apply andb_true_iff in Hchk as [_ Hlo].
    apply Z.leb_le in Hlo, Hhi. split; assumption.
  - intros. now apply computeFootfallSample_NaN.
  - rewrite Hrun by reflexivity. vm_compute. reflexivity.
  - rewrite Hrun by reflexivity. vm_compute. reflexivity.
Qed.
End EstimateRange.

Lemma noise_free_footfall_range_witness :
  (forall location hour weather temp is_festival is_holiday,
     inherited location = false -> inherited weather = false ->
     exists f,
       @computeFootfallSample quiet_host location hour weather temp
         is_festival is_holiday [0 # 1; 1 # 2; 1 # 4]%Q = Some (f, []) /\
       26 <= f <= 4704) /\
  (forall location hour weather temp is_festival is_holiday tape,
     inherited location = true \/ inherited weather = true ->
     @computeFootfallSample quiet_host location hour weather temp
       is_festival is_holiday tape = None) /\
  @computeFootfallSample quiet_host "Srirangapatna_Temple" 22 "Rain" (35 # 1)
    0 0 [0 # 1; 1 # 2; 1 # 4]%Q = Some (26, []) /\
  @computeFootfallSample quiet_host "Mysore_Palace" 18 "Clear" (26 # 1) 1 1
    [0 # 1; 1 # 2; 1 # 4]%Q = Some (4704, []).
Proof.
  apply (@noise_free_footfall_range quiet_host
           [0 # 1; 1 # 2; 1 # 4]%Q [1 # 4]%Q [] (1 # 2) (1 # 4)).
  - reflexivity.
  - reflexivity.
  - reflexivity.
Defined.

Example footfall_of_inherited_name :
  (@computeFootfallSample quiet_host "constructor" 18 "Clear" (26 # 1) 0 0
     [1 # 2; 1 # 4]%Q,
   @computeFootfallSample quiet_host "Mysore_Palace" 18 "toString" (26 # 1) 0 0
     [1 # 2; 1 # 4]%Q,
   @computeFootfallSample quiet_host "Atlantis" 18 "Fog" (26 # 1) 0 0
     [1 # 2; 1 # 4]%Q)
  = (None, None, Some (280, [])).
Proof. vm_compute. reflexivity. Qed.

(** ** Instances of the statements without a precondition *)

Lemma gaussianRandom_redraws_witness :
  @gaussianRandom demo_host 0 (10 # 1)
    [0 # 1; 1 # 2; 0 # 3; 0 # 1; 1 # 4; 7 # 8]%Q
  = Some (@boxMuller demo_host (1 # 2) (1 # 4) *! (10 # 1) +! 0, [7 # 8]%Q).
Proof.
  apply (proj2 (@gaussianRandom_redraws demo_host 0 (10 # 1)
                  [0 # 1; 1 # 2; 0 # 3; 0 # 1; 1 # 4; 7 # 8]%Q
                  (@boxMuller demo_host (1 # 2) (1 # 4) *! (10 # 1) +! 0)
                  [7 # 8]%Q)).
  exists [0 # 1]%Q, (1 # 2)%Q, [0 # 3; 0 # 1]%Q, (1 # 4)%Q.
  split; [reflexivity|].
  split; [repeat constructor|].
  split; [reflexivity|].
  split; [repeat constructor|].
  split; reflexivity.
Defined.

Lemma statistics_keys_witness :
  exists g',
    computePerLocationStats sample_globals = Some g' /\
    DATASET g' = DATASET sample_globals /\
    forall loc, is_Some (PER_LOCATION_STATS g' !! loc) <-> In loc LOCATIONS.
Proof. exact (statistics_keys sample_globals). Defined.

Lemma csv_export_witness :
  exists name lines,
    @downloadDatasetCSV demo_host show_number sample_globals demo_world
    = (Download name
         (String.concat line_feed (String.concat "," csv_header :: lines)),
       mkWorld (randoms demo_world) (clock demo_world) 1) /\
    length lines = length (DATASET sample_globals) /\
    Forall2 (fun line r =>
               read_row AtCell line
               = Some (map (cell_text show_number r) csv_header) /\
               (Row.density_label r = None ->
                cell_text show_number r "density_label" = ""))
            lines (DATASET sample_globals).
Proof.
  apply (proj2 (@csv_export demo_host show_number sample_globals demo_world)).
  discriminate.
Defined.
